(** * OCitySMap 2: the rendering pipeline of [ocitysmap2/__init__.py]

    A shallow embedding of the module's classes ([RenderingConfiguration],
    [Stylesheet], [OCitySMap]) and of the Python library calls they rely on,
    followed by the properties of the stylesheet registry, the shade
    computation, the output-format dispatch and the temporary-directory
    life cycle of [OCitySMap.render].

    Python objects that are mutated in place (the configuration handed to
    [render], the files of the temporary directory, the logger) live in an
    explicit [state]; a Python exception is the [Raise] outcome of a
    computation, and the state reached when it was raised is kept, as it is
    in Python. *)

From Stdlib Require Import ZArith String Ascii List Bool Lia.
From Stdlib Require Import Floats.PrimFloat.
From stdpp Require Import base option list gmap strings pretty.

#[local] Set Warnings "-inexact-float,-register-all,-clear-no-such-hyp".
#[local] Open Scope string_scope.

(** ** Python values and exceptions *)

(** A Python number as the module meets them: [int] or [float]. *)
Inductive number :=
| PyInt (z : Z)
| PyFloat (f : float).

(** The exception classes the module raises, catches or lets through.
    [Foreign] stands for any other class raised by a library. *)
Inductive exn :=
| AssertionError (msg : string)
| TypeError (msg : string)
| ValueError (msg : string)
| LookupError (msg : string)
| IndexError (msg : string)
| KeyError (msg : string)
| AttributeError (msg : string)
| IOError (msg : string)
| OSError (msg : string)
| NoSectionError (section : string)
| NoOptionError (option section : string)
| Foreign (class_name : string).

Inductive result (A : Type) :=
| Ok (a : A)
| Raise (e : exn).
Arguments Ok {A} a.
Arguments Raise {A} e.

(** ** Byte strings: [str.lower], [str.upper], [str.strip], [str.join] *)

Definition lower_char (c : ascii) : ascii :=
  let n := nat_of_ascii c in
  if (65 <=? n)%nat && (n <=? 90)%nat then ascii_of_nat (n + 32) else c.

Definition upper_char (c : ascii) : ascii :=
  let n := nat_of_ascii c in
  if (97 <=? n)%nat && (n <=? 122)%nat then ascii_of_nat (n - 32) else c.

Fixpoint map_chars (f : ascii -> ascii) (s : string) : string :=
  match s with
  | EmptyString => EmptyString
  | String c s' => String (f c) (map_chars f s')
  end.

(** [s.lower()] and [s.upper()] on a byte string, in the C locale. *)
Definition lower : string -> string := map_chars lower_char.
Definition upper : string -> string := map_chars upper_char.

(** The characters [str.strip()] removes: tab, LF, VT, FF, CR and space. *)
Definition isspace (c : ascii) : bool :=
  let n := nat_of_ascii c in
  ((9 <=? n)%nat && (n <=? 13)%nat) || (n =? 32)%nat.

Fixpoint lstrip (s : string) : string :=
  match s with
  | EmptyString => EmptyString
  | String c s' => if isspace c then lstrip s' else s
  end.

Fixpoint rstrip (s : string) : string :=
  match s with
  | EmptyString => EmptyString
  | String c s' =>
      let r := rstrip s' in
      if isspace c && String.eqb r EmptyString then EmptyString else String c r
  end.

Definition strip (s : string) : string := rstrip (lstrip s).

(** [sep.join(l)] *)
Fixpoint join (sep : string) (l : list string) : string :=
  match l with
  | [] => ""
  | [x] => x
  | x :: rest => x ++ sep ++ join sep rest
  end.

(** [s] without the prefix [p], when it starts with it. *)
Fixpoint strip_prefix (p s : string) : option string :=
  match p, s with
  | EmptyString, _ => Some s
  | String a p', String b s' => if Ascii.eqb a b then strip_prefix p' s' else None
  | String _ _, EmptyString => None
  end.

Definition newline : string := String "010"%char EmptyString.

(** ** [ConfigParser.RawConfigParser]

    The parser keeps one table per section and the table of the [DEFAULT]
    section, whose options every section inherits; option names go through
    [optionxform], which lowers them. *)
Module ConfigParser.

Record RawConfigParser := {
  _sections : gmap string (gmap string string);
  _defaults : gmap string string
}.

Definition DEFAULTSECT : string := "DEFAULT".
Definition optionxform (option : string) : string := lower option.

Definition has_option (p : RawConfigParser) (section option : string) : bool :=
  if String.eqb section "" || String.eqb section DEFAULTSECT then
    bool_decide (is_Some (_defaults p !! optionxform option))
  else
    match _sections p !! section with
    | None => false
    | Some opts =>
        bool_decide (is_Some (opts !! optionxform option))
        || bool_decide (is_Some (_defaults p !! optionxform option))
    end.

Definition get (p : RawConfigParser) (section option : string) : result string :=
  let opt := optionxform option in
  match _sections p !! section with
  | None =>
      if negb (String.eqb section DEFAULTSECT) then Raise (NoSectionError section)
      else match _defaults p !! opt with
           | Some v => Ok v
           | None => Raise (NoOptionError option section)
           end
  | Some opts =>
      match opts !! opt with
      | Some v => Ok v
      | None =>
          match _defaults p !! opt with
          | Some v => Ok v
          | None => Raise (NoOptionError option section)
          end
      end
  end.

End ConfigParser.
Import ConfigParser.

(** ** [class Stylesheet] *)

Record Stylesheet := {
  name : option string;
  path : option string;
  description : string;
  zoom_level : Z;
  grid_line_color : string;
  grid_line_alpha : float;
  grid_line_width : Z;
  shade_color : string;
  shade_alpha : float
}.

(** [Stylesheet.__init__] *)
Definition Stylesheet__init__ : Stylesheet := {|
  name := None;
  path := None;
  description := "";
  zoom_level := 16;
  grid_line_color := "black";
  grid_line_alpha := 0.5;
  grid_line_width := 3;
  shade_color := "black";
  shade_alpha := 0.1
|}.

(** The attribute names [setattr] is called with in
    [create_from_config_section]. *)
Inductive attribute :=
| a_description | a_zoom_level
| a_grid_line_color | a_grid_line_alpha | a_grid_line_width
| a_shade_color | a_shade_alpha.

Definition key (a : attribute) : string :=
  match a with
  | a_description => "description"
  | a_zoom_level => "zoom_level"
  | a_grid_line_color => "grid_line_color"
  | a_grid_line_alpha => "grid_line_alpha"
  | a_grid_line_width => "grid_line_width"
  | a_shade_color => "shade_color"
  | a_shade_alpha => "shade_alpha"
  end.

(** The Python builtins [int(s)] and [float(s)] on a string: [None] is a
    [ValueError]; and [repr(s)], which the message of [int] quotes the
    string with. They are parameters of the development. *)
Class Builtins := {
  int_of_str : string -> option Z;
  float_of_str : string -> option float;
  repr : string -> string
}.

Definition int_cast `{Builtins} (s : string) : result Z :=
  match int_of_str s with
  | Some z => Ok z
  | None => Raise (ValueError ("invalid literal for int() with base 10: " ++ repr s))
  end.

Definition float_cast `{Builtins} (s : string) : result float :=
  match float_of_str s with
  | Some f => Ok f
  | None => Raise (ValueError ("could not convert string to float: " ++ s))
  end.

(** [setattr(s, key, cast_fn(value))] with the cast each call site passes:
    [str] (the default), [int] or [float]. *)
Definition setattr_cast `{Builtins} (s : Stylesheet) (a : attribute) (v : string)
  : result Stylesheet :=
  match a with
  | a_description =>
      Ok {| name := name s; path := path s; description := v;
            zoom_level := zoom_level s; grid_line_color := grid_line_color s;
            grid_line_alpha := grid_line_alpha s; grid_line_width := grid_line_width s;
            shade_color := shade_color s; shade_alpha := shade_alpha s |}
  | a_zoom_level =>
      match int_cast v with
      | Raise e => Raise e
      | Ok z =>
          Ok {| name := name s; path := path s; description := description s;
                zoom_level := z; grid_line_color := grid_line_color s;
                grid_line_alpha := grid_line_alpha s; grid_line_width := grid_line_width s;
                shade_color := shade_color s; shade_alpha := shade_alpha s |}
      end
  | a_grid_line_color =>
      Ok {| name := name s; path := path s; description := description s;
            zoom_level := zoom_level s; grid_line_color := v;
            grid_line_alpha := grid_line_alpha s; grid_line_width := grid_line_width s;
            shade_color := shade_color s; shade_alpha := shade_alpha s |}
  | a_grid_line_alpha =>
      match float_cast v with
      | Raise e => Raise e
      | Ok f =>
          Ok {| name := name s; path := path s; description := description s;
                zoom_level := zoom_level s; grid_line_color := grid_line_color s;
                grid_line_alpha := f; grid_line_width := grid_line_width s;
                shade_color := shade_color s; shade_alpha := shade_alpha s |}
      end
  | a_grid_line_width =>
      match int_cast v with
      | Raise e => Raise e
      | Ok z =>
          Ok {| name := name s; path := path s; description := description s;
                zoom_level := zoom_level s; grid_line_color := grid_line_color s;
                grid_line_alpha := grid_line_alpha s; grid_line_width := z;
                shade_color := shade_color s; shade_alpha := shade_alpha s |}
      end
  | a_shade_color =>
      Ok {| name := name s; path := path s; description := description s;
            zoom_level := zoom_level s; grid_line_color := grid_line_color s;
            grid_line_alpha := grid_line_alpha s; grid_line_width := grid_line_width s;
            shade_color := v; shade_alpha := shade_alpha s |}
  | a_shade_alpha =>
      match float_cast v with
      | Raise e => Raise e
      | Ok f =>
          Ok {| name := name s; path := path s; description := description s;
                zoom_level := zoom_level s; grid_line_color := grid_line_color s;
                grid_line_alpha := grid_line_alpha s; grid_line_width := grid_line_width s;
                shade_color := shade_color s; shade_alpha := f |}
      end
  end.

(** The local function [assign_if_present(key, cast_fn)] of
    [create_from_config_section], acting on the stylesheet [s] under
    construction. *)
Definition assign_if_present `{Builtins} (parser : RawConfigParser)
    (section_name : string) (a : attribute) (s : Stylesheet) : result Stylesheet :=
  if has_option parser section_name (key a) then
    match get parser section_name (key a) with
    | Raise e => Raise e
    | Ok v => setattr_cast s a v
    end
  else Ok s.

(** Sequencing of fallible steps. *)
Definition and_then {A B} (r : result A) (k : A -> result B) : result B :=
  match r with
  | Ok a => k a
  | Raise e => Raise e
  end.

(** [Stylesheet.create_from_config_section(parser, section_name)] *)
Definition create_from_config_section `{Builtins} (parser : RawConfigParser)
    (section_name : string) : result Stylesheet :=
  let s := Stylesheet__init__ in
  and_then (get parser section_name "name") (fun n =>
  and_then (get parser section_name "path") (fun p =>
  let s := {| name := Some n; path := Some p; description := description s;
              zoom_level := zoom_level s; grid_line_color := grid_line_color s;
              grid_line_alpha := grid_line_alpha s; grid_line_width := grid_line_width s;
              shade_color := shade_color s; shade_alpha := shade_alpha s |} in
  and_then (assign_if_present parser section_name a_description s) (fun s =>
  and_then (assign_if_present parser section_name a_zoom_level s) (fun s =>
  and_then (assign_if_present parser section_name a_grid_line_color s) (fun s =>
  and_then (assign_if_present parser section_name a_grid_line_alpha s) (fun s =>
  and_then (assign_if_present parser section_name a_grid_line_width s) (fun s =>
  and_then (assign_if_present parser section_name a_shade_color s) (fun s =>
  and_then (assign_if_present parser section_name a_shade_alpha s) (fun s =>
  Ok s))))))))).

(** ** [OCitySMap.get_stylesheet_by_name] *)

(** [style.name == name] *)
Definition name_is (name_ : string) (style : Stylesheet) : bool :=
  match name style with
  | Some n => String.eqb n name_
  | None => false
  end.

Fixpoint get_stylesheet_by_name (STYLESHEET_REGISTRY : list Stylesheet)
    (name_ : string) : result Stylesheet :=
  match STYLESHEET_REGISTRY with
  | [] => Raise (LookupError ("The requested stylesheet " ++ name_ ++ " was not found!"))
  | style :: rest =>
      if name_is name_ style then Ok style
      else get_stylesheet_by_name rest name_
  end.

(** ** The collaborators of the pipeline

    The modules [coords], [i18n], [index] and [renderers], and the libraries
    [cairo], [gzip], [psycopg2] and [tempfile], are used through the calls
    below and nothing else. Their objects are opaque handles; what they keep
    between calls (the database session, the canvas of a renderer, the
    random-name generator of [tempfile]) is the [World]. *)
Class Handles := {
  World : Type;
  BoundingBox : Type;          (* coords.BoundingBox *)
  I18n : Type;                 (* the object i18n.install_translation returns *)
  RendererCls : Type;          (* a class of the renderers module *)
  Renderer : Type;             (* an instance of it *)
  StreetIndex : Type;          (* index.indexer.StreetIndex *)
  StreetIndexRenderer : Type;  (* index.StreetIndexRenderer *)
  Surface : Type;              (* a cairo surface *)
  RenderingSession : Type      (* renderers.RenderingSession *)
}.

(** ** [class RenderingConfiguration]

    [rtl] is not set by [__init__]: [render] adds the attribute, and [None]
    stands for its absence. [osmid] is [None] or an [int]. *)
Record RenderingConfiguration `{Handles} := {
  title : option string;
  osmid : option Z;
  bounding_box : option BoundingBox;
  language : option string;
  stylesheet : option Stylesheet;
  paper_width_mm : option number;
  paper_height_mm : option number;
  rtl : option bool
}.

(** [RenderingConfiguration.__init__] *)
Definition RenderingConfiguration__init__ `{Handles} : RenderingConfiguration := {|
  title := None; osmid := None; bounding_box := None; language := None;
  stylesheet := None; paper_width_mm := None; paper_height_mm := None;
  rtl := None
|}.

(** ** Files

    A directory is the list of its entries by name; an entry is a file or a
    directory (symbolic links are not part of the model). *)
Inductive node :=
| File
| Dir (entries : list (string * node)).

Abbreviation dir := (list (string * node)).

(** The surface [_render_one] asks cairo for. [SVGSurface_gzip] is an
    [SVGSurface] over the file object that [gzip.GzipFile(filename, 'wb')]
    has returned; [ImageSurface] gets its size in dots from the page size
    and [dpi]. *)
Inductive surface_kind :=
| ImageSurface (dpi : number)
| SVGSurface
| SVGSurface_gzip
| PDFSurface
| PSSurface.

(** A row of the query of [get_geographic_info]: [osm_id], the envelope and
    the built area as text, each [NULL] ([None]) when PostGIS has none. *)
Abbreviation row := (Z * option string * option string)%type.

(** The calls made on a renderer, on the street index, on [gzip] and on
    cairo once the temporary directory exists, indexed by what they return.
    They may leave files in that directory. *)
Inductive call `{Handles} : Type -> Type :=
| Renderer__init__ (renderer_cls : RendererCls) (config : RenderingConfiguration)
    (tmpdir : string) : call Renderer
| create_map_canvas (renderer : Renderer) : call unit
| get_actual_bounding_box (renderer : Renderer) : call BoundingBox
| render_shade (renderer : Renderer) (shade_wkt : option string) : call unit
| canvas_render (renderer : Renderer) : call unit
| StreetIndex__init__ (osmid : option Z) (bbox : BoundingBox) (i18n : I18n)
    (renderer : Renderer) (polygon : option string) : call StreetIndex
| StreetIndexRenderer__init__ (i18n : I18n) (street_index : StreetIndex)
    : call StreetIndexRenderer
| GzipFile__init__ (filename : string) : call unit
| Surface__init__ (kind : surface_kind) (filename : string) (w h : number) : call Surface
| create_rendering_session (renderer : Renderer) (surface : Surface)
    (street_index_renderer : StreetIndexRenderer) (dpi : number) : call RenderingSession
| Renderer_render (renderer : Renderer) (rs : RenderingSession) : call unit
| write_to_png (surface : Surface) (filename : string) : call unit
| finish (surface : Surface) : call unit.

Class Collaborators `{Handles} := {
  (* coords.BoundingBox *)
  parse_wkt : string -> result BoundingBox;
  create_expanded : BoundingBox -> float -> float -> BoundingBox;
  as_wkt : BoundingBox -> bool -> string;
  (* i18n *)
  install_translation : option string -> string -> World -> result I18n * World;
  isrtl : I18n -> bool;
  (* psycopg2: connect on first use, cursor.execute(query), cursor.fetchall() *)
  execute_fetchall : string -> World -> result (list row) * World;
  (* tempfile: the names mkdtemp tries, in order *)
  candidate_names : World -> result (list string) * World;
  (* renderers *)
  get_renderer_class_by_name : string -> World -> result RendererCls * World;
  paper_width_pt : Renderer -> number;
  paper_height_pt : Renderer -> number;
  PT_PER_INCH : number;
  (* the calls that may write under the temporary directory, given its
     entries and returning them *)
  perform : forall X, call X -> World -> dir -> result X * World * dir
}.

Section Pipeline.

Context `{Builtins} `{Collaborators}.

(** ** The state a call of [render] runs in *)

Inductive level := DEBUG | INFO | WARNING | ERROR.

Record state := {
  config : RenderingConfiguration;   (* the object passed to render *)
  world : World;
  tmp : gmap string dir;             (* the directories of the temporary area *)
  outputs : gset string;             (* the output files that exist, by name *)
  log : list (level * string)        (* the records passed to the logger *)
}.

Definition M (A : Type) : Type := state -> result A * state.

Definition ret {A} (a : A) : M A := fun s => (Ok a, s).
Definition raise {A} (e : exn) : M A := fun s => (Raise e, s).
Definition bind {A B} (m : M A) (k : A -> M B) : M B :=
  fun s =>
    match m s with
    | (Ok a, s') => k a s'
    | (Raise e, s') => (Raise e, s')
    end.

#[local] Notation "x <- m ;; k" := (bind m (fun x => k))
  (at level 100, m at next level, right associativity).
#[local] Notation "m ;;; k" := (bind m (fun _ => k))
  (at level 100, right associativity).

(** [try: body except ...: handler], the handler re-raising what its
    [except] clause does not name. *)
Definition try_except {A} (body : M A) (handler : exn -> M A) : M A :=
  fun s =>
    match body s with
    | (Ok a, s') => (Ok a, s')
    | (Raise e, s') => handler e s'
    end.

(** [try: body finally: final]. An exception raised by [final] replaces the
    outcome of [body]. *)
Definition try_finally {A} (body : M A) (final : M unit) : M A :=
  fun s =>
    match body s with
    | (r, s') =>
        match final s' with
        | (Ok _, s'') => (r, s'')
        | (Raise e, s'') => (Raise e, s'')
        end
    end.

(** [for x in l: body(x)] *)
Fixpoint for_each {A} (l : list A) (body : A -> M unit) : M unit :=
  match l with
  | [] => ret tt
  | x :: l' => body x ;;; for_each l' body
  end.

Definition lift {A} (r : result A) : M A := fun s => (r, s).

Definition get_config : M RenderingConfiguration := fun s => (Ok (config s), s).

Definition set_config (c : RenderingConfiguration) (s : state) : state :=
  {| config := c; world := world s; tmp := tmp s; outputs := outputs s; log := log s |}.
Definition set_world (w : World) (s : state) : state :=
  {| config := config s; world := w; tmp := tmp s; outputs := outputs s; log := log s |}.
Definition set_tmp (t : gmap string dir) (s : state) : state :=
  {| config := config s; world := world s; tmp := t; outputs := outputs s; log := log s |}.
Definition set_outputs (o : gset string) (s : state) : state :=
  {| config := config s; world := world s; tmp := tmp s; outputs := o; log := log s |}.
Definition set_log (l : list (level * string)) (s : state) : state :=
  {| config := config s; world := world s; tmp := tmp s; outputs := outputs s; log := l |}.

(** [l.error(msg)]; the records of the [info] and [debug] levels are not
    kept. *)
Definition l_error (msg : string) : M unit :=
  fun s => (Ok tt, set_log (log s ++ [(ERROR, msg)]) s).

(** [config.rtl = v] and [config.bounding_box = v] *)
Definition set_rtl (v : bool) : M unit :=
  fun s =>
    let c := config s in
    (Ok tt, set_config {| title := title c; osmid := osmid c;
                          bounding_box := bounding_box c; language := language c;
                          stylesheet := stylesheet c;
                          paper_width_mm := paper_width_mm c;
                          paper_height_mm := paper_height_mm c;
                          rtl := Some v |} s).

Definition set_bounding_box (v : BoundingBox) : M unit :=
  fun s =>
    let c := config s in
    (Ok tt, set_config {| title := title c; osmid := osmid c;
                          bounding_box := Some v; language := language c;
                          stylesheet := stylesheet c;
                          paper_width_mm := paper_width_mm c;
                          paper_height_mm := paper_height_mm c;
                          rtl := rtl c |} s).

(** A call that does not touch the temporary area. *)
Definition call_world {A} (f : World -> result A * World) : M A :=
  fun s => match f (world s) with (r, w) => (r, set_world w s) end.

(** A call of [call] made while [tmpdir] is the temporary directory. *)
Definition call_in {A} (tmpdir : string) (c : call A) : M A :=
  fun s =>
    match perform A c (world s) (default [] (tmp s !! tmpdir)) with
    | (r, w, d) => (r, set_tmp (<[tmpdir := d]> (tmp s)) (set_world w s))
    end.

(** The output file [filename] now exists. *)
Definition file_created (filename : string) : M unit :=
  fun s => (Ok tt, set_outputs ({[ filename ]} ∪ outputs s) s).

(** ** [tempfile.mkdtemp] and the [os] calls of the cleanup *)

(** [tempfile.mkdtemp(prefix=...)]: the first candidate name whose directory
    does not exist yet is created, empty, and returned. *)
Definition mkdtemp (prefix : string) : M string :=
  names <- call_world candidate_names ;;
  fun s =>
    match List.find (fun n => bool_decide (tmp s !! (prefix ++ n) = None)) names with
    | Some n => (Ok (prefix ++ n), set_tmp (<[prefix ++ n := []]> (tmp s)) s)
    | None => (Raise (IOError "No usable temporary directory name found"), s)
    end.

Definition is_dir (n : node) : bool :=
  match n with Dir _ => true | File => false end.

Definition has_name (name_ : string) (e : string * node) : bool :=
  String.eqb (fst e) name_.

Definition lookup_entry (name_ : string) (d : dir) : option node :=
  option_map snd (List.find (has_name name_) d).

Definition remove_entry (name_ : string) (d : dir) : dir :=
  List.filter (fun e => negb (has_name name_ e)) d.

Fixpoint replace_entry (name_ : string) (n : node) (d : dir) : dir :=
  match d with
  | [] => []
  | e :: d' =>
      if has_name name_ e then (name_, n) :: d'
      else e :: replace_entry name_ n d'
  end.

(** [f] applied to the directory found by following the names [root] from
    [d]. *)
Fixpoint update_at (root : list string) (f : dir -> result dir) (d : dir) : result dir :=
  match root with
  | [] => f d
  | n :: root' =>
      match lookup_entry n d with
      | Some (Dir sub) =>
          and_then (update_at root' f sub) (fun sub' => Ok (replace_entry n (Dir sub') d))
      | Some File => Raise (OSError "Not a directory")
      | None => Raise (OSError "No such file or directory")
      end
  end.

(** What [os.remove] and [os.rmdir] do to the directory holding the entry. *)
Definition unlink (name_ : string) (d : dir) : result dir :=
  match lookup_entry name_ d with
  | Some File => Ok (remove_entry name_ d)
  | Some (Dir _) => Raise (OSError "Is a directory")
  | None => Raise (OSError "No such file or directory")
  end.

Definition rmdir (name_ : string) (d : dir) : result dir :=
  match lookup_entry name_ d with
  | Some (Dir []) => Ok (remove_entry name_ d)
  | Some (Dir (_ :: _)) => Raise (OSError "Directory not empty")
  | Some File => Raise (OSError "Not a directory")
  | None => Raise (OSError "No such file or directory")
  end.

(** A change of the entries of the temporary directory [tmpdir]. *)
Definition in_tmpdir (tmpdir : string) (f : dir -> result dir) : M unit :=
  fun s =>
    match tmp s !! tmpdir with
    | None => (Raise (OSError "No such file or directory"), s)
    | Some d =>
        match f d with
        | Ok d' => (Ok tt, set_tmp (<[tmpdir := d']> (tmp s)) s)
        | Raise e => (Raise e, s)
        end
    end.

(** [os.remove(os.path.join(root, name))] and
    [os.rmdir(os.path.join(root, name))], where [root] is [tmpdir] followed
    by the names [root]. *)
Definition os_remove (tmpdir : string) (root : list string) (name_ : string) : M unit :=
  in_tmpdir tmpdir (update_at root (unlink name_)).

Definition os_rmdir (tmpdir : string) (root : list string) (name_ : string) : M unit :=
  in_tmpdir tmpdir (update_at root (rmdir name_)).

(** [os.rmdir(tmpdir)] *)
Definition os_rmdir_top (tmpdir : string) : M unit :=
  fun s =>
    match tmp s !! tmpdir with
    | Some [] => (Ok tt, set_tmp (delete tmpdir (tmp s)) s)
    | Some (_ :: _) => (Raise (OSError "Directory not empty"), s)
    | None => (Raise (OSError "No such file or directory"), s)
    end.

Definition dirs (d : dir) : list string :=
  map fst (List.filter (fun e => is_dir (snd e)) d).

Definition files (d : dir) : list string :=
  map fst (List.filter (fun e => negb (is_dir (snd e))) d).

(** [os.walk(top, topdown=False)]: the triples [(root, dirs, files)] of the
    directories under [top], each after those of its subdirectories. The
    generator lists a directory when it enters it, before the loop body has
    run for anything in it, and the body only deletes inside directories
    already yielded, so the triples are those of the tree as it is when the
    walk starts. A name that is not a directory yields nothing. *)
Fixpoint walk (root : list string) (n : node)
  : list (list string * list string * list string) :=
  match n with
  | File => []
  | Dir d =>
      flat_map (fun e => walk (root ++ [fst e]) (snd e)) d
      ++ [(root, dirs d, files d)]
  end.

(** [OCitySMap._cleanup_tempdir] *)
Definition _cleanup_tempdir (tmpdir : string) : M unit :=
  triples <- (fun s => (Ok (match tmp s !! tmpdir with
                            | Some d => walk [] (Dir d)
                            | None => []
                            end), s)) ;;
  for_each triples (fun '(root, dirs_, files_) =>
    for_each files_ (fun name_ => os_remove tmpdir root name_) ;;;
    for_each dirs_ (fun name_ => os_rmdir tmpdir root name_)) ;;;
  os_rmdir_top tmpdir.

(** ** [class OCitySMap] *)

Record OCitySMap := {
  _parser : RawConfigParser;
  _locale_path : string;
  STYLESHEET_REGISTRY : list Stylesheet
}.

Definition DEFAULT_RENDERING_PNG_DPI : Z := 300.

(** [int(x)] for an OSM id, which is [None] or an [int]. *)
Definition int_of_osmid (x : option Z) : result Z :=
  match x with
  | Some z => Ok z
  | None => Raise (TypeError "int() argument must be a string or a number, not 'NoneType'")
  end.

(** [map(f, l)] for an [f] that may raise. *)
Fixpoint map_result {A B} (f : A -> result B) (l : list A) : result (list B) :=
  match l with
  | [] => Ok []
  | x :: l' => and_then (f x) (fun y => and_then (map_result f l') (fun ys => Ok (y :: ys)))
  end.

(** [x.strip()] for a column [x] of a row. *)
Definition strip_column (x : option string) : result string :=
  match x with
  | Some s => Ok (strip s)
  | None => Raise (AttributeError "'NoneType' object has no attribute 'strip'")
  end.

(** [lambda x: (x[0], x[1].strip(), x[2].strip())] *)
Definition strip_row (x : row) : result (Z * string * string) :=
  match x with
  | (x0, x1, x2) =>
      and_then (strip_column x1) (fun e =>
      and_then (strip_column x2) (fun a => Ok (x0, e, a)))
  end.

Definition geographic_query (osmids : list string) : string :=
  "select osm_id,
                              st_astext(st_transform(st_envelope(way), 4002)),
                              st_astext(st_transform(st_buildarea(way), 4002))
                            from planet_osm_polygon where osm_id in ("
  ++ join ", " osmids ++ ");".

(** [OCitySMap.get_geographic_info] *)
Definition get_geographic_info (osmids : list (option Z))
  : M (list (Z * string * string)) :=
  ids <- lift (map_result int_of_osmid osmids) ;;
  let osmids := map (fun z : Z => pretty z) ids in
  records <- call_world (execute_fetchall (geographic_query osmids)) ;;
  lift (match map_result strip_row records with
        | Ok infos => Ok infos
        | Raise (KeyError _) | Raise (IndexError _) | Raise (AttributeError _) =>
            Raise (AssertionError "Invalid database structure!")
        | Raise e => Raise e
        end).

(** The longest prefix of [s] without a closing parenthesis, and the rest. *)
Fixpoint span_inside (s : string) : string * string :=
  match s with
  | EmptyString => (EmptyString, EmptyString)
  | String c s' =>
      if Ascii.eqb c ")" then (EmptyString, s)
      else let (a, b) := span_inside s' in (String c a, b)
  end.

(** [regexp_polygon.match(polygon)], giving [matches.groups()[0]]. The
    pattern is anchored at both ends: the text POLYGON and two opening
    parentheses, then the group, which takes every character up to the first
    closing parenthesis, then two closing parentheses. The final anchor
    holds at the end of the string or before a newline that ends it. *)
Definition regexp_polygon_match (polygon : string) : option string :=
  match strip_prefix "POLYGON((" polygon with
  | None => None
  | Some rest =>
      let (inside, tail) := span_inside rest in
      if String.eqb tail "))" || String.eqb tail ("))" ++ newline)
      then Some inside else None
  end.

(** [OCitySMap._get_shade_wkt] *)
Definition _get_shade_wkt (bounding_box_ : BoundingBox) (polygon : string)
  : M (option string) :=
  match regexp_polygon_match polygon with
  | None =>
      l_error "Administrative boundary looks invalid!" ;;;
      ret None
  | Some inside =>
      let bounding_box_ := create_expanded bounding_box_ 0.05 0.05 in
      let poly := "MULTIPOLYGON(((" ++ as_wkt bounding_box_ false ++ ")),(("
                  ++ inside ++ ")))" in
      ret (Some poly)
  end.

(** ** [OCitySMap._render_one] *)

Definition unsupported_format (output_format : string) : exn :=
  ValueError ("Unsupported output format: " ++ upper output_format ++ "!").

(** The [try] of the [png] branch: [int(self._parser.get('rendering',
    'png_dpi'))], with the default when the option is missing. *)
Definition png_dpi (self : OCitySMap) : result Z :=
  match get (_parser self) "rendering" "png_dpi" with
  | Ok v => int_cast v
  | Raise (NoOptionError _ _) => Ok DEFAULT_RENDERING_PNG_DPI
  | Raise e => Raise e
  end.

(** cairo opens the file of a vector surface that is given a file name
    when the surface is created; an image surface is in memory, and the
    surface of [svgz] is given the file that [gzip.GzipFile] has opened. *)
Definition opens_file (kind : surface_kind) : bool :=
  match kind with
  | ImageSurface _ | SVGSurface_gzip => false
  | _ => true
  end.

(** The end of the body of [_render_one], from [surface = factory(...)] on,
    for the [factory] and [dpi] its [if]/[elif] chain has chosen. [tmpdir]
    is the directory [renderer] was created with. *)
Definition draw_page (tmpdir : string) (renderer : Renderer)
    (street_index_renderer : StreetIndexRenderer)
    (filename output_format : string) (factory : surface_kind) (dpi : number) : M unit :=
  (* the argument [gzip.GzipFile(filename, 'wb')] of the surface of [svgz] *)
  match factory with
  | SVGSurface_gzip =>
      call_in tmpdir (GzipFile__init__ filename) ;;;
      file_created filename
  | _ => ret tt
  end ;;;
  surface <- call_in tmpdir (Surface__init__ factory filename
                               (paper_width_pt renderer) (paper_height_pt renderer)) ;;
  (if opens_file factory then file_created filename else ret tt) ;;;
  rs <- call_in tmpdir (create_rendering_session renderer surface
                          street_index_renderer dpi) ;;
  call_in tmpdir (Renderer_render renderer rs) ;;;
  (if String.eqb output_format "png" then
     call_in tmpdir (write_to_png surface filename) ;;;
     file_created filename
   else ret tt) ;;;
  call_in tmpdir (finish surface).

(** The [if]/[elif] chain chooses [factory] and [dpi], returns for [csv]
    and raises for a format it has no branch for. *)
Definition _render_one (self : OCitySMap) (tmpdir : string) (renderer : Renderer)
    (street_index_renderer : StreetIndexRenderer)
    (filename output_format : string) : M unit :=
  let dpi := PT_PER_INCH in
  chosen <-
    (if String.eqb output_format "png" then
       dpi <- lift (png_dpi self) ;;
       ret (Some (ImageSurface (PyInt dpi), PyInt dpi))
     else if String.eqb output_format "svg" then ret (Some (SVGSurface, dpi))
     else if String.eqb output_format "svgz" then ret (Some (SVGSurface_gzip, dpi))
     else if String.eqb output_format "pdf" then ret (Some (PDFSurface, dpi))
     else if String.eqb output_format "ps" then ret (Some (PSSurface, dpi))
     else if String.eqb output_format "csv" then ret None
     else raise (unsupported_format output_format)) ;;
  match chosen with
  | None => ret tt
  | Some (factory, dpi) =>
      draw_page tmpdir renderer street_index_renderer filename output_format factory dpi
  end.

(** ** [OCitySMap.render] *)

(** [bool(config.osmid)] *)
Definition osmid_given (x : option Z) : bool :=
  match x with
  | Some z => negb (Z.eqb z 0)
  | None => false
  end.

(** [l[0]] *)
Definition item0 {A} (l : list A) : result A :=
  match l with
  | x :: _ => Ok x
  | [] => Raise (IndexError "list index out of range")
  end.

(** The local variables of [render] that its [try] block uses. *)
Record locals := {
  output_formats_ : list string;
  tmpdir_ : string;
  renderer_ : Renderer;
  street_index_renderer_ : StreetIndexRenderer
}.

(** The body of [render] up to its [try] statement. *)
Definition render_before_try (self : OCitySMap) (renderer_name : string)
    (output_formats : list string) : M locals :=
  config <- get_config ;;
  (if osmid_given (osmid config) || bool_decide (is_Some (bounding_box config))
   then ret tt
   else raise (AssertionError "At least an OSM ID or a bounding box must be provided!")) ;;;
  let output_formats := map lower output_formats in
  _i18n <- call_world (install_translation (language config) (_locale_path self)) ;;
  set_rtl (isrtl _i18n) ;;;
  osmid_geo_info <-
    try_except
      (infos <- get_geographic_info [osmid config] ;; lift (item0 infos))
      (fun e => match e with
                | IndexError _ => raise (AssertionError "OSM ID not found in the database!")
                | _ => raise e
                end) ;;
  (* Make sure we have a bounding box *)
  bbox <- match bounding_box config with
          | Some b => ret b
          | None => lift (parse_wkt (snd (fst osmid_geo_info)))
          end ;;
  set_bounding_box bbox ;;;
  (* Create a temporary directory for all our shape files *)
  tmpdir <- mkdtemp "ocitysmap" ;;
  renderer_cls <- call_world (get_renderer_class_by_name renderer_name) ;;
  config <- get_config ;;
  renderer <- call_in tmpdir (Renderer__init__ renderer_cls config tmpdir) ;;
  call_in tmpdir (create_map_canvas renderer) ;;;
  polygon <-
    (if osmid_given (osmid config) then
       let polygon := snd osmid_geo_info in
       (if negb (String.eqb polygon "") then
          bbox <- call_in tmpdir (get_actual_bounding_box renderer) ;;
          shade_wkt <- _get_shade_wkt bbox polygon ;;
          call_in tmpdir (render_shade renderer shade_wkt)
        else ret tt) ;;;
       ret (Some polygon)
     else ret None) ;;
  call_in tmpdir (canvas_render renderer) ;;;
  bbox <- call_in tmpdir (get_actual_bounding_box renderer) ;;
  street_index <- call_in tmpdir (StreetIndex__init__ (osmid config) bbox _i18n
                                    renderer polygon) ;;
  street_index_renderer <- call_in tmpdir (StreetIndexRenderer__init__ _i18n street_index) ;;
  ret {| output_formats_ := output_formats; tmpdir_ := tmpdir;
         renderer_ := renderer; street_index_renderer_ := street_index_renderer |}.

(** The [for] loop of the [try] block. *)
Definition render_outputs (self : OCitySMap) (v : locals) (file_prefix : string) : M unit :=
  for_each (output_formats_ v) (fun output_format =>
    let output_filename := file_prefix ++ "." ++ output_format in
    _render_one self (tmpdir_ v) (renderer_ v) (street_index_renderer_ v)
                output_filename output_format).

Definition render (self : OCitySMap) (renderer_name : string)
    (output_formats : list string) (file_prefix : string) : M unit :=
  v <- render_before_try self renderer_name output_formats ;;
  try_finally (render_outputs self v file_prefix) (_cleanup_tempdir (tmpdir_ v)).

(** ** Well-formed directories

    The names of a directory are distinct, in all its subdirectories too. *)
Fixpoint well_formed (n : node) : bool :=
  match n with
  | File => true
  | Dir d =>
      bool_decide (NoDup (map fst d)) && forallb (fun e => well_formed (snd e)) d
  end.

(** The collaborators leave a well-formed temporary directory well-formed. *)
Definition tidy : Prop :=
  forall X (c : call X) w d,
    well_formed (Dir d) = true -> well_formed (Dir (snd (perform X c w d))) = true.

End Pipeline.

Arguments state {_}.
Arguments locals {_}.

(** ** Reading a stylesheet back

    [getattr s a] is the attribute [a] of [s] as a Python value, and
    [cast a v] what the cast of its call site makes of the text [v]. *)
Inductive value :=
| VStr (s : string)
| VInt (z : Z)
| VFloat (f : float).

Definition getattr (s : Stylesheet) (a : attribute) : value :=
  match a with
  | a_description => VStr (description s)
  | a_zoom_level => VInt (zoom_level s)
  | a_grid_line_color => VStr (grid_line_color s)
  | a_grid_line_alpha => VFloat (grid_line_alpha s)
  | a_grid_line_width => VInt (grid_line_width s)
  | a_shade_color => VStr (shade_color s)
  | a_shade_alpha => VFloat (shade_alpha s)
  end.

Definition cast `{Builtins} (a : attribute) (v : string) : result value :=
  match a with
  | a_description | a_grid_line_color | a_shade_color => Ok (VStr v)
  | a_zoom_level | a_grid_line_width => and_then (int_cast v) (fun z => Ok (VInt z))
  | a_grid_line_alpha | a_shade_alpha => and_then (float_cast v) (fun f => Ok (VFloat f))
  end.

(** The defaults a stylesheet is documented to have, attribute by
    attribute, to be compared with [Stylesheet__init__]. *)
Definition documented_default (a : attribute) : value :=
  match a with
  | a_description => VStr ""
  | a_zoom_level => VInt 16
  | a_grid_line_color => VStr "black"
  | a_grid_line_alpha => VFloat 0.5
  | a_grid_line_width => VInt 3
  | a_shade_color => VStr "black"
  | a_shade_alpha => VFloat 0.1
  end.

(** [c] occurs in [s]. *)
Fixpoint mentions (c : ascii) (s : string) : bool :=
  match s with
  | EmptyString => false
  | String c' s' => Ascii.eqb c' c || mentions c s'
  end.

(** The formats [_render_one] has a branch for. *)
Definition supported_formats : list string :=
  ["png"; "svg"; "svgz"; "pdf"; "ps"; "csv"].

(** ** A scripted set of collaborators

    Used to run the pipeline on concrete inputs: the database returns the
    rows of the script, the calls named in [failing] raise, building the map
    canvas leaves shape files in the temporary directory, and the world is
    the journal of the calls made. *)
Module Scripted.

Record script := {
  rows : list row;
  failing : list string;
  tmp_names : list string
}.

Definition handles : Handles := {|
  World := list string;
  BoundingBox := string;
  I18n := bool;
  RendererCls := string;
  Renderer := string;
  StreetIndex := unit;
  StreetIndexRenderer := unit;
  Surface := string;
  RenderingSession := unit
|}.
#[local] Existing Instance handles.

Definition label {X} (c : @call handles X) : string :=
  match c with
  | Renderer__init__ _ _ _ => "Renderer"
  | create_map_canvas _ => "create_map_canvas"
  | get_actual_bounding_box _ => "get_actual_bounding_box"
  | render_shade _ _ => "render_shade"
  | canvas_render _ => "canvas.render"
  | StreetIndex__init__ _ _ _ _ _ => "StreetIndex"
  | StreetIndexRenderer__init__ _ _ => "StreetIndexRenderer"
  | GzipFile__init__ f => "GzipFile " ++ f
  | Surface__init__ _ f _ _ => "Surface " ++ f
  | create_rendering_session _ _ _ _ => "create_rendering_session"
  | Renderer_render _ _ => "render"
  | write_to_png _ f => "write_to_png " ++ f
  | finish s => "finish " ++ s
  end.

Definition answer {X} (c : @call handles X) : X :=
  match c in call X return X with
  | Renderer__init__ cls _ _ => cls
  | create_map_canvas _ => tt
  | get_actual_bounding_box _ => "actual bounding box"
  | render_shade _ _ => tt
  | canvas_render _ => tt
  | StreetIndex__init__ _ _ _ _ _ => tt
  | StreetIndexRenderer__init__ _ _ => tt
  | GzipFile__init__ _ => tt
  | Surface__init__ _ f _ _ => f
  | create_rendering_session _ _ _ _ => tt
  | Renderer_render _ _ => tt
  | write_to_png _ _ => tt
  | finish _ => tt
  end.

Definition shape_files : dir :=
  [("map.xml", File);
   ("shapes", Dir [("grid.shp", File); ("grid.dbf", File); ("cache", Dir [])])].

Definition writes {X} (c : @call handles X) (d : dir) : dir :=
  match c with
  | create_map_canvas _ => shape_files
  | _ => d
  end.

Definition said (l : string) (ls : list string) : bool :=
  existsb (String.eqb l) ls.

Definition collaborators (sc : script) : @Collaborators handles := {|
  parse_wkt := fun wkt => Ok wkt;
  create_expanded := fun b _ _ => "expanded " ++ b;
  as_wkt := fun b _ => b;
  install_translation := fun _ _ w => (Ok false, (w ++ ["install_translation"])%list);
  isrtl := fun i => i;
  execute_fetchall := fun _ w => (Ok (rows sc), (w ++ ["execute"])%list);
  candidate_names := fun w => (Ok (tmp_names sc), w);
  get_renderer_class_by_name := fun n w => (Ok n, (w ++ ["get_renderer_class_by_name"])%list);
  paper_width_pt := fun _ => PyFloat 595;
  paper_height_pt := fun _ => PyFloat 842;
  PT_PER_INCH := PyFloat 72;
  perform := fun X c w d =>
    if said (label c) (failing sc)
    then (Raise (Foreign (label c)), (w ++ [label c])%list, d)
    else (Ok (answer c), (w ++ [label c])%list, writes c d)
|}.

Fixpoint digits (s : string) (acc : Z) : option Z :=
  match s with
  | EmptyString => Some acc
  | String c s' =>
      let n := nat_of_ascii c in
      if (48 <=? n)%nat && (n <=? 57)%nat
      then digits s' (10 * acc + Z.of_nat (n - 48))
      else None
  end.

(** Unsigned decimal integers only, two float literals, and the [repr] of
    a string without quote, backslash or control character. *)
Definition builtins : Builtins := {|
  int_of_str := fun s => if String.eqb s "" then None else digits s 0;
  float_of_str := fun s =>
    if String.eqb s "0.25" then Some 0.25%float
    else if String.eqb s "1.0" then Some 1%float
    else None;
  repr := fun s => "'" ++ s ++ "'"
|}.

Definition parser : RawConfigParser := {|
  _sections :=
    {[ "rendering" := ({[ "available_stylesheets" := "default,night" ]} : gmap string string);
       "default" := {[ "name" := "Default"; "path" := "/styles/osm.xml" ]};
       "night" := {[ "name" := "Night"; "path" := "/styles/night.xml";
                     "zoom_level" := "12"; "shade_alpha" := "0.25" ]} ]};
  _defaults := ∅
|}.

Definition self : OCitySMap := {|
  _parser := parser;
  _locale_path := "../locale";
  STYLESHEET_REGISTRY := []
|}.

Definition configuration (osmid_ : option Z) (bounding_box_ : option string)
  : @RenderingConfiguration handles := {|
  title := Some "Chevreuse"; osmid := osmid_; bounding_box := bounding_box_;
  language := Some "fr_FR.UTF-8"; stylesheet := None;
  paper_width_mm := Some (PyInt 297); paper_height_mm := Some (PyInt 420);
  rtl := None
|}.

Definition start (c : @RenderingConfiguration handles) : @state handles := {|
  config := c; world := []; tmp := ∅; outputs := ∅; log := []
|}.

Definition chevreuse : row :=
  ((-943886)%Z, Some "POLYGON((1.9 48.6,2.1 48.6,2.1 48.8,1.9 48.8,1.9 48.6))",
   Some "POLYGON((2 48.7,2.05 48.7,2.05 48.75,2 48.7))").

(** The area is in the database with its polygon, and nothing fails. *)
Definition nominal : script :=
  {| rows := [chevreuse]; failing := []; tmp_names := ["a1"; "b2"] |}.

(** Compositing the base canvas fails, after the shape files were made. *)
Definition canvas_fails : script :=
  {| rows := [chevreuse]; failing := ["canvas.render"]; tmp_names := ["a1"; "b2"] |}.

(** Writing the raster image fails. *)
Definition png_fails : script :=
  {| rows := [chevreuse]; failing := ["write_to_png /tmp/mymap.png"];
     tmp_names := ["a1"; "b2"] |}.

(** The area is in the database, without a polygon. *)
Definition null_polygon : script :=
  {| rows := [((-943886)%Z,
               Some "POLYGON((1.9 48.6,2.1 48.6,2.1 48.8,1.9 48.8,1.9 48.6))", None)];
     failing := []; tmp_names := ["a1"; "b2"] |}.

Definition night_style : Stylesheet := {|
  name := Some "Night"; path := Some "/styles/night.xml"; description := "";
  zoom_level := 12; grid_line_color := "black"; grid_line_alpha := 0.5;
  grid_line_width := 3; shade_color := "black"; shade_alpha := 0.25
|}.

Definition run (sc : script) (c : @RenderingConfiguration handles)
    (output_formats : list string) : result unit * @state handles :=
  @render builtins handles (collaborators sc) self "plain" output_formats
          "/tmp/mymap" (start c).

Definition default_style : Stylesheet := {|
  name := Some "Default"; path := Some "/styles/osm.xml"; description := "";
  zoom_level := 16; grid_line_color := "black"; grid_line_alpha := 0.5;
  grid_line_width := 3; shade_color := "black"; shade_alpha := 0.1
|}.

(** The parser, with a space after the comma of the list of stylesheets. *)
Definition spaced : RawConfigParser := {|
  _sections :=
    <[ "rendering" := ({[ "available_stylesheets" := "default, night" ]}
                       : gmap string string) ]> (_sections parser);
  _defaults := ∅
|}.

(** The parser, with a resolution for the raster images. *)
Definition with_png_dpi (v : string) : RawConfigParser := {|
  _sections :=
    <[ "rendering" := ({[ "available_stylesheets" := "default,night";
                          "png_dpi" := v ]} : gmap string string) ]> (_sections parser);
  _defaults := ∅
|}.

(** The area is not in the database. *)
Definition unknown_area : script :=
  {| rows := []; failing := []; tmp_names := ["a1"; "b2"] |}.

(** A state left by earlier work: two temporary directories, one of them
    with the first candidate name, an output file and a log record. *)
Definition busy (c : @RenderingConfiguration handles) : @state handles := {|
  config := c; world := [];
  tmp := {[ "ocitysmapa1" := shape_files; "ocitysmapzz" := [("index.csv", File)] ]};
  outputs := {[ "/tmp/old.pdf" ]};
  log := [(INFO, "earlier")]
|}.

End Scripted.

(** ** Loading the stylesheets and building the instance *)

(** [s.split(sep)] for a separator of one character. *)
Fixpoint split_on (sep : ascii) (s : string) : list string :=
  match s with
  | EmptyString => [EmptyString]
  | String c s' =>
      if Ascii.eqb c sep then EmptyString :: split_on sep s'
      else match split_on sep s' with
           | h :: t => String c h :: t
           | [] => [String c EmptyString]
           end
  end.

(** [Stylesheet.create_all_from_config(parser)] *)
Definition create_all_from_config `{Builtins} (parser : RawConfigParser)
  : result (list Stylesheet) :=
  and_then (get parser "rendering" "available_stylesheets") (fun styles =>
  if String.eqb styles ""
  then Raise (ValueError "OCitySMap configuration does not contain any stylesheet!")
  else map_result (create_from_config_section parser) (split_on "," styles)).

(** [OCitySMap.get_all_style_configurations] *)
Definition get_all_style_configurations (self : OCitySMap) : list Stylesheet :=
  STYLESHEET_REGISTRY self.

(** What [__init__] asks of the system: [os.path.expanduser], the path
    [os.path.join(os.path.dirname(__file__), '..', 'locale')], and
    [RawConfigParser().read(files)], which gives the parser once filled and
    the list of the files it could read, or raises on a malformed file. *)
Class System := {
  expanduser : string -> string;
  locale_path : string;
  read : list string -> result (RawConfigParser * list string)
}.

(** The argument [config_files] of [__init__]: [None], one path, or a
    list of paths. *)
Inductive config_files_arg :=
| no_config_files
| one_config_file (path_ : string)
| config_file_list (paths : list string).

(** [OCitySMap.__init__(config_files, grid_table_prefix)], giving the
    attributes [render] uses and the attribute [_grid_table_prefix];
    [__db] starts as [None], see [db_state] below. *)
Definition OCitySMap__init__ `{Builtins} `{System} (config_files : config_files_arg)
    (grid_table_prefix : option string) : result (OCitySMap * string) :=
  let config_files :=
    match config_files with
    | no_config_files => ["/etc/ocitysmap.conf"; "~/.ocitysmap.conf"]
    | one_config_file p => [p]
    | config_file_list l => l
    end in
  let config_files := map expanduser config_files in
  and_then (read config_files) (fun '(parser, files_read) =>
  match files_read with
  | [] => Raise (IOError "None of the configuration files could be read!")
  | _ :: _ =>
      let _grid_table_prefix :=
        match grid_table_prefix with
        | None => ""
        | Some p => p
        end ++ "grid_squares" in
      and_then (create_all_from_config parser) (fun registry =>
      Ok ({| _parser := parser; _locale_path := locale_path;
             STYLESHEET_REGISTRY := registry |}, _grid_table_prefix))
  end).

(** ** The database connection *)

(** [psycopg2]: connections and cursors are handles, and what the server
    and the driver keep is the [Session]. *)
Class Psycopg2 := {
  Connection : Type;
  Cursor : Type;
  Session : Type;
  (* psycopg2.connect(user=, password=, host=, database=) *)
  connect : string -> string -> string -> string -> Session -> result Connection * Session;
  set_client_encoding : Connection -> string -> Session -> result unit * Session;
  cursor : Connection -> Session -> result Cursor * Session;
  execute : Cursor -> string -> Session -> result unit * Session;
  fetchall : Cursor -> Session -> result (list (list string)) * Session
}.

Definition DEFAULT_REQUEST_TIMEOUT_MIN : Z := 15.

(** [parser.items(section)]: the options of the section over those of
    [DEFAULT]. *)
Definition items (p : RawConfigParser) (section : string)
  : result (gmap string string) :=
  match _sections p !! section with
  | Some opts => Ok (opts ∪ _defaults p)
  | None =>
      if negb (String.eqb section DEFAULTSECT) then Raise (NoSectionError section)
      else Ok (_defaults p)
  end.

(** [d[k]] on a [dict] *)
Definition getitem (d : gmap string string) (k : string) : result string :=
  match d !! k with
  | Some v => Ok v
  | None => Raise (KeyError k)
  end.

(** The [try] of [_get_db]: [int(self._parser.get('datasource',
    'request_timeout'))], with the default on [NoOptionError] and on
    [ValueError]. *)
Definition request_timeout `{Builtins} (self : OCitySMap) : result Z :=
  match and_then (get (_parser self) "datasource" "request_timeout") int_cast with
  | Ok z => Ok z
  | Raise (NoOptionError _ _) | Raise (ValueError _) => Ok DEFAULT_REQUEST_TIMEOUT_MIN
  | Raise e => Raise e
  end.

(** ['set session statement_timeout=%d;' % (timeout_minutes * 60 * 1000)] *)
Definition statement_timeout_query (timeout_minutes : Z) : string :=
  "set session statement_timeout=" ++ pretty (timeout_minutes * 60 * 1000)%Z ++ ";".

Section Database.

Context `{Builtins} `{Psycopg2}.

(** The attribute [__db] of the instance, and the session. *)
Record db_state := {
  __db : option Connection;
  session : Session
}.

Definition DB (A : Type) : Type := db_state -> result A * db_state.

Definition db_ret {A} (a : A) : DB A := fun s => (Ok a, s).
Definition db_bind {A B} (m : DB A) (k : A -> DB B) : DB B :=
  fun s =>
    match m s with
    | (Ok a, s') => k a s'
    | (Raise e, s') => (Raise e, s')
    end.
Definition db_lift {A} (r : result A) : DB A := fun s => (r, s).

#[local] Notation "x <- m ;; k" := (db_bind m (fun x => k))
  (at level 100, m at next level, right associativity).
#[local] Notation "m ;;; k" := (db_bind m (fun _ => k))
  (at level 100, right associativity).

(** A call of the driver. *)
Definition on_session {A} (f : Session -> result A * Session) : DB A :=
  fun s => match f (session s) with
           | (r, w) => (r, {| __db := __db s; session := w |})
           end.

(** [OCitySMap._set_request_timeout(db, timeout_minutes)]; the argument of
    [l.debug] is [cursor.fetchall()[0][0]]. *)
Definition _set_request_timeout (db : Connection) (timeout_minutes : Z) : DB unit :=
  cursor_ <- on_session (cursor db) ;;
  on_session (execute cursor_ (statement_timeout_query timeout_minutes)) ;;;
  on_session (execute cursor_ "show statement_timeout;") ;;;
  rows_ <- on_session (fetchall cursor_) ;;
  row0 <- db_lift (item0 rows_) ;;
  _ <- db_lift (item0 row0) ;;
  db_ret tt.

(** [OCitySMap._get_db], the getter of the property [_db]. *)
Definition _get_db (self : OCitySMap) : DB Connection :=
  fun s =>
    match __db s with
    | Some db => (Ok db, s)
    | None =>
        (datasource <- db_lift (items (_parser self) "datasource") ;;
         (* the arguments of l.info *)
         db_lift (getitem datasource "dbname") ;;;
         db_lift (getitem datasource "host") ;;;
         db_lift (getitem datasource "user") ;;;
         user <- db_lift (getitem datasource "user") ;;
         password <- db_lift (getitem datasource "password") ;;
         host <- db_lift (getitem datasource "host") ;;
         database <- db_lift (getitem datasource "dbname") ;;
         db <- on_session (connect user password host database) ;;
         on_session (set_client_encoding db "utf8") ;;;
         timeout <- db_lift (request_timeout self) ;;
         _set_request_timeout db timeout ;;;
         (fun s => (Ok db, {| __db := Some db; session := session s |}))) s
    end.

End Database.

Arguments db_state {_}.

(** ** A scripted system and a scripted database driver *)
Module ScriptedServices.

(** The files that exist, each with the parser it yields. *)
Definition system (files : list (string * RawConfigParser)) : System := {|
  expanduser := fun p =>
    match strip_prefix "~" p with
    | Some rest => "/home/maposmatic" ++ rest
    | None => p
    end;
  locale_path := "ocitysmap2/../locale";
  read := fun paths =>
    match List.find (fun f => existsb (String.eqb (fst f)) paths) files with
    | Some f => Ok (snd f, [fst f])
    | None => Ok ({| _sections := ∅; _defaults := ∅ |}, [])
    end
|}.

(** The session is the journal of the calls; the connection fails when the
    host is [unreachable], and [answer] is what [fetchall] returns. *)
Definition psycopg2 (answer : list (list string)) : Psycopg2 := {|
  Connection := string;
  Cursor := string;
  Session := list string;
  connect := fun user password host database w =>
    if String.eqb host "unreachable"
    then (Raise (Foreign "OperationalError"), (w ++ ["connect"])%list)
    else (Ok (user ++ "@" ++ host ++ "/" ++ database), (w ++ ["connect"])%list);
  set_client_encoding := fun _ enc w => (Ok tt, (w ++ [("encoding " ++ enc)%string])%list);
  cursor := fun db w => (Ok db, w);
  execute := fun _ q w => (Ok tt, (w ++ [q])%list);
  fetchall := fun _ w => (Ok answer, w)
|}.

Definition with_datasource (host timeout : string) : RawConfigParser := {|
  _sections :=
    {[ "rendering" := ({[ "available_stylesheets" := "default,night" ]} : gmap string string);
       "default" := {[ "name" := "Default"; "path" := "/styles/osm.xml" ]};
       "night" := {[ "name" := "Night"; "path" := "/styles/night.xml";
                     "zoom_level" := "12"; "shade_alpha" := "0.25" ]};
       "datasource" := {[ "dbname" := "gis"; "host" := host; "user" := "maposmatic";
                          "password" := "secret"; "request_timeout" := timeout ]} ]};
  _defaults := ∅
|}.

Definition instance (host timeout : string) : OCitySMap := {|
  _parser := with_datasource host timeout;
  _locale_path := "ocitysmap2/../locale";
  STYLESHEET_REGISTRY := []
|}.

(** An instance whose section [datasource] has no password. *)
Definition without_password : OCitySMap := {|
  _parser :=
    {| _sections :=
         {[ "datasource" := ({[ "dbname" := "gis"; "host" := "localhost";
                                "user" := "maposmatic" ]} : gmap string string) ]};
       _defaults := ∅ |};
  _locale_path := "ocitysmap2/../locale";
  STYLESHEET_REGISTRY := []
|}.

End ScriptedServices.

(** ** Vocabulary of the proofs *)

(** The first style of [reg] named [name_] is [style]. *)
Definition first_named (reg : list Stylesheet) (name_ : string) (style : Stylesheet)
  : Prop :=
  exists before after,
    reg = (before ++ style :: after)%list
    /\ name style = Some name_
    /\ Forall (fun s => name s <> Some name_) before.

(** [polygon] is the text POLYGON, two opening parentheses, a ring without
    closing parenthesis and two closing parentheses, followed by [ending]. *)
Definition single_ring (ending : string) (polygon ring : string) : Prop :=
  mentions ")" ring = false /\ polygon = "POLYGON((" ++ ring ++ "))" ++ ending.

Section Vocabulary.

Context {B : Builtins} {H : Handles} {C : Collaborators}.

(** A Hoare triple over [M]: from a state in [P], [m] ends with an outcome
    and a state in [Q]. *)
Definition hoare {A} (P : state -> Prop) (m : M A) (Q : result A -> state -> Prop)
  : Prop :=
  forall s, P s -> Q (fst (m s)) (snd (m s)).

(** [I] holds after [m] whenever it held before, however [m] ends. *)
Definition stable {A} (I : state -> Prop) (m : M A) : Prop :=
  hoare I m (fun _ => I).

(** When [m] returns from a state in [P], its value and state are in [Q]. *)
Definition returns {A} (P : state -> Prop) (m : M A) (Q : A -> state -> Prop) : Prop :=
  hoare P m (fun r s => forall a, r = Ok a -> Q a s).

(** What [render] keeps of the configuration [c0] it was given. *)
Definition kept (c0 c : RenderingConfiguration) : Prop :=
  title c = title c0 /\ osmid c = osmid c0 /\ language c = language c0
  /\ stylesheet c = stylesheet c0
  /\ paper_width_mm c = paper_width_mm c0 /\ paper_height_mm c = paper_height_mm c0
  /\ (forall b, bounding_box c0 = Some b -> bounding_box c = Some b).

(** [tmpdir] is a well-formed directory, and the only difference between
    the temporary area and [T]. *)
Definition workspace (tmpdir : string) (T : gmap string dir) (s : state) : Prop :=
  T !! tmpdir = None
  /\ exists d, tmp s = <[tmpdir := d]> T /\ well_formed (Dir d) = true.

(** The temporary directories of [T] are in the temporary area, with their
    entries. *)
Definition others_kept (T : gmap string dir) (s : state) : Prop :=
  forall t d, T !! t = Some d -> tmp s !! t = Some d.

(** The same, [tmpdir] not being one of them. *)
Definition others_kept_beside (T : gmap string dir) (tmpdir : string) (s : state)
  : Prop :=
  T !! tmpdir = None /\ others_kept T s.

(** The configuration has its bounding box and its [rtl] flag. *)
Definition resolved (s : state) : Prop :=
  is_Some (bounding_box (config s)) /\ is_Some (rtl (config s)).

(** Changes of one directory, in sequence. *)
Fixpoint seq_ops (ops : list (dir -> result dir)) (d : dir) : result dir :=
  match ops with
  | [] => Ok d
  | f :: ops' => and_then (f d) (seq_ops ops')
  end.

(** The changes the body of the loop of [_cleanup_tempdir] makes for one
    triple of the walk. *)
Definition triple_ops (t : list string * list string * list string)
  : list (dir -> result dir) :=
  match t with
  | (root, dirs_, files_) =>
      (map (fun name_ => update_at root (unlink name_)) files_
       ++ map (fun name_ => update_at root (rmdir name_)) dirs_)%list
  end.

(** The changes of the whole loop over [os.walk], for the tree [n] found
    at [root]. *)
Definition walk_ops (root : list string) (n : node) : list (dir -> result dir) :=
  concat (map triple_ops (walk root n)).

(** An entry once the walk is through with it: a subdirectory is empty. *)
Definition emptied (e : string * node) : string * node :=
  (fst e, match snd e with Dir _ => Dir [] | File => File end).

End Vocabulary.

(** * Properties *)

(** ** Strings *)

Lemma lower_char_idempotent (c : ascii) : lower_char (lower_char c) = lower_char c.
Proof. destruct c as [[] [] [] [] [] [] [] []]; reflexivity. Qed.

Lemma lower_idempotent (s : string) : lower (lower s) = lower s.
Proof.
  unfold lower. induction s as [|c s IH]; simpl.
  - reflexivity.
  - now rewrite lower_char_idempotent, IH.
Qed.

Lemma map_lower_idempotent (l : list string) : map lower (map lower l) = map lower l.
Proof.
  induction l as [|x l IH]; simpl; [reflexivity|].
  now rewrite lower_idempotent, IH.
Qed.

Lemma strip_prefix_app (p s : string) : strip_prefix p (p ++ s) = Some s.
Proof.
  induction p as [|a p IH]; simpl; [reflexivity|].
  now rewrite Ascii.eqb_refl.
Qed.

Lemma strip_prefix_Some (p s r : string) : strip_prefix p s = Some r -> s = p ++ r.
Proof.
  revert s. induction p as [|a p IH]; intros s; simpl.
  - now intros [= ->].
  - destruct s as [|b s]; [discriminate|].
    destruct (Ascii.eqb a b) eqn:E; [|discriminate].
    apply Ascii.eqb_eq in E as ->. intros E. now rewrite (IH _ E).
Qed.

Lemma span_inside_app (ring t : string) :
  mentions ")" ring = false ->
  span_inside (ring ++ String ")" t) = (ring, String ")" t).
Proof.
  induction ring as [|c ring IH]; simpl; intros Hm.
  - reflexivity.
  - apply orb_false_iff in Hm as [Hc Hm].
    rewrite Hc, (IH Hm). reflexivity.
Qed.

Lemma span_inside_spec (s a b : string) :
  span_inside s = (a, b) -> s = a ++ b /\ mentions ")" a = false.
Proof.
  revert a b. induction s as [|c s IH]; simpl; intros a b.
  - intros [= <- <-]. now split.
  - destruct (Ascii.eqb c ")") eqn:Ec.
    + intros [= <- <-]. now split.
    + destruct (span_inside s) as [a' b'] eqn:Es. intros [= <- <-].
      destruct (IH _ _ eq_refl) as [-> Hm]. simpl. rewrite Ec, Hm. now split.
Qed.

(** The regular expression of [_get_shade_wkt] matches exactly the
    single-ring texts, possibly ended by one newline, and its group is the
    ring. *)
Lemma regexp_polygon_match_Some (polygon inside : string) :
  regexp_polygon_match polygon = Some inside <->
  single_ring "" polygon inside \/ single_ring newline polygon inside.
Proof.
  unfold regexp_polygon_match, single_ring. split.
  - destruct (strip_prefix "POLYGON((" polygon) as [rest|] eqn:Ep; [|discriminate].
    apply strip_prefix_Some in Ep as ->.
    destruct (span_inside rest) as [a b] eqn:Es.
    destruct (span_inside_spec _ _ _ Es) as [-> Hm].
    destruct (String.eqb b "))") eqn:E1; simpl.
    + intros [= <-]. apply String.eqb_eq in E1 as ->. left. split; [assumption|].
      reflexivity.
    + destruct (String.eqb b ("))" ++ newline)) eqn:E2; [|discriminate].
      intros [= <-]. apply String.eqb_eq in E2 as ->. right. split; [assumption|].
      reflexivity.
  - intros [[Hm ->]|[Hm ->]].
    + change ("POLYGON((" ++ inside ++ "))" ++ "")
        with ("POLYGON((" ++ (inside ++ String ")" ")")).
      rewrite strip_prefix_app, (span_inside_app _ _ Hm). reflexivity.
    + change ("POLYGON((" ++ inside ++ "))" ++ newline)
        with ("POLYGON((" ++ (inside ++ String ")" (")" ++ newline))).
      rewrite strip_prefix_app, (span_inside_app _ _ Hm). reflexivity.
Qed.

(** ** The stylesheet registry *)

Lemma name_is_true (name_ : string) (style : Stylesheet) :
  name_is name_ style = true <-> name style = Some name_.
Proof.
  unfold name_is. destruct (name style) as [n|].
  - rewrite String.eqb_eq. split; congruence.
  - split; discriminate.
Qed.

Lemma name_is_false (name_ : string) (style : Stylesheet) :
  name_is name_ style = false <-> name style <> Some name_.
Proof.
  rewrite <- name_is_true. destruct (name_is name_ style); split; congruence.
Qed.

Lemma get_stylesheet_by_name_Ok (reg : list Stylesheet) (name_ : string) style :
  get_stylesheet_by_name reg name_ = Ok style <-> first_named reg name_ style.
Proof.
  unfold first_named. induction reg as [|x reg IH]; simpl.
  - split; [discriminate|]. intros (before & after & E & _). now destruct before.
  - destruct (name_is name_ x) eqn:Ex.
    + split.
      * intros [= ->]. exists [], reg. repeat split; [now apply name_is_true | constructor].
      * intros (before & after & E & Hn & Hb). destruct before as [|y before].
        -- now injection E as ->.
        -- injection E as -> _. apply Forall_inv in Hb.
           apply name_is_false in Hb. congruence.
    + rewrite IH. split.
      * intros (before & after & -> & Hn & Hb). exists (x :: before), after.
        repeat split; [assumption|]. constructor; [now apply name_is_false | assumption].
      * intros (before & after & E & Hn & Hb). destruct before as [|y before].
        -- injection E as -> _. apply name_is_true in Hn. congruence.
        -- injection E as -> ->. exists before, after. repeat split; [assumption|].
           now apply Forall_inv_tail in Hb.
Qed.

Lemma get_stylesheet_by_name_Raise (reg : list Stylesheet) (name_ : string) e :
  get_stylesheet_by_name reg name_ = Raise e <->
  e = LookupError ("The requested stylesheet " ++ name_ ++ " was not found!")
  /\ Forall (fun s => name s <> Some name_) reg.
Proof.
  induction reg as [|x reg IH]; simpl.
  - split; [intros [= <-]; split; [reflexivity | constructor] | now intros [-> _]].
  - destruct (name_is name_ x) eqn:Ex.
    + split; [discriminate|]. intros [_ Hf]. apply Forall_inv in Hf.
      apply name_is_false in Hf. congruence.
    + rewrite IH. apply name_is_false in Ex. split; intros [-> Hf]; split; trivial.
      * now constructor.
      * now apply Forall_inv_tail in Hf.
Qed.

(** C9. Lookup by name returns a stylesheet exactly when it is the first of
    the registry with that name, whatever follows it (so the first of
    several stylesheets loaded under one name wins), and raises the
    [LookupError] of the source exactly when no registered stylesheet has the
    name; it raises nothing else. *)
Theorem get_stylesheet_by_name_first_match (reg : list Stylesheet) (name_ : string) :
  (forall style,
      get_stylesheet_by_name reg name_ = Ok style <-> first_named reg name_ style)
  /\ (get_stylesheet_by_name reg name_
      = Raise (LookupError ("The requested stylesheet " ++ name_ ++ " was not found!"))
      <-> Forall (fun s => name s <> Some name_) reg)
  /\ (forall e, get_stylesheet_by_name reg name_ = Raise e ->
                e = LookupError ("The requested stylesheet " ++ name_ ++ " was not found!")).
Proof.
  split; [|split].
  - intros style. apply get_stylesheet_by_name_Ok.
  - rewrite get_stylesheet_by_name_Raise. tauto.
  - intros e He. now apply get_stylesheet_by_name_Raise in He.
Qed.

(** Two stylesheets registered as [Default]: the first one is returned. *)
Example get_stylesheet_by_name_duplicates :
  let first := {| name := Some "Default"; path := Some "/a.xml"; description := "";
                  zoom_level := 16; grid_line_color := "black"; grid_line_alpha := 0.5;
                  grid_line_width := 3; shade_color := "black"; shade_alpha := 0.1 |} in
  let second := {| name := Some "Default"; path := Some "/b.xml"; description := "";
                   zoom_level := 12; grid_line_color := "black"; grid_line_alpha := 0.5;
                   grid_line_width := 3; shade_color := "black"; shade_alpha := 0.1 |} in
  get_stylesheet_by_name [second; first; second] "Default" = Ok second
  /\ get_stylesheet_by_name [first; second] "Default" = Ok first.
Proof. split; reflexivity. Qed.

Section StylesheetProperties.

Context {B : Builtins}.

Lemma get_after_get (p : RawConfigParser) (section k0 v0 k : string) :
  get p section k0 = Ok v0 ->
  has_option p section k = true ->
  exists v, get p section k = Ok v.
Proof.
  unfold get, has_option. intros H0 Hk.
  destruct (_sections p !! section) as [opts|] eqn:Es.
  - destruct (opts !! optionxform k) as [v|] eqn:Eo; [now exists v|].
    destruct (_defaults p !! optionxform k) as [v|] eqn:Ed; [now exists v|].
    exfalso. rewrite !bool_decide_eq_false_2 in Hk by (intros [? ?]; discriminate).
    now destruct (_ || _).
  - destruct (String.eqb section DEFAULTSECT) eqn:E; simpl in H0; [|discriminate].
    rewrite orb_true_r in Hk. simpl.
    destruct (_defaults p !! optionxform k) as [v|] eqn:Ed; [now exists v|].
    now rewrite bool_decide_eq_false_2 in Hk by (intros [? ?]; discriminate).
Qed.

(** [setattr] changes the attribute it names, by the cast of its call site,
    and no other. *)
Lemma setattr_cast_spec (s s' : Stylesheet) (a : attribute) (v : string) :
  setattr_cast s a v = Ok s' ->
  cast a v = Ok (getattr s' a)
  /\ name s' = name s /\ path s' = path s
  /\ forall a', a' <> a -> getattr s' a' = getattr s a'.
Proof.
  destruct a; simpl; unfold cast;
    try (destruct (int_cast v) as [z|e]; simpl; [|discriminate]);
    try (destruct (float_cast v) as [f|e]; simpl; [|discriminate]);
    intros [= <-]; simpl; repeat split;
    intros a' Ha; destruct a'; try reflexivity; congruence.
Qed.

Lemma assign_if_present_spec (p : RawConfigParser) (section k0 v0 : string)
    (a : attribute) (s s' : Stylesheet) :
  get p section k0 = Ok v0 ->
  assign_if_present p section a s = Ok s' ->
  (if has_option p section (key a)
   then exists v, get p section (key a) = Ok v /\ cast a v = Ok (getattr s' a)
   else getattr s' a = getattr s a)
  /\ name s' = name s /\ path s' = path s
  /\ forall a', a' <> a -> getattr s' a' = getattr s a'.
Proof.
  unfold assign_if_present. intros H0.
  destruct (has_option p section (key a)) eqn:Eh.
  - destruct (get_after_get _ _ _ _ _ H0 Eh) as [v Ev]. rewrite Ev. intros Hs.
    destruct (setattr_cast_spec _ _ _ _ Hs) as (Hc & Hn & Hp & Ho).
    repeat split; trivial. now exists v.
  - intros [= <-]. repeat split; reflexivity.
Qed.

(** C10. When the section has the [name] and [path] options and none of the
    seven optional ones, the stylesheet is created with the documented
    defaults: description '', zoom level 16, grid line colour 'black', alpha
    0.5 and width 3, shade colour 'black' and alpha 0.1. And whenever a
    stylesheet is created, each optional attribute is the cast of its own
    option when the section has it and its documented default when it has
    not, whatever the other options are; [name] and [path] are the two
    required options. *)
Theorem create_from_config_section_defaults (parser : RawConfigParser)
    (section_name : string) :
  (forall n p,
      get parser section_name "name" = Ok n ->
      get parser section_name "path" = Ok p ->
      (forall a, has_option parser section_name (key a) = false) ->
      create_from_config_section parser section_name
      = Ok {| name := Some n; path := Some p; description := ""; zoom_level := 16;
              grid_line_color := "black"; grid_line_alpha := 0.5; grid_line_width := 3;
              shade_color := "black"; shade_alpha := 0.1 |})
  /\ (forall s,
         create_from_config_section parser section_name = Ok s ->
         (exists n, get parser section_name "name" = Ok n /\ name s = Some n)
         /\ (exists p, get parser section_name "path" = Ok p /\ path s = Some p)
         /\ forall a,
             if has_option parser section_name (key a)
             then exists v, get parser section_name (key a) = Ok v
                            /\ cast a v = Ok (getattr s a)
             else getattr s a = documented_default a).
Proof.
  split.
  - intros n p Hn Hp Hno. unfold create_from_config_section, assign_if_present.
    rewrite Hn, Hp, !Hno. reflexivity.
  - intros s. unfold create_from_config_section.
    destruct (get parser section_name "name") as [n|] eqn:Hn; simpl; [|discriminate].
    destruct (get parser section_name "path") as [p|] eqn:Hp; simpl; [|discriminate].
    set (s0 := {| name := Some n |}).
    destruct (assign_if_present parser section_name a_description s0)
      as [s1|] eqn:E1; simpl; [|discriminate].
    destruct (assign_if_present parser section_name a_zoom_level s1)
      as [s2|] eqn:E2; simpl; [|discriminate].
    destruct (assign_if_present parser section_name a_grid_line_color s2)
      as [s3|] eqn:E3; simpl; [|discriminate].
    destruct (assign_if_present parser section_name a_grid_line_alpha s3)
      as [s4|] eqn:E4; simpl; [|discriminate].
    destruct (assign_if_present parser section_name a_grid_line_width s4)
      as [s5|] eqn:E5; simpl; [|discriminate].
    destruct (assign_if_present parser section_name a_shade_color s5)
      as [s6|] eqn:E6; simpl; [|discriminate].
    destruct (assign_if_present parser section_name a_shade_alpha s6)
      as [s7|] eqn:E7; simpl; [|discriminate].
    intros [= <-].
    destruct (assign_if_present_spec _ _ _ _ _ _ _ Hn E1) as (A1 & N1 & P1 & O1).
    destruct (assign_if_present_spec _ _ _ _ _ _ _ Hn E2) as (A2 & N2 & P2 & O2).
    destruct (assign_if_present_spec _ _ _ _ _ _ _ Hn E3) as (A3 & N3 & P3 & O3).
    destruct (assign_if_present_spec _ _ _ _ _ _ _ Hn E4) as (A4 & N4 & P4 & O4).
    destruct (assign_if_present_spec _ _ _ _ _ _ _ Hn E5) as (A5 & N5 & P5 & O5).
    destruct (assign_if_present_spec _ _ _ _ _ _ _ Hn E6) as (A6 & N6 & P6 & O6).
    destruct (assign_if_present_spec _ _ _ _ _ _ _ Hn E7) as (A7 & N7 & P7 & O7).
    split; [|split].
    + exists n. split; [reflexivity|]. now rewrite N7, N6, N5, N4, N3, N2, N1.
    + exists p. split; [reflexivity|]. now rewrite P7, P6, P5, P4, P3, P2, P1.
    + assert (D : forall a, getattr s0 a = documented_default a) by (now intros []).
      intros a; destruct a.
      * rewrite (O7 a_description), (O6 a_description), (O5 a_description),
          (O4 a_description), (O3 a_description), (O2 a_description) by discriminate.
        rewrite <- D. exact A1.
      * rewrite (O7 a_zoom_level), (O6 a_zoom_level), (O5 a_zoom_level),
          (O4 a_zoom_level), (O3 a_zoom_level) by discriminate.
        rewrite <- D, <- (O1 a_zoom_level) by discriminate. exact A2.
      * rewrite (O7 a_grid_line_color), (O6 a_grid_line_color), (O5 a_grid_line_color),
          (O4 a_grid_line_color) by discriminate.
        rewrite <- D, <- (O1 a_grid_line_color), <- (O2 a_grid_line_color)
          by discriminate. exact A3.
      * rewrite (O7 a_grid_line_alpha), (O6 a_grid_line_alpha), (O5 a_grid_line_alpha)
          by discriminate.
        rewrite <- D, <- (O1 a_grid_line_alpha), <- (O2 a_grid_line_alpha),
          <- (O3 a_grid_line_alpha) by discriminate. exact A4.
      * rewrite (O7 a_grid_line_width), (O6 a_grid_line_width) by discriminate.
        rewrite <- D, <- (O1 a_grid_line_width), <- (O2 a_grid_line_width),
          <- (O3 a_grid_line_width), <- (O4 a_grid_line_width) by discriminate. exact A5.
      * rewrite (O7 a_shade_color) by discriminate.
        rewrite <- D, <- (O1 a_shade_color), <- (O2 a_shade_color),
          <- (O3 a_shade_color), <- (O4 a_shade_color), <- (O5 a_shade_color)
          by discriminate. exact A6.
      * rewrite <- D, <- (O1 a_shade_alpha), <- (O2 a_shade_alpha),
          <- (O3 a_shade_alpha), <- (O4 a_shade_alpha), <- (O5 a_shade_alpha),
          <- (O6 a_shade_alpha) by discriminate. exact A7.
Qed.

End StylesheetProperties.

(** ** Directories *)

Lemma node_induction (P : node -> Prop) :
  P File ->
  (forall d, Forall (fun e => P (snd e)) d -> P (Dir d)) ->
  forall n, P n.
Proof.
  intros HF HD. fix IH 1. intros [|d].
  - exact HF.
  - apply HD. induction d as [|e d IHd]; constructor; [apply IH | exact IHd].
Qed.

Lemma well_formed_Dir (d : dir) :
  well_formed (Dir d) = true <->
  NoDup (map fst d) /\ Forall (fun e => well_formed (snd e) = true) d.
Proof.
  simpl. rewrite andb_true_iff, bool_decide_eq_true, forallb_forall, Forall_forall.
  split; intros [Hn Hf]; split; trivial; intros x Hx; apply Hf;
    now apply list_elem_of_In.
Qed.

Lemma has_name_true (name_ : string) (e : string * node) :
  has_name name_ e = true <-> fst e = name_.
Proof. unfold has_name. apply String.eqb_eq. Qed.

Lemma has_name_false (name_ : string) (e : string * node) :
  has_name name_ e = false <-> fst e <> name_.
Proof. unfold has_name. apply String.eqb_neq. Qed.

Lemma lookup_entry_skip (name_ : string) (pre d : dir) :
  ~ In name_ (map fst pre) ->
  lookup_entry name_ (pre ++ d) = lookup_entry name_ d.
Proof.
  unfold lookup_entry. induction pre as [|e pre IH]; simpl; intros Hn; [reflexivity|].
  destruct (has_name name_ e) eqn:E.
  - apply has_name_true in E. tauto.
  - apply IH. tauto.
Qed.

Lemma lookup_entry_head (name_ : string) (n : node) (d : dir) :
  lookup_entry name_ ((name_, n) :: d) = Some n.
Proof. unfold lookup_entry, has_name. simpl. now rewrite String.eqb_refl. Qed.

Lemma remove_entry_absent (name_ : string) (d : dir) :
  ~ In name_ (map fst d) -> remove_entry name_ d = d.
Proof.
  unfold remove_entry. induction d as [|e d IH]; simpl; intros Hn; [reflexivity|].
  destruct (has_name name_ e) eqn:E; simpl.
  - apply has_name_true in E. tauto.
  - f_equal. apply IH. tauto.
Qed.

Lemma remove_entry_middle (name_ : string) (n : node) (pre d : dir) :
  ~ In name_ (map fst pre) -> ~ In name_ (map fst d) ->
  remove_entry name_ (pre ++ (name_, n) :: d) = (pre ++ d)%list.
Proof.
  intros Hp Hd. unfold remove_entry. rewrite List.filter_app. simpl.
  unfold has_name at 2. simpl. rewrite String.eqb_refl. simpl.
  f_equal; [apply (remove_entry_absent _ _ Hp) | apply (remove_entry_absent _ _ Hd)].
Qed.

Lemma remove_entry_head (name_ : string) (n : node) (d : dir) :
  ~ In name_ (map fst d) -> remove_entry name_ ((name_, n) :: d) = d.
Proof. intros Hd. apply (remove_entry_middle name_ n [] d); simpl; tauto. Qed.

Lemma replace_entry_middle (name_ : string) (n n' : node) (pre d : dir) :
  ~ In name_ (map fst pre) ->
  replace_entry name_ n' (pre ++ (name_, n) :: d) = (pre ++ (name_, n') :: d)%list.
Proof.
  induction pre as [|e pre IH]; simpl; intros Hn.
  - unfold has_name. simpl. now rewrite String.eqb_refl.
  - destruct (has_name name_ e) eqn:E.
    + apply has_name_true in E. tauto.
    + f_equal. apply IH. tauto.
Qed.

Lemma lookup_entry_replace (name_ : string) (n n' : node) (d : dir) :
  lookup_entry name_ d = Some n ->
  lookup_entry name_ (replace_entry name_ n' d) = Some n'.
Proof.
  unfold lookup_entry. induction d as [|e d IH]; simpl; [discriminate|].
  destruct (has_name name_ e) eqn:E; simpl.
  - intros _. unfold has_name. simpl. now rewrite String.eqb_refl.
  - rewrite E. exact IH.
Qed.

Lemma replace_entry_twice (name_ : string) (n n' : node) (d : dir) :
  replace_entry name_ n' (replace_entry name_ n d) = replace_entry name_ n' d.
Proof.
  induction d as [|e d IH]; simpl; [reflexivity|].
  destruct (has_name name_ e) eqn:E; simpl.
  - unfold has_name. simpl. now rewrite String.eqb_refl.
  - now rewrite E, IH.
Qed.

Lemma replace_entry_same (name_ : string) (n : node) (d : dir) :
  lookup_entry name_ d = Some n -> replace_entry name_ n d = d.
Proof.
  unfold lookup_entry. induction d as [|e d IH]; simpl; [reflexivity|].
  destruct (has_name name_ e) eqn:E; simpl.
  - intros [= <-]. apply has_name_true in E. destruct e. simpl in *. now subst.
  - intros Hl. f_equal. now apply IH.
Qed.

(** ** Sequences of changes *)

Lemma seq_ops_app (a b : list (dir -> result dir)) (d : dir) :
  seq_ops (a ++ b) d = and_then (seq_ops a d) (seq_ops b).
Proof.
  revert d. induction a as [|f a IH]; intros d; simpl; [reflexivity|].
  destruct (f d); simpl; [apply IH | reflexivity].
Qed.

(** Changes made inside the subdirectory [name_] are the changes of that
    subdirectory, put back under its name. *)
Lemma seq_ops_inside (name_ : string) (ops : list (dir -> result dir)) :
  forall (d sub : dir),
    lookup_entry name_ d = Some (Dir sub) ->
    seq_ops (map (update_at [name_]) ops) d
    = and_then (seq_ops ops sub) (fun sub' => Ok (replace_entry name_ (Dir sub') d)).
Proof.
  induction ops as [|f ops IH]; intros d sub Hl; simpl.
  - now rewrite (replace_entry_same _ _ _ Hl).
  - rewrite Hl. destruct (f sub) as [sub1|e]; simpl; [|reflexivity].
    rewrite (IH _ sub1) by (eapply lookup_entry_replace; eassumption).
    destruct (seq_ops ops sub1); simpl; [|reflexivity].
    now rewrite replace_entry_twice.
Qed.

(** ** The walk of [_cleanup_tempdir] empties a directory *)

Lemma concat_map_flat_map {X Y Z} (f : Y -> list Z) (g : X -> list Y) (l : list X) :
  concat (map f (flat_map g l)) = flat_map (fun x => concat (map f (g x))) l.
Proof.
  induction l as [|x l IH]; simpl; [reflexivity|].
  now rewrite map_app, concat_app, IH.
Qed.

Lemma walk_ops_Dir (root : list string) (d : dir) :
  walk_ops root (Dir d)
  = (flat_map (fun e => walk_ops (root ++ [fst e]) (snd e)) d
     ++ triple_ops (root, dirs d, files d))%list.
Proof.
  unfold walk_ops. simpl. rewrite map_app, concat_app, concat_map_flat_map.
  simpl. now rewrite app_nil_r.
Qed.

Lemma triple_ops_cons (name_ : string) (root ds fs : list string) :
  triple_ops (name_ :: root, ds, fs)
  = map (update_at [name_]) (triple_ops (root, ds, fs)).
Proof. unfold triple_ops. rewrite map_app, !map_map. reflexivity. Qed.

Lemma walk_ops_cons (name_ : string) (n : node) :
  forall root, walk_ops (name_ :: root) n = map (update_at [name_]) (walk_ops root n).
Proof.
  induction n as [|d IH] using node_induction; intros root.
  - reflexivity.
  - rewrite !walk_ops_Dir, map_app, triple_ops_cons. f_equal.
    induction IH as [|e d He _ IHd]; cbn [flat_map]; [reflexivity|].
    rewrite map_app, IHd. f_equal. apply (He (root ++ [fst e])%list).
Qed.

Lemma map_fst_emptied (d : dir) : map fst (map emptied d) = map fst d.
Proof. rewrite map_map. reflexivity. Qed.

Lemma files_emptied (d : dir) : files (map emptied d) = files d.
Proof.
  unfold files. induction d as [|[n [|sub]] d IH]; simpl; [reflexivity| |assumption].
  now rewrite IH.
Qed.

Lemma dirs_emptied (d : dir) :
  List.filter (fun e => is_dir (snd e)) (map emptied d)
  = map (fun name_ => (name_, Dir [])) (dirs d).
Proof.
  unfold dirs. induction d as [|[n [|sub]] d IH]; simpl; [reflexivity|assumption|].
  now rewrite IH.
Qed.

Lemma NoDup_dirs (d : dir) : NoDup (map fst d) -> NoDup (dirs d).
Proof.
  unfold dirs. induction d as [|[n x] d IH]; simpl; intros Hn; [constructor|].
  apply NoDup_cons in Hn as [Hx Hn].
  destruct (is_dir x); simpl; [|now apply IH].
  apply NoDup_cons. split; [|now apply IH].
  intros Hin. apply Hx. apply list_elem_of_In in Hin. apply list_elem_of_In.
  apply in_map_iff in Hin as (e & <- & He). apply filter_In in He as [He _].
  now apply in_map.
Qed.

Lemma NoDup_middle {X} (l l' : list X) (a : X) :
  NoDup (l ++ a :: l') -> NoDup (l ++ l').
Proof.
  intros Hn. apply NoDup_app in Hn as (H1 & H2 & H3).
  apply NoDup_cons in H3 as [_ H3]. apply NoDup_app. repeat split; trivial.
  intros x Hx Hin. apply (H2 x Hx). now right.
Qed.

(** The subdirectories first: each is emptied, nothing else changes. *)
Lemma subdirectories_emptied :
  forall (todo done_ : dir),
    NoDup (map fst (done_ ++ todo)) ->
    Forall (fun e => forall sub, snd e = Dir sub ->
                                 seq_ops (walk_ops [] (Dir sub)) sub = Ok []) todo ->
    seq_ops (flat_map (fun e => walk_ops [fst e] (snd e)) todo)
            (map emptied done_ ++ todo)
    = Ok (map emptied (done_ ++ todo)).
Proof.
  induction todo as [|[n x] todo IH]; intros done_ Hn Hf; simpl.
  - now rewrite !app_nil_r.
  - rewrite seq_ops_app.
    assert (Hn' : ~ In n (map fst (map emptied done_))).
    { rewrite map_fst_emptied. rewrite map_app in Hn.
      apply NoDup_app in Hn as (_ & Hn & _). intros Hin.
      apply (Hn n); [now apply list_elem_of_In | left]. }
    assert (Hstep : seq_ops (walk_ops [n] x) (map emptied done_ ++ (n, x) :: todo)
                    = Ok (map emptied (done_ ++ [(n, x)]) ++ todo)%list).
    { rewrite map_app, <- app_assoc. simpl. destruct x as [|sub].
      - reflexivity.
      - rewrite walk_ops_cons, (seq_ops_inside _ _ _ sub)
          by (rewrite lookup_entry_skip by assumption; apply lookup_entry_head).
        rewrite (Forall_inv Hf sub eq_refl). simpl.
        now rewrite replace_entry_middle. }
    rewrite Hstep. simpl.
    rewrite (IH (done_ ++ [(n, x)])%list).
    + now rewrite <- app_assoc.
    + now rewrite <- app_assoc.
    + now apply Forall_inv_tail in Hf.
Qed.

(** Then the files of the directory are removed. *)
Lemma files_removed :
  forall (d pre : dir),
    NoDup (map fst (pre ++ d)) ->
    seq_ops (map (fun name_ => update_at [] (unlink name_)) (files d)) (pre ++ d)
    = Ok (pre ++ List.filter (fun e => is_dir (snd e)) d)%list.
Proof.
  unfold files. induction d as [|[n x] d IH]; intros pre Hn; simpl.
  - reflexivity.
  - assert (Hpre : ~ In n (map fst pre) /\ ~ In n (map fst d)).
    { rewrite map_app in Hn. apply NoDup_app in Hn as (_ & Hd & Hn). simpl in *.
      apply NoDup_cons in Hn as [Hn _]. split.
      - intros Hin. apply (Hd n); [now apply list_elem_of_In | left].
      - intros Hin. apply Hn. now apply list_elem_of_In. }
    destruct Hpre as [Hp Hd]. destruct x as [|sub]; simpl.
    + unfold unlink at 1.
      rewrite lookup_entry_skip, lookup_entry_head by assumption. simpl.
      rewrite remove_entry_middle by assumption. apply IH.
      rewrite map_app in *. simpl in Hn. now apply NoDup_middle in Hn.
    + replace (pre ++ (n, Dir sub) :: d)%list with ((pre ++ [(n, Dir sub)]) ++ d)%list
        by now rewrite <- app_assoc.
      rewrite IH by now rewrite <- app_assoc.
      now rewrite <- app_assoc.
Qed.

(** Then its subdirectories, now empty, are removed. *)
Lemma directories_removed (names : list string) :
  NoDup names ->
  seq_ops (map (fun name_ => update_at [] (rmdir name_)) names)
          (map (fun name_ => (name_, Dir [])) names)
  = Ok [].
Proof.
  induction names as [|n names IH]; intros Hn; simpl; [reflexivity|].
  apply NoDup_cons in Hn as [Hx Hn].
  unfold rmdir at 1. rewrite lookup_entry_head. cbv beta iota. cbn [and_then].
  rewrite remove_entry_head.
  - now apply IH.
  - rewrite map_map. simpl. rewrite map_id. intros Hin. apply Hx.
    now apply list_elem_of_In.
Qed.

(** The changes of the whole walk leave a well-formed directory empty. *)
Lemma walk_ops_empty (n : node) :
  well_formed n = true ->
  forall d, n = Dir d -> seq_ops (walk_ops [] n) d = Ok [].
Proof.
  induction n as [|d IH] using node_induction; intros Hw d' [= <-].
  apply well_formed_Dir in Hw as [Hn Hw].
  assert (Hs : seq_ops (flat_map (fun e => walk_ops [fst e] (snd e)) d) d
               = Ok (map emptied d)).
  { apply (subdirectories_emptied d []); [exact Hn|].
    rewrite Forall_forall in *. intros e He sub Hs.
    rewrite <- Hs. apply (IH e He); [now apply Hw | assumption]. }
  assert (Hf : seq_ops (map (fun name_ => update_at [] (unlink name_)) (files d))
                       (map emptied d)
               = Ok (List.filter (fun e => is_dir (snd e)) (map emptied d))).
  { rewrite <- (files_emptied d).
    apply (files_removed (map emptied d) []). simpl. now rewrite map_fst_emptied. }
  rewrite walk_ops_Dir, seq_ops_app.
  change (flat_map (fun e => walk_ops ([] ++ [fst e]) (snd e)) d)
    with (flat_map (fun e => walk_ops [fst e] (snd e)) d).
  rewrite Hs. cbn [and_then]. unfold triple_ops. rewrite seq_ops_app, Hf.
  cbn [and_then]. rewrite dirs_emptied.
  apply directories_removed. now apply NoDup_dirs.
Qed.

Section PipelineProperties.

Context {B : Builtins} {H : Handles} {C : Collaborators}.

(** ** Sequencing *)

Lemma bind_Ok {X Y} (m : M X) (k : X -> M Y) (s s' : state) (y : Y) :
  bind m k s = (Ok y, s') ->
  exists x s1, m s = (Ok x, s1) /\ k x s1 = (Ok y, s').
Proof.
  unfold bind. destruct (m s) as [[x|e] s1]; [|discriminate].
  intros Hk. now exists x, s1.
Qed.

Lemma bind_run {X Y} (m : M X) (k : X -> M Y) (s s1 : state) (x : X) :
  m s = (Ok x, s1) -> bind m k s = k x s1.
Proof. unfold bind. now intros ->. Qed.

Lemma bind_fail {X Y} (m : M X) (k : X -> M Y) (s s1 : state) (e : exn) :
  m s = (Raise e, s1) -> bind m k s = (Raise e, s1).
Proof. unfold bind. now intros ->. Qed.

Lemma for_each_app {X} (l l' : list X) (body : X -> M unit) (s s1 : state) :
  for_each l body s = (Ok tt, s1) ->
  for_each (l ++ l') body s = for_each l' body s1.
Proof.
  revert s. induction l as [|x l IH]; intros s; simpl.
  - unfold ret. now intros [= <-].
  - intros Hb. apply bind_Ok in Hb as (u & s2 & Hx & Hl).
    rewrite (bind_run _ _ _ _ _ Hx). now apply IH.
Qed.

Lemma hoare_run {X} (P : state -> Prop) (m : M X) (Q : result X -> state -> Prop)
    (s s' : state) (r : result X) :
  hoare P m Q -> m s = (r, s') -> P s -> Q r s'.
Proof. intros Hm E HP. specialize (Hm s HP). now rewrite E in Hm. Qed.

Lemma stable_run {X} (I : state -> Prop) (m : M X) (s s' : state) (r : result X) :
  stable I m -> m s = (r, s') -> I s -> I s'.
Proof. intros Hm. apply (hoare_run _ _ _ _ _ _ Hm). Qed.

Lemma stable_bind {X Y} (I : state -> Prop) (m : M X) (k : X -> M Y) :
  stable I m -> (forall x, stable I (k x)) -> stable I (bind m k).
Proof.
  intros Hm Hk s HI. unfold bind. specialize (Hm s HI).
  destruct (m s) as [[x|e] s1]; simpl in *; [now apply Hk | assumption].
Qed.

Lemma stable_try_except {X} (I : state -> Prop) (body : M X) (handler : exn -> M X) :
  stable I body -> (forall e, stable I (handler e)) -> stable I (try_except body handler).
Proof.
  intros Hb Hh s HI. unfold try_except. specialize (Hb s HI).
  destruct (body s) as [[x|e] s1]; simpl in *; [assumption | now apply Hh].
Qed.

Lemma stable_try_finally {X} (I : state -> Prop) (body : M X) (final : M unit) :
  stable I body -> stable I final -> stable I (try_finally body final).
Proof.
  intros Hb Hf s HI. unfold try_finally. specialize (Hb s HI).
  destruct (body s) as [r s1]; simpl in *. specialize (Hf s1 Hb).
  destruct (final s1) as [[u|e] s2]; simpl in *; assumption.
Qed.

Lemma stable_for_each {X} (I : state -> Prop) (l : list X) (body : X -> M unit) :
  (forall x, stable I (body x)) -> stable I (for_each l body).
Proof.
  intros Hb. induction l as [|x l IH]; simpl.
  - now intros s HI.
  - apply stable_bind; [apply Hb | intros _; apply IH].
Qed.

(** ** States *)

Lemma set_tmp_same (s : state) : set_tmp (tmp s) s = s.
Proof. now destruct s. Qed.

Lemma set_tmp_insert_same (s : state) (tmpdir : string) (d : dir) :
  tmp s !! tmpdir = Some d -> set_tmp (<[tmpdir := d]> (tmp s)) s = s.
Proof. intros Hl. rewrite insert_id by assumption. apply set_tmp_same. Qed.

(** ** [_cleanup_tempdir] on a well-formed directory *)

(** A loop of changes inside [tmpdir] is their sequence on its entries. *)
Lemma for_each_in_tmpdir {X} (tmpdir : string) (g : X -> dir -> result dir) (l : list X) :
  forall (s : state) (d d' : dir),
    tmp s !! tmpdir = Some d ->
    seq_ops (map g l) d = Ok d' ->
    for_each l (fun x => in_tmpdir tmpdir (g x)) s
    = (Ok tt, set_tmp (<[tmpdir := d']> (tmp s)) s).
Proof.
  induction l as [|x l IH]; intros s d d' Hl; simpl.
  - intros [= <-]. unfold ret. now rewrite set_tmp_insert_same.
  - destruct (g x d) as [d1|e] eqn:Eg; simpl; [|discriminate]. intros Hs.
    assert (E : in_tmpdir tmpdir (g x) s = (Ok tt, set_tmp (<[tmpdir := d1]> (tmp s)) s)).
    { unfold in_tmpdir. now rewrite Hl, Eg. }
    rewrite (bind_run _ _ _ _ _ E).
    rewrite (IH _ d1 d') by (simpl; first [apply lookup_insert_eq | assumption]).
    simpl. now rewrite insert_insert_eq.
Qed.

Lemma cleanup_loop (tmpdir : string)
    (triples : list (list string * list string * list string)) :
  forall (s : state) (d d' : dir),
    tmp s !! tmpdir = Some d ->
    seq_ops (concat (map triple_ops triples)) d = Ok d' ->
    for_each triples (fun '(root, dirs_, files_) =>
      bind (for_each files_ (fun name_ => os_remove tmpdir root name_)) (fun _ =>
      for_each dirs_ (fun name_ => os_rmdir tmpdir root name_))) s
    = (Ok tt, set_tmp (<[tmpdir := d']> (tmp s)) s).
Proof.
  induction triples as [|[[root dirs_] files_] triples IH]; intros s d d' Hl.
  - intros [= <-]. simpl. unfold ret. now rewrite set_tmp_insert_same.
  - cbn [map concat triple_ops]. rewrite !seq_ops_app.
    destruct (seq_ops (map _ files_) d) as [d1|] eqn:E1; cbn [and_then]; [|discriminate].
    destruct (seq_ops (map _ dirs_) d1) as [d2|] eqn:E2; cbn [and_then]; [|discriminate].
    intros Hs.
    assert (Eb : bind (for_each files_ (fun name_ => os_remove tmpdir root name_))
                   (fun _ => for_each dirs_ (fun name_ => os_rmdir tmpdir root name_)) s
                 = (Ok tt, set_tmp (<[tmpdir := d2]> (tmp s)) s)).
    { unfold os_remove, os_rmdir.
      rewrite (bind_run _ _ _ _ _
                 (for_each_in_tmpdir tmpdir
                    (fun name_ => update_at root (unlink name_)) files_ s d d1 Hl E1)).
      rewrite (for_each_in_tmpdir tmpdir (fun name_ => update_at root (rmdir name_))
                 dirs_ _ d1 d2)
        by (simpl; first [apply lookup_insert_eq | assumption]).
      simpl. now rewrite insert_insert_eq. }
    cbn [for_each]. rewrite (bind_run _ _ _ _ _ Eb).
    rewrite (IH _ d2 d') by (simpl; first [apply lookup_insert_eq | assumption]).
    simpl. now rewrite insert_insert_eq.
Qed.

(** The cleanup succeeds on a well-formed temporary directory and leaves the
    temporary area without it; nothing else of the state changes. *)
Lemma cleanup_tempdir_removes (tmpdir : string) (T : gmap string dir) (s : state) :
  workspace tmpdir T s ->
  _cleanup_tempdir tmpdir s = (Ok tt, set_tmp T s).
Proof.
  intros (HT & d & Ht & Hw). unfold _cleanup_tempdir.
  assert (Hl : tmp s !! tmpdir = Some d) by (rewrite Ht; apply lookup_insert_eq).
  unfold bind at 1. rewrite Hl.
  pose proof (cleanup_loop tmpdir (walk [] (Dir d)) s d [] Hl
                (walk_ops_empty (Dir d) Hw d eq_refl)) as Hc.
  rewrite (bind_run _ _ _ _ _ Hc).
  unfold os_rmdir_top. simpl. rewrite lookup_insert_eq. simpl.
  rewrite Ht, insert_insert_eq, delete_insert_eq, delete_id by assumption.
  reflexivity.
Qed.

(** ** Invariants of the pipeline *)

Lemma stable_bind_ret {X Y} (I : state -> Prop) (x : X) (k : X -> M Y) :
  stable I (k x) -> stable I (bind (ret x) k).
Proof. intros Hk s HI. apply (Hk s HI). Qed.

Lemma returns_bind {X Y} (I : state -> Prop) (m : M X) (k : X -> M Y)
    (Q : Y -> state -> Prop) :
  stable I m -> (forall x, returns I (k x) Q) -> returns I (bind m k) Q.
Proof.
  intros Hm Hk s HI. unfold bind. specialize (Hm s HI).
  destruct (m s) as [[x|e] s1]; simpl in *; [now apply Hk | discriminate].
Qed.

Lemma returns_bind_then {X Y} (I : state -> Prop) (J : X -> state -> Prop)
    (m : M X) (k : X -> M Y) (Q : Y -> state -> Prop) :
  returns I m J -> (forall x, returns (J x) (k x) Q) -> returns I (bind m k) Q.
Proof.
  intros Hm Hk s HI. unfold bind. specialize (Hm s HI).
  destruct (m s) as [[x|e] s1]; simpl in *; [|discriminate].
  apply Hk. now apply Hm.
Qed.

Lemma returns_ret {X} (I : state -> Prop) (x : X) (Q : X -> state -> Prop) :
  (forall s, I s -> Q x s) -> returns I (ret x) Q.
Proof. intros HQ s HI y [= <-]. now apply HQ. Qed.

Lemma returns_run {X} (P : state -> Prop) (m : M X) (Q : X -> state -> Prop)
    (s s' : state) (x : X) :
  returns P m Q -> m s = (Ok x, s') -> P s -> Q x s'.
Proof. intros Hm E HP. now apply (hoare_run _ _ _ _ _ _ Hm E HP). Qed.

(** A call made in the temporary directory keeps it well-formed and touches
    no other directory. *)
Lemma stable_call_in {X} (tmpdir : string) (T : gmap string dir) (c : call X) :
  tidy -> stable (workspace tmpdir T) (call_in tmpdir c).
Proof.
  intros Ht s (HT & d & Hs & Hw). unfold call_in.
  rewrite Hs, lookup_insert_eq. simpl.
  specialize (Ht X c (world s) d Hw).
  destruct (perform X c (world s) d) as [[r w] d']. simpl in *.
  split; [assumption|]. exists d'. now rewrite insert_insert_eq.
Qed.

(** The leaves of a proof of [stable]: a collaborator call made in the
    temporary directory, or a step that can be read off its definition. *)
Ltac leaf :=
  first
    [ apply stable_call_in; assumption
    | solve
        [ unfold stable, hoare, ret, raise, lift, get_config, call_world, call_in,
            set_rtl, set_bounding_box, l_error, file_created, in_tmpdir, os_rmdir_top;
          intros ? ?;
          repeat match goal with
                 | |- context [match ?x with _ => _ end] => destruct x
                 end;
          unfold workspace, kept in *; simpl in *;
          first [ solve [intuition (try congruence)] | set_solver ] ] ].

(** A proof of [stable] follows the structure of the computation. *)
Ltac stable_steps :=
  lazymatch goal with
  | |- stable _ (bind (ret _) _) => apply stable_bind_ret; stable_steps
  | |- stable _ (bind (match ?x with _ => _ end) _) => destruct x eqn:?; stable_steps
  | |- stable _ (bind _ _) => apply stable_bind; [stable_steps | intros ?; stable_steps]
  | |- stable _ (try_except _ _) =>
      apply stable_try_except; [stable_steps | intros ?; stable_steps]
  | |- stable _ (try_finally _ _) => apply stable_try_finally; stable_steps
  | |- stable _ (for_each _ _) => apply stable_for_each; intros ?; stable_steps
  | |- stable _ (if ?c then _ else _) => destruct c eqn:?; stable_steps
  | |- stable _ (match ?x with _ => _ end) => destruct x eqn:?; stable_steps
  | |- stable _ (get_geographic_info _) => unfold get_geographic_info; stable_steps
  | |- stable _ (_get_shade_wkt _ _) => unfold _get_shade_wkt; stable_steps
  | |- stable _ (_render_one _ _ _ _ _ _) => unfold _render_one; stable_steps
  | |- stable _ (draw_page _ _ _ _ _ _ _) => unfold draw_page; stable_steps
  | |- stable _ (render_outputs _ _ _) => unfold render_outputs; stable_steps
  | |- stable _ (mkdtemp _) => unfold mkdtemp; stable_steps
  | |- stable _ (os_remove _ _ _) => unfold os_remove; stable_steps
  | |- stable _ (os_rmdir _ _ _) => unfold os_rmdir; stable_steps
  | |- stable _ (_cleanup_tempdir _) => unfold _cleanup_tempdir; stable_steps
  | |- _ => leaf
  end.

Lemma render_one_workspace (self : OCitySMap) (tmpdir : string) (T : gmap string dir)
    (renderer : Renderer) (sir : StreetIndexRenderer) (filename output_format : string) :
  tidy ->
  stable (workspace tmpdir T)
         (_render_one self tmpdir renderer sir filename output_format).
Proof. intros Ht. stable_steps. Qed.

Lemma render_outputs_workspace (self : OCitySMap) (v : locals) (T : gmap string dir)
    (file_prefix : string) :
  tidy -> stable (workspace (tmpdir_ v) T) (render_outputs self v file_prefix).
Proof. intros Ht. stable_steps. Qed.

(** Output files are only ever added. *)
Lemma render_one_outputs (self : OCitySMap) (tmpdir : string) (O : gset string)
    (renderer : Renderer) (sir : StreetIndexRenderer) (filename output_format : string) :
  stable (fun s => O ⊆ outputs s)
         (_render_one self tmpdir renderer sir filename output_format).
Proof. stable_steps. Qed.

Lemma render_outputs_outputs (self : OCitySMap) (v : locals) (O : gset string)
    (file_prefix : string) :
  stable (fun s => O ⊆ outputs s) (render_outputs self v file_prefix).
Proof. stable_steps. Qed.

(** [mkdtemp] returns a directory that did not exist, now empty. *)
Lemma mkdtemp_workspace (prefix : string) (T : gmap string dir) :
  returns (fun s => tmp s = T) (mkdtemp prefix) (fun tmpdir s => workspace tmpdir T s).
Proof.
  intros s HI t. unfold mkdtemp, bind, call_world.
  destruct (candidate_names (world s)) as [[names|e] w]; simpl; [|discriminate].
  destruct (List.find _ names) as [n|] eqn:Ef; simpl; [|discriminate].
  intros [= <-]. apply find_some in Ef as [_ Hd].
  apply bool_decide_eq_true in Hd. simpl in Hd. rewrite HI in Hd.
  split; [assumption|]. exists []. rewrite HI. now split.
Qed.

(** When [render] reaches its [try] statement, the temporary directory it
    made is the only change of the temporary area, it is well-formed, and
    the formats are the lowered formats of the caller. *)
Lemma render_before_try_workspace (self : OCitySMap) (renderer_name : string)
    (output_formats : list string) (T : gmap string dir) :
  tidy ->
  returns (fun s => tmp s = T)
          (render_before_try self renderer_name output_formats)
          (fun v s => workspace (tmpdir_ v) T s
                      /\ output_formats_ v = map lower output_formats).
Proof.
  intros Ht. unfold render_before_try. cbv zeta.
  do 7 (apply returns_bind; [stable_steps | intros ?]).
  eapply returns_bind_then; [apply mkdtemp_workspace | intros tmpdir].
  do 9 (apply returns_bind; [stable_steps | intros ?]).
  apply returns_ret. intros s Hs. now split.
Qed.

(** ** What one output format leaves behind *)

Lemma stable_True {X} (m : M X) : stable (fun _ => True) m.
Proof. now intros s _. Qed.

Lemma returns_of_stable {X} (I : state -> Prop) (m : M X) (Q : X -> state -> Prop) :
  stable I m -> (forall x s, I s -> Q x s) -> returns I m Q.
Proof. intros Hm HQ s HI x _. apply HQ. now apply Hm. Qed.

Lemma file_created_returns (I : state -> Prop) (filename : string) :
  returns I (file_created filename) (fun _ s => filename ∈ outputs s).
Proof. intros s _ x _. simpl. set_solver. Qed.

(** Drawing on a surface that opens its file or is given an open file, or
    for the [png] format, leaves the output file on disk when it returns. *)
Lemma draw_page_creates (tmpdir : string) (renderer : Renderer)
    (sir : StreetIndexRenderer) (filename output_format : string)
    (factory : surface_kind) (dpi : number) :
  opens_file factory = true \/ factory = SVGSurface_gzip \/ output_format = "png" ->
  returns (fun _ => True)
          (draw_page tmpdir renderer sir filename output_format factory dpi)
          (fun _ s => filename ∈ outputs s).
Proof.
  intros Hf. unfold draw_page.
  destruct factory as [d| | | |].
  3: { eapply returns_bind_then.
       - apply returns_bind; [apply stable_True | intros ?].
         apply file_created_returns.
       - intros ?; cbv beta. apply returns_of_stable; [stable_steps | trivial]. }
  all: apply returns_bind; [apply stable_True | intros ?].
  all: apply returns_bind; [apply stable_True | intros surface].
  all: destruct (opens_file _) eqn:Eo.
  all: try (clear Hf; eapply returns_bind_then;
            [apply file_created_returns | intros ?; cbv beta];
            apply returns_of_stable; [stable_steps | trivial]).
  all: try discriminate Eo.
  - destruct Hf as [Hf|[Hf|Hp]]; [discriminate | discriminate |]. rewrite Hp. simpl.
    do 3 (apply returns_bind; [apply stable_True | intros ?]).
    eapply returns_bind_then.
    + apply returns_bind; [apply stable_True | intros ?]. apply file_created_returns.
    + intros ?; cbv beta. apply returns_of_stable; [stable_steps | trivial].
Qed.

Lemma render_one_creates (self : OCitySMap) (tmpdir : string) (renderer : Renderer)
    (sir : StreetIndexRenderer) (filename output_format : string) (s s' : state) :
  _render_one self tmpdir renderer sir filename output_format s = (Ok tt, s') ->
  output_format <> "csv" ->
  filename ∈ outputs s'.
Proof.
  intros E Hcsv. unfold _render_one in E.
  apply bind_Ok in E as (chosen & s1 & Ec & Ed).
  destruct chosen as [[factory dpi]|].
  - refine (returns_run _ _ _ _ _ _ (draw_page_creates _ _ _ _ _ _ _ _) Ed I).
    destruct (String.eqb output_format "png") eqn:Epng.
    { right. right. now apply String.eqb_eq. }
    unfold ret, raise in Ec.
    repeat match type of Ec with
           | (if ?c then _ else _) _ = _ => destruct c
           end;
      try discriminate; injection Ec as <- _ _;
      first [now left | right; now left].
  - exfalso. apply Hcsv. unfold ret, raise in Ec.
    destruct (String.eqb output_format "png").
    { apply bind_Ok in Ec as (d & s2 & _ & Ec). discriminate. }
    repeat match type of Ec with
           | (if ?c then _ else _) _ = _ => destruct c eqn:?
           end;
      try discriminate. now apply String.eqb_eq.
Qed.

(** The files of the formats a loop has gone through are on disk. *)
Lemma render_formats_created (self : OCitySMap) (tmpdir : string) (renderer : Renderer)
    (sir : StreetIndexRenderer) (file_prefix : string) (formats : list string) :
  forall s s',
    for_each formats (fun output_format =>
      _render_one self tmpdir renderer sir
                  (file_prefix ++ "." ++ output_format) output_format) s = (Ok tt, s') ->
    forall g, In g formats -> g <> "csv" -> file_prefix ++ "." ++ g ∈ outputs s'.
Proof.
  induction formats as [|x formats IH]; intros s s' E g Hg Hcsv; [contradiction|].
  simpl in E. apply bind_Ok in E as ([] & s1 & Ex & El).
  destruct Hg as [->|Hg].
  - pose proof (render_one_creates _ _ _ _ _ _ _ _ Ex Hcsv) as Hin.
    refine (stable_run (fun s => {[ file_prefix ++ "." ++ g ]} ⊆ outputs s)
              _ _ _ _ _ El _ _ _); [stable_steps | set_solver | set_solver].
  - now apply (IH _ _ El).
Qed.

(** ** [render] past its [try] statement *)

Lemma for_each_fails {X} (pre post : list X) (x : X) (body : X -> M unit)
    (s s1 s2 : state) (e : exn) :
  for_each pre body s = (Ok tt, s1) ->
  body x s1 = (Raise e, s2) ->
  for_each (pre ++ x :: post) body s = (Raise e, s2).
Proof.
  intros Hp Hx. rewrite (for_each_app _ _ _ _ _ Hp). simpl.
  now apply bind_fail.
Qed.

(** A failure before the [try] statement is the outcome of [render], in the
    state it happened: the [finally] clause is not in force yet. *)
Lemma render_fails_before_try (self : OCitySMap) (renderer_name : string)
    (output_formats : list string) (file_prefix : string) (s s0 : state) (e : exn) :
  render_before_try self renderer_name output_formats s = (Raise e, s0) ->
  render self renderer_name output_formats file_prefix s = (Raise e, s0).
Proof. intros E. unfold render. now apply bind_fail. Qed.

(** Past the [try] statement, the outcome of [render] is the outcome of the
    loop over the formats, and the temporary area is back to what it was
    before the call. *)
Lemma render_after_try (self : OCitySMap) (renderer_name : string)
    (output_formats : list string) (file_prefix : string) (s s0 s1 : state)
    (v : locals) (r : result unit) :
  tidy ->
  render_before_try self renderer_name output_formats s = (Ok v, s0) ->
  render_outputs self v file_prefix s0 = (r, s1) ->
  render self renderer_name output_formats file_prefix s = (r, set_tmp (tmp s) s1)
  /\ tmp s !! tmpdir_ v = None
  /\ output_formats_ v = map lower output_formats.
Proof.
  intros Ht E0 E1.
  destruct (returns_run _ _ _ _ _ _
              (render_before_try_workspace self renderer_name output_formats (tmp s) Ht)
              E0 eq_refl) as [Hw Hf].
  pose proof (stable_run _ _ _ _ _
                (render_outputs_workspace self v (tmp s) file_prefix Ht) E1 Hw) as Hw1.
  split; [|split; [apply Hw | exact Hf]].
  unfold render. rewrite (bind_run _ _ _ _ _ E0). unfold try_finally.
  now rewrite E1, (cleanup_tempdir_removes _ _ _ Hw1).
Qed.

(** A format that fails ends the loop and the call with its exception. *)
Lemma render_fails_at (self : OCitySMap) (renderer_name : string)
    (output_formats : list string) (file_prefix : string) (s s0 s1 s2 : state)
    (v : locals) (pre post : list string) (f : string) (e : exn) :
  tidy ->
  render_before_try self renderer_name output_formats s = (Ok v, s0) ->
  map lower output_formats = (pre ++ f :: post)%list ->
  for_each pre (fun g =>
    _render_one self (tmpdir_ v) (renderer_ v) (street_index_renderer_ v)
                (file_prefix ++ "." ++ g) g) s0 = (Ok tt, s1) ->
  _render_one self (tmpdir_ v) (renderer_ v) (street_index_renderer_ v)
              (file_prefix ++ "." ++ f) f s1 = (Raise e, s2) ->
  render self renderer_name output_formats file_prefix s
  = (Raise e, set_tmp (tmp s) s2)
  /\ tmp s !! tmpdir_ v = None.
Proof.
  intros Ht E0 Hf Ep Ex.
  assert (E1 : render_outputs self v file_prefix s0 = (Raise e, s2)).
  { unfold render_outputs.
    destruct (returns_run _ _ _ _ _ _
                (render_before_try_workspace self renderer_name output_formats (tmp s) Ht)
                E0 eq_refl) as [_ ->].
    rewrite Hf. exact (for_each_fails _ _ _ _ _ _ _ _ Ep Ex). }
  destruct (render_after_try _ _ _ _ _ _ _ _ _ Ht E0 E1) as (Hr & Hn & _).
  now split.
Qed.

(** ** The dispatch on the output format *)

Lemma render_one_unsupported (self : OCitySMap) (tmpdir : string) (renderer : Renderer)
    (sir : StreetIndexRenderer) (filename output_format : string) (s : state) :
  ~ In output_format supported_formats ->
  _render_one self tmpdir renderer sir filename output_format s
  = (Raise (unsupported_format output_format), s).
Proof.
  intros Hn. unfold _render_one.
  repeat match goal with
         | |- context [String.eqb output_format ?x] =>
             destruct (String.eqb output_format x) eqn:E;
             [apply String.eqb_eq in E; exfalso; apply Hn; rewrite E; simpl; tauto
             | clear E]
         end.
  reflexivity.
Qed.

Lemma for_each_unsupported {X} (l : list X) (body : X -> M unit) (x : X) :
  In x l ->
  (forall s, exists e, body x s = (Raise e, s)) ->
  forall s, exists e, fst (for_each l body s) = Raise e.
Proof.
  intros Hx Hb. induction l as [|y l IH]; [contradiction|]. intros s. simpl.
  unfold bind. destruct (body y s) as [[u|e] s1] eqn:Ey; simpl.
  - destruct Hx as [->|Hx]; [|now apply IH].
    destruct (Hb s) as [e He]. rewrite He in Ey. discriminate.
  - now exists e.
Qed.

Lemma render_before_try_lower (self : OCitySMap) (renderer_name : string)
    (output_formats : list string) :
  render_before_try self renderer_name (map lower output_formats)
  = render_before_try self renderer_name output_formats.
Proof. unfold render_before_try. now rewrite map_lower_idempotent. Qed.

(** C6. For the format string [f] of the caller, [_render_one] is called on
    [lower f]; when that is one of png, svg, svgz, pdf and ps it draws the
    page on the surface of that format (for png at the configured or
    default resolution), when it is csv it returns at once and leaves the
    state as it is, and otherwise it raises the [ValueError] "Unsupported
    output format". For [render]: the formats count by their lowered
    spelling only; a call with an unsupported format never returns normally;
    and when the run reaches that format, the formats before it having
    succeeded, the call ends with that [ValueError], the temporary
    directory removed. *)
Theorem output_format_dispatch (self : OCitySMap) (tmpdir : string)
    (renderer : Renderer) (sir : StreetIndexRenderer) (filename f : string)
    (renderer_name : string) (output_formats : list string) (file_prefix : string)
    (st : state) :
  let output_format := lower f in
  let one := _render_one self tmpdir renderer sir filename output_format st in
  let draw := draw_page tmpdir renderer sir filename output_format in
  (output_format = "png" ->
   one = match png_dpi self with
         | Ok dpi => draw (ImageSurface (PyInt dpi)) (PyInt dpi) st
         | Raise e => (Raise e, st)
         end)
  /\ (output_format = "svg" -> one = draw SVGSurface PT_PER_INCH st)
  /\ (output_format = "svgz" -> one = draw SVGSurface_gzip PT_PER_INCH st)
  /\ (output_format = "pdf" -> one = draw PDFSurface PT_PER_INCH st)
  /\ (output_format = "ps" -> one = draw PSSurface PT_PER_INCH st)
  /\ (output_format = "csv" -> one = (Ok tt, st))
  /\ (~ In output_format supported_formats ->
      one = (Raise (unsupported_format output_format), st))
  /\ render self renderer_name output_formats file_prefix st
     = render self renderer_name (map lower output_formats) file_prefix st
  /\ ((exists g, In g output_formats /\ ~ In (lower g) supported_formats) ->
      exists e, fst (render self renderer_name output_formats file_prefix st) = Raise e)
  /\ (forall v s0 s1 pre post g,
         tidy ->
         render_before_try self renderer_name output_formats st = (Ok v, s0) ->
         map lower output_formats = (pre ++ g :: post)%list ->
         ~ In g supported_formats ->
         for_each pre (fun g =>
           _render_one self (tmpdir_ v) (renderer_ v) (street_index_renderer_ v)
                       (file_prefix ++ "." ++ g) g) s0 = (Ok tt, s1) ->
         render self renderer_name output_formats file_prefix st
         = (Raise (unsupported_format g), set_tmp (tmp st) s1)).
Proof.
  intros output_format one draw. subst one draw.
  repeat split.
  - intros ->. unfold _render_one, bind, lift, ret. simpl.
    now destruct (png_dpi self).
  - now intros ->.
  - now intros ->.
  - now intros ->.
  - now intros ->.
  - now intros ->.
  - apply render_one_unsupported.
  - unfold render. now rewrite render_before_try_lower.
  - intros (g & Hg & Hn). unfold render, bind.
    destruct (render_before_try self renderer_name output_formats st)
      as [[v|e] s0] eqn:E0; simpl; [|now exists e].
    unfold try_finally.
    assert (Hv : output_formats_ v = map lower output_formats).
    { clear -E0. unfold render_before_try in E0. cbv zeta in E0.
      repeat (apply bind_Ok in E0 as (? & ? & _ & E0)).
      unfold ret in E0. now injection E0 as <- _. }
    destruct (for_each_unsupported (output_formats_ v)
                (fun g => _render_one self (tmpdir_ v) (renderer_ v)
                            (street_index_renderer_ v) (file_prefix ++ "." ++ g) g)
                (lower g)) with (s := s0) as [e He].
    + rewrite Hv. now apply in_map.
    + intros s. eexists. now apply render_one_unsupported.
    + unfold render_outputs.
      destruct (for_each _ _ s0) as [r s1]. simpl in He. subst r.
      destruct (_cleanup_tempdir (tmpdir_ v) s1) as [[u|e'] s2]; simpl; eauto.
  - intros v s0 s1 pre post g Ht E0 Hf Hn Ep.
    apply (render_fails_at _ _ _ _ _ _ _ _ _ _ _ _ _ Ht E0 Hf Ep).
    now apply render_one_unsupported.
Qed.

(** C7. When the formats before [f] have been produced and producing [f]
    raises [e], [render] raises [e] in the state of that failure: no
    collaborator is called for the formats after [f], the output files of
    the formats before it are on disk, and the temporary directory has been
    removed, the temporary area being what it was before the call. *)
Theorem render_stops_at_failing_format (self : OCitySMap) (renderer_name : string)
    (output_formats : list string) (file_prefix : string) (st s0 s1 s2 : state)
    (v : locals) (pre post : list string) (f : string) (e : exn) :
  tidy ->
  render_before_try self renderer_name output_formats st = (Ok v, s0) ->
  map lower output_formats = (pre ++ f :: post)%list ->
  for_each pre (fun g =>
    _render_one self (tmpdir_ v) (renderer_ v) (street_index_renderer_ v)
                (file_prefix ++ "." ++ g) g) s0 = (Ok tt, s1) ->
  _render_one self (tmpdir_ v) (renderer_ v) (street_index_renderer_ v)
              (file_prefix ++ "." ++ f) f s1 = (Raise e, s2) ->
  let final := snd (render self renderer_name output_formats file_prefix st) in
  fst (render self renderer_name output_formats file_prefix st) = Raise e
  /\ world final = world s2
  /\ outputs final = outputs s2
  /\ (forall g, In g pre -> g <> "csv" -> file_prefix ++ "." ++ g ∈ outputs final)
  /\ tmp final = tmp st
  /\ tmp final !! tmpdir_ v = None.
Proof.
  intros Ht E0 Hf Ep Ex final.
  destruct (render_fails_at _ _ _ _ _ _ _ _ _ _ _ _ _ Ht E0 Hf Ep Ex) as [Hr Hn].
  subst final. rewrite Hr. simpl. repeat split; trivial.
  intros g Hg Hcsv.
  pose proof (render_formats_created _ _ _ _ _ _ _ _ Ep g Hg Hcsv) as Hin.
  refine (stable_run (fun s => {[ file_prefix ++ "." ++ g ]} ⊆ outputs s)
            _ _ _ _ (render_one_outputs _ _ _ _ _ _ _) Ex _ _ _); set_solver.
Qed.

(** ** The shade *)

(** C5. For a polygon made of the text POLYGON, two opening parentheses, a
    ring without closing parenthesis and two closing parentheses,
    [_get_shade_wkt] returns the multipolygon whose first ring is the WKT of
    the bounding box expanded by 0.05 on both axes and whose second ring is
    the ring of the polygon, character for character; it logs nothing and
    changes nothing. *)
Theorem get_shade_wkt_single_ring (bounding_box_ : BoundingBox) (ring : string)
    (st : state) :
  mentions ")" ring = false ->
  _get_shade_wkt bounding_box_ ("POLYGON((" ++ ring ++ "))") st
  = (Ok (Some ("MULTIPOLYGON((("
               ++ as_wkt (create_expanded bounding_box_ 0.05 0.05) false
               ++ ")),((" ++ ring ++ ")))")), st).
Proof.
  intros Hm. unfold _get_shade_wkt.
  assert (E : regexp_polygon_match ("POLYGON((" ++ ring ++ "))") = Some ring).
  { apply regexp_polygon_match_Some. left. now split. }
  now rewrite E.
Qed.

(** C8, as amended. For a polygon that is not a single-ring text, nor a
    single-ring text followed by one newline, [_get_shade_wkt] returns
    [None] without raising, and its only effect is the record 'Administrative
    boundary looks invalid!' logged at the error level. *)
Theorem get_shade_wkt_no_match (bounding_box_ : BoundingBox) (polygon : string)
    (st : state) :
  (forall ring, ~ (single_ring "" polygon ring \/ single_ring newline polygon ring)) ->
  _get_shade_wkt bounding_box_ polygon st
  = (Ok None,
     set_log (log st ++ [(ERROR, "Administrative boundary looks invalid!")]) st).
Proof.
  intros Hn. unfold _get_shade_wkt.
  destruct (regexp_polygon_match polygon) as [inside|] eqn:E.
  - apply regexp_polygon_match_Some in E. now destruct (Hn inside).
  - reflexivity.
Qed.

(** ** The configuration *)

Lemma kept_refl (c : RenderingConfiguration) : kept c c.
Proof. unfold kept. tauto. Qed.

Lemma stable_use {X} (I : state -> Prop) (m : M X) (s : state) :
  stable I m -> I s -> I (snd (m s)).
Proof. intros Hm HI. exact (Hm s HI). Qed.

Lemma render_before_try_kept (self : OCitySMap) (renderer_name : string)
    (output_formats : list string) (s0 : state) :
  kept (config s0)
       (config (snd (render_before_try self renderer_name output_formats s0))).
Proof.
  unfold render_before_try. unfold bind at 1. unfold get_config at 1.
  cbv beta iota zeta.
  remember (config s0) as c0 eqn:Hc.
  assert (HI : kept c0 (config s0)) by (rewrite <- Hc; apply kept_refl).
  clear Hc.
  refine (stable_use (fun s => kept c0 (config s)) _ s0 _ HI).
  stable_steps.
Qed.

(** The fields that no statement of [render] assigns, and the bounding box
    that is only assigned to itself when the configuration has one. *)
Lemma render_kept (self : OCitySMap) (renderer_name : string)
    (output_formats : list string) (file_prefix : string) (st : state) :
  kept (config st)
       (config (snd (render self renderer_name output_formats file_prefix st))).
Proof.
  pose proof (render_before_try_kept self renderer_name output_formats st) as Hk.
  unfold render, bind.
  destruct (render_before_try self renderer_name output_formats st) as [[v|e] s0];
    simpl in Hk |- *; [|exact Hk].
  refine (stable_use (fun s => kept (config st) (config s)) _ s0 _ Hk).
  stable_steps.
Qed.

(** ** The geographic information *)

Lemma strip_row_Raise (x : row) (e : exn) :
  strip_row x = Raise e -> exists msg, e = AttributeError msg.
Proof.
  destruct x as [[x0 [x1|]] [x2|]]; simpl; try discriminate;
    intros [= <-]; eauto.
Qed.

Lemma strip_rows_null (records : list row) (id : Z) (envelope : option string) :
  In (id, envelope, None) records ->
  exists msg, map_result strip_row records = Raise (AttributeError msg).
Proof.
  induction records as [|x records IH]; intros Hin; [contradiction|]. simpl.
  destruct (strip_row x) as [y|e] eqn:Ex; simpl.
  - destruct Hin as [->|Hin].
    + destruct envelope; discriminate.
    + destruct (IH Hin) as [msg ->]. simpl. eauto.
  - destruct (strip_row_Raise _ _ Ex) as [msg ->]. eauto.
Qed.

Lemma get_geographic_info_null (osmids : list (option Z)) (ids : list Z)
    (records : list row) (w : World) (st : state) (id : Z) (envelope : option string) :
  map_result int_of_osmid osmids = Ok ids ->
  execute_fetchall (geographic_query (map (fun z : Z => pretty z) ids)) (world st)
  = (Ok records, w) ->
  In (id, envelope, None) records ->
  get_geographic_info osmids st
  = (Raise (AssertionError "Invalid database structure!"), set_world w st).
Proof.
  intros Hi He Hin. unfold get_geographic_info, bind, lift, call_world.
  rewrite Hi, He. simpl.
  destruct (strip_rows_null _ _ _ Hin) as [msg ->]. reflexivity.
Qed.

Lemma render_before_try_null (self : OCitySMap) (renderer_name : string)
    (output_formats : list string) (st : state) (z : Z) (i : I18n) (w1 w2 : World)
    (records : list row) (id : Z) (envelope : option string) :
  osmid (config st) = Some z ->
  z <> 0%Z ->
  install_translation (language (config st)) (_locale_path self) (world st)
  = (Ok i, w1) ->
  execute_fetchall (geographic_query [pretty z]) w1 = (Ok records, w2) ->
  In (id, envelope, None) records ->
  render_before_try self renderer_name output_formats st
  = (Raise (AssertionError "Invalid database structure!"),
     set_world w2 (snd (set_rtl (isrtl i) (set_world w1 st)))).
Proof.
  intros Ho Hz Hi He Hin.
  assert (Hg : osmid_given (Some z) = true).
  { simpl. apply negb_true_iff. now apply Z.eqb_neq. }
  unfold render_before_try.
  rewrite (bind_run get_config _ st st (config st) eq_refl). cbv beta zeta.
  rewrite Ho, Hg. cbn [orb].
  rewrite (bind_run (ret tt) _ st st tt eq_refl).
  rewrite (bind_run (call_world (install_translation (language (config st))
                                   (_locale_path self)))
             _ st (set_world w1 st) i)
    by (unfold call_world; now rewrite Hi).
  rewrite (bind_run (set_rtl (isrtl i)) _ (set_world w1 st)
             (snd (set_rtl (isrtl i) (set_world w1 st))) tt eq_refl).
  apply bind_fail. unfold try_except.
  rewrite (bind_fail _ _ _ _ _
             (get_geographic_info_null [Some z] [z] records w2
                (snd (set_rtl (isrtl i) (set_world w1 st))) id envelope eq_refl He Hin)).
  reflexivity.
Qed.

(** C3, on the source as it is. When a row of the answer of the database
    has a null polygon, [get_geographic_info] raises the [AssertionError]
    'Invalid database structure!' instead of returning the entry, and a
    [render] for that area id ends with the same exception, before any
    temporary directory is made. *)
Theorem null_polygon_raises :
  (forall (osmids : list (option Z)) (ids : list Z) (records : list row) (w : World)
          (st : state) (id : Z) (envelope : option string),
      map_result int_of_osmid osmids = Ok ids ->
      execute_fetchall (geographic_query (map (fun z : Z => pretty z) ids)) (world st)
      = (Ok records, w) ->
      In (id, envelope, None) records ->
      get_geographic_info osmids st
      = (Raise (AssertionError "Invalid database structure!"), set_world w st))
  /\ (forall (self : OCitySMap) (renderer_name : string) (output_formats : list string)
             (file_prefix : string) (st : state) (z : Z) (i : I18n) (w1 w2 : World)
             (records : list row) (id : Z) (envelope : option string),
         osmid (config st) = Some z ->
         z <> 0%Z ->
         install_translation (language (config st)) (_locale_path self) (world st)
         = (Ok i, w1) ->
         execute_fetchall (geographic_query [pretty z]) w1 = (Ok records, w2) ->
         In (id, envelope, None) records ->
         fst (render self renderer_name output_formats file_prefix st)
         = Raise (AssertionError "Invalid database structure!")
         /\ tmp (snd (render self renderer_name output_formats file_prefix st)) = tmp st).
Proof.
  split; [exact get_geographic_info_null|].
  intros self renderer_name output_formats file_prefix st z i w1 w2 records id
    envelope Ho Hz Hi He Hin.
  rewrite (render_fails_before_try _ _ _ _ _ _ _
             (render_before_try_null self renderer_name output_formats st z i w1 w2
                records id envelope Ho Hz Hi He Hin)).
  now split.
Qed.

(** C2, on the source as it is. With a bounding box and no area id,
    [render] still calls [get_geographic_info] on the missing id: once the
    locale is installed the call ends with the [TypeError] of [int(None)],
    before any query is sent and before any temporary directory is made;
    it never returns normally. *)
Theorem render_without_osmid_raises (self : OCitySMap) (renderer_name : string)
    (output_formats : list string) (file_prefix : string) (st : state)
    (b : BoundingBox) :
  osmid (config st) = None ->
  bounding_box (config st) = Some b ->
  render self renderer_name output_formats file_prefix st
  = match install_translation (language (config st)) (_locale_path self) (world st) with
    | (Ok i, w) =>
        (Raise (TypeError "int() argument must be a string or a number, not 'NoneType'"),
         snd (set_rtl (isrtl i) (set_world w st)))
    | (Raise e, w) => (Raise e, set_world w st)
    end.
Proof.
  intros Ho Hb.
  assert (E : render_before_try self renderer_name output_formats st
              = match install_translation (language (config st)) (_locale_path self)
                        (world st) with
                | (Ok i, w) =>
                    (Raise (TypeError
                       "int() argument must be a string or a number, not 'NoneType'"),
                     snd (set_rtl (isrtl i) (set_world w st)))
                | (Raise e, w) => (Raise e, set_world w st)
                end).
  { unfold render_before_try.
    rewrite (bind_run get_config _ st st (config st) eq_refl). cbv beta zeta.
    rewrite Ho, Hb. cbn [osmid_given orb].
    rewrite bool_decide_eq_true_2 by eauto.
    rewrite (bind_run (ret tt) _ st st tt eq_refl).
    unfold bind at 1. unfold call_world at 1.
    destruct (install_translation _ _ _) as [[i|e] w]; [|reflexivity].
    rewrite (bind_run (set_rtl (isrtl i)) _ (set_world w st)
               (snd (set_rtl (isrtl i) (set_world w st))) tt eq_refl).
    reflexivity. }
  unfold render, bind at 1. rewrite E.
  now destruct (install_translation _ _ _) as [[i|e] w].
Qed.

End PipelineProperties.

(** * The pipeline on scripted collaborators *)

Lemma scripted_tidy (sc : Scripted.script) :
  @tidy Scripted.handles (Scripted.collaborators sc).
Proof.
  intros X c w d Hw. simpl.
  destruct (Scripted.said (Scripted.label c) (Scripted.failing sc)); simpl;
    [exact Hw|].
  destruct c; simpl; try exact Hw. reflexivity.
Qed.

(** C1, on the source as it is. The renderer is created, the map canvas is
    built and leaves its shape files in the temporary directory, and
    compositing the canvas then fails: [render] ends with that exception and
    the temporary directory is still there, with the shape files in it. The
    directory did not exist before the call, and the collaborators keep it
    well-formed. *)
Theorem render_leaves_tempdir_when_canvas_fails :
  fst (Scripted.run Scripted.canvas_fails
         (Scripted.configuration (Some (-943886)%Z) None) ["pdf"])
  = Raise (Foreign "canvas.render")
  /\ tmp (snd (Scripted.run Scripted.canvas_fails
                 (Scripted.configuration (Some (-943886)%Z) None) ["pdf"]))
       !! "ocitysmapa1"
     = Some Scripted.shape_files
  /\ tmp (Scripted.start (Scripted.configuration (Some (-943886)%Z) None))
       !! "ocitysmapa1"
     = None.
Proof. vm_compute. repeat split. Qed.

(** C2, witness. A configuration with a bounding box and no area id. *)
Lemma render_without_osmid_raises_witness :
  fst (Scripted.run Scripted.nominal (Scripted.configuration None (Some "bbox")) ["pdf"])
  = Raise (TypeError "int() argument must be a string or a number, not 'NoneType'").
Proof.
  unfold Scripted.run.
  rewrite (@render_without_osmid_raises Scripted.builtins Scripted.handles
             (Scripted.collaborators Scripted.nominal) Scripted.self "plain" ["pdf"]
             "/tmp/mymap" (Scripted.start (Scripted.configuration None (Some "bbox")))
             "bbox" eq_refl eq_refl).
  reflexivity.
Defined.

(** C3, witness. The database has the area, without a polygon. *)
Lemma null_polygon_raises_witness :
  fst (Scripted.run Scripted.null_polygon
         (Scripted.configuration (Some (-943886)%Z) None) ["pdf"])
  = Raise (AssertionError "Invalid database structure!").
Proof.
  refine (proj1 (proj2 (@null_polygon_raises Scripted.builtins Scripted.handles
                          (Scripted.collaborators Scripted.null_polygon))
                   Scripted.self "plain" ["pdf"] "/tmp/mymap"
                   (Scripted.start (Scripted.configuration (Some (-943886)%Z) None))
                   (-943886)%Z false ["install_translation"]
                   ["install_translation"; "execute"]
                   (Scripted.rows Scripted.null_polygon) (-943886)%Z
                   (Some "POLYGON((1.9 48.6,2.1 48.6,2.1 48.8,1.9 48.8,1.9 48.6))")
                   eq_refl _ eq_refl eq_refl _)).
  - discriminate.
  - now left.
Defined.

(** C4, counterexample. The configuration has an area id and no bounding
    box; after [render] its bounding box is the envelope of the area. *)
Lemma render_sets_bounding_box :
  bounding_box (config (Scripted.start (Scripted.configuration (Some (-943886)%Z) None)))
  = None
  /\ bounding_box
       (config (snd (Scripted.run Scripted.nominal
                       (Scripted.configuration (Some (-943886)%Z) None) ["pdf"])))
     = Some "POLYGON((1.9 48.6,2.1 48.6,2.1 48.8,1.9 48.8,1.9 48.6))"
  /\ bounding_box
       (config (snd (Scripted.run Scripted.nominal
                       (Scripted.configuration (Some (-943886)%Z) None) ["pdf"])))
     <> bounding_box
          (config (Scripted.start (Scripted.configuration (Some (-943886)%Z) None))).
Proof. vm_compute. repeat split. discriminate. Qed.

(** C5, witness. *)
Lemma get_shade_wkt_single_ring_witness :
  @_get_shade_wkt Scripted.handles (Scripted.collaborators Scripted.nominal)
    "B" "POLYGON((2 48.7,2.05 48.7,2.05 48.75,2 48.7))"
    (Scripted.start (Scripted.configuration None None))
  = (Ok (Some "MULTIPOLYGON(((expanded B)),((2 48.7,2.05 48.7,2.05 48.75,2 48.7)))"),
     Scripted.start (Scripted.configuration None None)).
Proof.
  apply (@get_shade_wkt_single_ring Scripted.handles
           (Scripted.collaborators Scripted.nominal) "B"
           "2 48.7,2.05 48.7,2.05 48.75,2 48.7").
  reflexivity.
Defined.

(** C8, counterexample. The polygon is a single-ring text followed by a
    newline, so it is not of the single-ring form; a shade is returned all
    the same, and nothing is logged. *)
Lemma get_shade_wkt_trailing_newline :
  (forall ring, ~ single_ring "" ("POLYGON((1 2))" ++ newline) ring)
  /\ @_get_shade_wkt Scripted.handles (Scripted.collaborators Scripted.nominal)
       "B" ("POLYGON((1 2))" ++ newline)
       (Scripted.start (Scripted.configuration None None))
     = (Ok (Some "MULTIPOLYGON(((expanded B)),((1 2)))"),
        Scripted.start (Scripted.configuration None None)).
Proof.
  split; [|reflexivity].
  intros ring [_ E]. simpl in E. injection E as E.
  do 3 (destruct ring as [|? ring]; [discriminate | injection E as _ E]).
  do 3 (destruct ring as [|? ring]; [discriminate | injection E as _ E]).
  destruct ring; discriminate.
Qed.

(** C8, witness. A polygon with two rings. *)
Lemma get_shade_wkt_no_match_witness :
  @_get_shade_wkt Scripted.handles (Scripted.collaborators Scripted.nominal)
    "B" "POLYGON((1 2,3 4),(5 6,7 8))"
    (Scripted.start (Scripted.configuration None None))
  = (Ok None,
     set_log [(ERROR, "Administrative boundary looks invalid!")]
       (Scripted.start (Scripted.configuration None None))).
Proof.
  apply (@get_shade_wkt_no_match Scripted.handles
           (Scripted.collaborators Scripted.nominal) "B"
           "POLYGON((1 2,3 4),(5 6,7 8))").
  intros ring Hr. apply regexp_polygon_match_Some in Hr. discriminate.
Defined.

(** C6, witness. [CSV] is accepted and does nothing; [jpeg], asked for
    between [PDF] and [ps], ends the call with the unsupported-format error
    once the [pdf] file is made. *)
Lemma output_format_dispatch_witness :
  @_render_one Scripted.builtins Scripted.handles
    (Scripted.collaborators Scripted.nominal) Scripted.self "ocitysmapa1" "plain" tt
    "/tmp/mymap.csv" (lower "CSV") (Scripted.start (Scripted.configuration None None))
  = (Ok tt, Scripted.start (Scripted.configuration None None))
  /\ fst (Scripted.run Scripted.nominal
            (Scripted.configuration (Some (-943886)%Z) None) ["PDF"; "jpeg"; "ps"])
     = Raise (ValueError "Unsupported output format: JPEG!").
Proof.
  split.
  - apply (@output_format_dispatch Scripted.builtins Scripted.handles
             (Scripted.collaborators Scripted.nominal) Scripted.self "ocitysmapa1"
             "plain" tt "/tmp/mymap.csv" "CSV" "plain" [] "/tmp/mymap"
             (Scripted.start (Scripted.configuration None None))).
    reflexivity.
  - unfold Scripted.run.
    erewrite (proj2 (proj2 (proj2 (proj2 (proj2 (proj2 (proj2 (proj2 (proj2
               (@output_format_dispatch Scripted.builtins Scripted.handles
                  (Scripted.collaborators Scripted.nominal) Scripted.self "ocitysmapa1"
                  "plain" tt "/tmp/mymap.csv" "CSV" "plain" ["PDF"; "jpeg"; "ps"]
                  "/tmp/mymap"
                  (Scripted.start (Scripted.configuration (Some (-943886)%Z) None)))
               )))))))) _ _ _ ["pdf"] ["ps"] "jpeg" (scripted_tidy _)).
    + reflexivity.
    + vm_compute. reflexivity.
    + reflexivity.
    + simpl. intros Hin. decompose [or] Hin; discriminate || contradiction.
    + vm_compute. reflexivity.
Defined.

(** C7, witness. Of [PDF], [png] and [ps], the raster image cannot be
    written: the call ends with that failure, [ps] is not attempted, the
    [pdf] file is on disk and the temporary area is empty again. *)
Lemma render_stops_at_failing_format_witness :
  fst (Scripted.run Scripted.png_fails
         (Scripted.configuration (Some (-943886)%Z) None) ["PDF"; "png"; "ps"])
  = Raise (Foreign "write_to_png /tmp/mymap.png")
  /\ "/tmp/mymap.pdf"
       ∈ outputs (snd (Scripted.run Scripted.png_fails
                         (Scripted.configuration (Some (-943886)%Z) None)
                         ["PDF"; "png"; "ps"]))
  /\ tmp (snd (Scripted.run Scripted.png_fails
                 (Scripted.configuration (Some (-943886)%Z) None)
                 ["PDF"; "png"; "ps"]))
     = ∅.
Proof.
  pose proof (@render_stops_at_failing_format Scripted.builtins Scripted.handles
                (Scripted.collaborators Scripted.png_fails) Scripted.self "plain"
                ["PDF"; "png"; "ps"] "/tmp/mymap"
                (Scripted.start (Scripted.configuration (Some (-943886)%Z) None))) as T.
  edestruct T with (pre := ["pdf"]) (post := ["ps"]) (f := "png")
    as (H1 & _ & _ & H4 & H5 & _).
  - apply scripted_tidy.
  - vm_compute. reflexivity.
  - reflexivity.
  - vm_compute. reflexivity.
  - vm_compute. reflexivity.
  - split; [exact H1|]. split; [|exact H5].
    apply (H4 "pdf"); [now left | discriminate].
Defined.

(** C9, witness. Two stylesheets are registered as [Night]: the first one
    is returned. *)
Lemma get_stylesheet_by_name_first_match_witness :
  get_stylesheet_by_name
    [Stylesheet__init__; Scripted.night_style; Stylesheet__init__; Scripted.night_style]
    "Night"
  = Ok Scripted.night_style.
Proof.
  apply (proj1 (get_stylesheet_by_name_first_match _ "Night")).
  exists [Stylesheet__init__], [Stylesheet__init__; Scripted.night_style].
  repeat split. constructor; [discriminate | constructor].
Defined.

(** C10, witness. The section [default] has the two required options only;
    the section [night] also sets the zoom level and the shade opacity. *)
Lemma create_from_config_section_defaults_witness :
  @create_from_config_section Scripted.builtins Scripted.parser "default"
  = Ok {| name := Some "Default"; path := Some "/styles/osm.xml"; description := "";
          zoom_level := 16; grid_line_color := "black"; grid_line_alpha := 0.5;
          grid_line_width := 3; shade_color := "black"; shade_alpha := 0.1 |}
  /\ (exists v, get Scripted.parser "night" "zoom_level" = Ok v
                /\ @cast Scripted.builtins a_zoom_level v
                   = Ok (getattr Scripted.night_style a_zoom_level))
  /\ getattr Scripted.night_style a_grid_line_width = VInt 3.
Proof.
  split; [|split].
  - apply (proj1 (@create_from_config_section_defaults Scripted.builtins
                    Scripted.parser "default")).
    + reflexivity.
    + reflexivity.
    + now intros [].
  - exact (proj2 (proj2 (proj2 (@create_from_config_section_defaults Scripted.builtins
                                  Scripted.parser "night")
                           Scripted.night_style eq_refl)) a_zoom_level).
  - exact (proj2 (proj2 (proj2 (@create_from_config_section_defaults Scripted.builtins
                                  Scripted.parser "night")
                           Scripted.night_style eq_refl)) a_grid_line_width).
Defined.

(** * More of the module *)

(** ** Lists of results, [split] and [strip] *)

Lemma map_result_Ok {X Y} (f : X -> result Y) (l : list X) (l' : list Y) :
  map_result f l = Ok l' <-> Forall2 (fun x y => f x = Ok y) l l'.
Proof.
  revert l'. induction l as [|x l IH]; intros l'; simpl.
  - split; [intros [= <-]; constructor | intros Hf; now inversion Hf].
  - destruct (f x) as [y|e] eqn:Ex; simpl.
    + destruct (map_result f l) as [ys|e] eqn:El; simpl.
      * split.
        -- intros [= <-]. constructor; [assumption | now apply IH].
        -- intros Hf. inversion Hf as [|? y' ? ys' Hy Hys]; subst.
           apply IH in Hys. congruence.
      * split; [discriminate|]. intros Hf.
        inversion Hf as [|? y' ? ys' Hy Hys]; subst. apply IH in Hys. discriminate.
    + split; [discriminate|]. intros Hf. inversion Hf; congruence.
Qed.

Lemma map_result_Raise {X Y} (f : X -> result Y) (pre post : list X) (x : X) (e : exn) :
  Forall (fun y => exists z, f y = Ok z) pre ->
  f x = Raise e ->
  map_result f (pre ++ x :: post) = Raise e.
Proof.
  intros Hp Hx. induction Hp as [|y pre [z Hy] _ IH]; simpl.
  - now rewrite Hx.
  - now rewrite Hy, IH.
Qed.

Lemma split_on_cons (sep : ascii) (s : string) :
  exists h t, split_on sep s = h :: t.
Proof.
  destruct s as [|c s]; simpl; [now eexists _, _|].
  destruct (Ascii.eqb c sep); [now eexists _, _|].
  destruct (split_on sep s); now eexists _, _.
Qed.

(** Joining the pieces of a split with the separator gives the text back. *)
Lemma join_split_on (sep : ascii) (s : string) :
  join (String sep EmptyString) (split_on sep s) = s.
Proof.
  induction s as [|c s IH]; simpl; [reflexivity|].
  destruct (Ascii.eqb c sep) eqn:Ec.
  - apply Ascii.eqb_eq in Ec as ->.
    destruct (split_on_cons sep s) as (h & t & E). rewrite E in *.
    simpl. simpl in IH. now rewrite IH.
  - destruct (split_on_cons sep s) as (h & t & E). rewrite E in *.
    destruct t; simpl in *; now rewrite <- IH.
Qed.

(** No piece of a split contains the separator. *)
Lemma split_on_pieces (sep : ascii) (s : string) :
  Forall (fun piece => mentions sep piece = false) (split_on sep s).
Proof.
  induction s as [|c s IH]; simpl; [now repeat constructor|].
  destruct (Ascii.eqb c sep) eqn:Ec; [now constructor|].
  destruct (split_on sep s) as [|h t]; [now repeat constructor; simpl; rewrite Ec|].
  inversion IH as [|? ? Hh Ht]; subst. constructor; [|assumption].
  simpl. now rewrite Ec.
Qed.

Lemma lstrip_head (s : string) :
  match lstrip s with
  | EmptyString => True
  | String c _ => isspace c = false
  end.
Proof.
  induction s as [|c s IH]; simpl; [exact I|].
  destruct (isspace c) eqn:Ec; [exact IH | exact Ec].
Qed.

Lemma lstrip_fixed (s : string) :
  match s with
  | EmptyString => True
  | String c _ => isspace c = false
  end ->
  lstrip s = s.
Proof. destruct s as [|c s]; simpl; [reflexivity|]. now intros ->. Qed.

Lemma rstrip_idempotent (s : string) : rstrip (rstrip s) = rstrip s.
Proof.
  induction s as [|c s IH]; simpl; [reflexivity|].
  destruct (isspace c && String.eqb (rstrip s) EmptyString) eqn:E; simpl; [reflexivity|].
  now rewrite IH, E.
Qed.

Lemma rstrip_head (s : string) :
  match s with
  | EmptyString => True
  | String c _ => isspace c = false
  end ->
  match rstrip s with
  | EmptyString => True
  | String c _ => isspace c = false
  end.
Proof.
  destruct s as [|c s]; simpl; [trivial|]. intros Hc. now rewrite Hc.
Qed.

(** [strip] gives a text that [strip] leaves as it is: nothing is left to
    trim at either end. *)
Lemma strip_idempotent (s : string) : strip (strip s) = strip s.
Proof.
  unfold strip.
  rewrite (lstrip_fixed (rstrip (lstrip s))) by apply rstrip_head, lstrip_head.
  apply rstrip_idempotent.
Qed.

(** ** Loading the registry *)

Section RegistryProperties.

Context {B : Builtins}.

Lemma create_from_config_section_named (p : RawConfigParser) (section : string)
    (s : Stylesheet) :
  create_from_config_section p section = Ok s ->
  get p section "name" = Ok (default "" (name s)) /\ is_Some (name s)
  /\ get p section "path" = Ok (default "" (path s)) /\ is_Some (path s).
Proof.
  unfold create_from_config_section.
  destruct (get p section "name") as [n|] eqn:Hn; simpl; [|discriminate].
  destruct (get p section "path") as [pth|] eqn:Hp; simpl; [|discriminate].
  set (s0 := {| name := Some n |}).
  destruct (assign_if_present p section a_description s0)
    as [s1|] eqn:E1; simpl; [|discriminate].
  destruct (assign_if_present p section a_zoom_level s1)
    as [s2|] eqn:E2; simpl; [|discriminate].
  destruct (assign_if_present p section a_grid_line_color s2)
    as [s3|] eqn:E3; simpl; [|discriminate].
  destruct (assign_if_present p section a_grid_line_alpha s3)
    as [s4|] eqn:E4; simpl; [|discriminate].
  destruct (assign_if_present p section a_grid_line_width s4)
    as [s5|] eqn:E5; simpl; [|discriminate].
  destruct (assign_if_present p section a_shade_color s5)
    as [s6|] eqn:E6; simpl; [|discriminate].
  destruct (assign_if_present p section a_shade_alpha s6)
    as [s7|] eqn:E7; simpl; [|discriminate].
  intros [= <-].
  destruct (assign_if_present_spec _ _ _ _ _ _ _ Hn E1) as (_ & N1 & P1 & _).
  destruct (assign_if_present_spec _ _ _ _ _ _ _ Hn E2) as (_ & N2 & P2 & _).
  destruct (assign_if_present_spec _ _ _ _ _ _ _ Hn E3) as (_ & N3 & P3 & _).
  destruct (assign_if_present_spec _ _ _ _ _ _ _ Hn E4) as (_ & N4 & P4 & _).
  destruct (assign_if_present_spec _ _ _ _ _ _ _ Hn E5) as (_ & N5 & P5 & _).
  destruct (assign_if_present_spec _ _ _ _ _ _ _ Hn E6) as (_ & N6 & P6 & _).
  destruct (assign_if_present_spec _ _ _ _ _ _ _ Hn E7) as (_ & N7 & P7 & _).
  rewrite N7, N6, N5, N4, N3, N2, N1, P7, P6, P5, P4, P3, P2, P1. simpl.
  repeat split; eauto.
Qed.

Lemma create_all_from_config_Ok (p : RawConfigParser) (reg : list Stylesheet) :
  create_all_from_config p = Ok reg ->
  exists styles,
    get p "rendering" "available_stylesheets" = Ok styles
    /\ styles <> ""
    /\ Forall2 (fun section s => create_from_config_section p section = Ok s)
               (split_on "," styles) reg.
Proof.
  unfold create_all_from_config.
  destruct (get p "rendering" "available_stylesheets") as [styles|]; simpl;
    [|discriminate].
  destruct (String.eqb styles "") eqn:Es; [discriminate|].
  intros Hm. exists styles. repeat split.
  - now apply String.eqb_neq.
  - now apply map_result_Ok.
Qed.

Lemma get_stylesheet_by_name_finds (reg : list Stylesheet) (s : Stylesheet)
    (n : string) :
  In s reg -> name s = Some n ->
  exists s', get_stylesheet_by_name reg n = Ok s' /\ name s' = Some n.
Proof.
  induction reg as [|x reg IH]; intros Hin Hn; [contradiction|]. simpl.
  destruct (name_is n x) eqn:Ex.
  - exists x. split; [reflexivity | now apply name_is_true].
  - destruct Hin as [->|Hin]; [|now apply IH].
    apply name_is_false in Ex. contradiction.
Qed.

Lemma loaded_registry_named (p : RawConfigParser) (reg : list Stylesheet) :
  create_all_from_config p = Ok reg ->
  reg <> []
  /\ forall s, In s reg -> exists n pth, name s = Some n /\ path s = Some pth.
Proof.
  intros Hc. destruct (create_all_from_config_Ok _ _ Hc) as (styles & _ & _ & Hf).
  split.
  - destruct (split_on_cons "," styles) as (h & t & E). rewrite E in Hf.
    inversion Hf. discriminate.
  - intros s Hs.
    assert (Hn : exists section, create_from_config_section p section = Ok s).
    { clear -Hf Hs. induction Hf as [|x y l l' Hxy _ IH]; [contradiction|].
      destruct Hs as [->|Hs]; eauto. }
    destruct Hn as [section Hn].
    destruct (create_from_config_section_named _ _ _ Hn) as (_ & [n En] & _ & [pth Ep]).
    now exists n, pth.
Qed.

(** X1. Every stylesheet of a registry loaded from the configuration has a
    name and a path, the registry is not empty, and looking a stylesheet up
    by its name succeeds with a stylesheet of that name; it is that very
    stylesheet when no two stylesheets of the registry share a name. *)
Theorem loaded_registry_lookup (p : RawConfigParser) (reg : list Stylesheet) :
  create_all_from_config p = Ok reg ->
  reg <> []
  /\ forall s, In s reg ->
       exists n pth,
         name s = Some n /\ path s = Some pth
         /\ (exists s', get_stylesheet_by_name reg n = Ok s' /\ name s' = Some n)
         /\ (NoDup (map name reg) -> get_stylesheet_by_name reg n = Ok s).
Proof.
  intros Hc. destruct (loaded_registry_named _ _ Hc) as [Hne Hnamed].
  split; [exact Hne|].
  - intros s Hs. destruct (Hnamed s Hs) as (n & pth & En & Ep).
    exists n, pth. repeat split; trivial.
    + now apply get_stylesheet_by_name_finds with s.
    + intros Hd. apply get_stylesheet_by_name_Ok.
      apply in_split in Hs as (before & after & ->).
      exists before, after. repeat split; trivial.
      rewrite map_app in Hd. simpl in Hd. apply NoDup_app in Hd as (_ & Hd & _).
      apply Forall_forall. intros x Hx Ex. apply (Hd (name x)).
      * apply list_elem_of_In, in_map. now apply list_elem_of_In.
      * rewrite Ex, <- En. left.
Qed.

(** X2. A loaded registry has one stylesheet for each piece of the
    comma-separated option [available_stylesheets], in the order of the
    option, each made from the section named by the piece as it is written;
    the pieces contain no comma and give the option back when joined by
    commas. *)
Theorem loaded_registry_order (p : RawConfigParser) (reg : list Stylesheet)
    (styles : string) :
  create_all_from_config p = Ok reg ->
  get p "rendering" "available_stylesheets" = Ok styles ->
  Forall2 (fun section s => create_from_config_section p section = Ok s
                            /\ get p section "name" = Ok (default "" (name s)))
          (split_on "," styles) reg
  /\ length reg = length (split_on "," styles)
  /\ join "," (split_on "," styles) = styles
  /\ Forall (fun section => mentions "," section = false) (split_on "," styles).
Proof.
  intros Hc Hg. destruct (create_all_from_config_Ok _ _ Hc) as (styles' & Hg' & _ & Hf).
  assert (styles' = styles) as -> by congruence.
  repeat split.
  - clear -Hf. induction Hf as [|x y l l' Hxy _ IH]; constructor; [|assumption].
    split; [assumption|]. now apply create_from_config_section_named.
  - symmetry. now apply Forall2_length in Hf.
  - apply join_split_on.
  - apply split_on_pieces.
Qed.

(** X3. Loading fails with the [ValueError] of the source when the option
    is empty, with the exception of the parser when the option or the
    section [rendering] is missing, and otherwise with the exception of the
    first section that cannot be loaded; a piece that is not the name of a
    section (for instance because of a space after the comma) raises
    [NoSectionError] for that piece. *)
Theorem create_all_from_config_errors (p : RawConfigParser) :
  (get p "rendering" "available_stylesheets" = Ok "" ->
   create_all_from_config p
   = Raise (ValueError "OCitySMap configuration does not contain any stylesheet!"))
  /\ (forall e, get p "rendering" "available_stylesheets" = Raise e ->
                create_all_from_config p = Raise e)
  /\ (forall styles pre section post e,
         get p "rendering" "available_stylesheets" = Ok styles ->
         split_on "," styles = (pre ++ section :: post)%list ->
         Forall (fun m => exists s, create_from_config_section p m = Ok s) pre ->
         create_from_config_section p section = Raise e ->
         styles <> "" ->
         create_all_from_config p = Raise e)
  /\ (forall section,
         _sections p !! section = None -> section <> DEFAULTSECT ->
         create_from_config_section p section = Raise (NoSectionError section)).
Proof.
  repeat split.
  - intros Hg. unfold create_all_from_config. now rewrite Hg.
  - intros e Hg. unfold create_all_from_config. now rewrite Hg.
  - intros styles pre section post e Hg Hs Hp He Hn.
    unfold create_all_from_config. rewrite Hg. simpl.
    apply String.eqb_neq in Hn. rewrite Hn, Hs.
    now apply map_result_Raise.
  - intros section Hs Hd. unfold create_from_config_section, get. rewrite Hs.
    apply String.eqb_neq in Hd. now rewrite Hd.
Qed.

End RegistryProperties.

Section MorePipelineProperties.

Context {B : Builtins} {H : Handles} {C : Collaborators}.

(** ** [get_geographic_info] *)

Lemma int_of_osmids_None (osmids : list (option Z)) :
  In None osmids ->
  map_result int_of_osmid osmids
  = Raise (TypeError "int() argument must be a string or a number, not 'NoneType'").
Proof.
  induction osmids as [|[z|] osmids IH]; intros Hin; [contradiction| |reflexivity].
  simpl. destruct Hin as [Hin|Hin]; [discriminate|]. now rewrite IH.
Qed.

(** X4. When one of the ids is [None], [get_geographic_info] raises the
    [TypeError] of [int(None)] and the state is untouched: no query is
    sent, whatever the other ids are. *)
Theorem get_geographic_info_None (osmids : list (option Z)) (st : state) :
  In None osmids ->
  get_geographic_info osmids st
  = (Raise (TypeError "int() argument must be a string or a number, not 'NoneType'"),
     st).
Proof.
  intros Hin. unfold get_geographic_info, bind, lift.
  now rewrite (int_of_osmids_None _ Hin).
Qed.

Lemma strip_rows_Ok (records : list row) :
  Forall (fun x => is_Some (snd (fst x)) /\ is_Some (snd x)) records ->
  exists infos,
    map_result strip_row records = Ok infos
    /\ length infos = length records
    /\ (forall i id e a,
           records !! i = Some (id, Some e, Some a) ->
           infos !! i = Some (id, strip e, strip a))
    /\ Forall (fun info => strip (snd (fst info)) = snd (fst info)
                           /\ strip (snd info) = snd info) infos.
Proof.
  induction 1 as [|[[id xe] xa] records [He Ha] _ (infos & Hm & Hl & Hi & Hs)].
  - exists []. repeat split; [intros; discriminate | constructor].
  - simpl in He, Ha. destruct He as [e ->]. destruct Ha as [a ->].
    exists ((id, strip e, strip a) :: infos). simpl. rewrite Hm. simpl.
    repeat split.
    + now rewrite Hl.
    + intros [|i] id' e' a'; simpl; [now intros [= -> -> ->] | apply Hi].
    + constructor; [|assumption]. simpl. split; apply strip_idempotent.
Qed.

Lemma strip_rows_Raise (records : list row) :
  ~ Forall (fun x => is_Some (snd (fst x)) /\ is_Some (snd x)) records ->
  exists msg, map_result strip_row records = Raise (AttributeError msg).
Proof.
  induction records as [|[[id xe] xa] records IH]; intros Hn.
  - destruct Hn. constructor.
  - simpl. destruct xe as [e|]; simpl; [|eauto]. destruct xa as [a|]; simpl; [|eauto].
    destruct IH as [msg ->]; [|simpl; eauto].
    intros Hf. apply Hn. constructor; [simpl; eauto | assumption].
Qed.

(** X5. When the ids are integers and the query is answered,
    [get_geographic_info] returns normally exactly when no row has a null
    envelope or polygon. It then returns one entry per row, in the order of
    the rows, with the id of the row and its two texts stripped, so that
    every returned text is free of surrounding whitespace; otherwise it
    raises the [AssertionError] 'Invalid database structure!'. In both cases
    the state changes by the database call only. *)
Theorem get_geographic_info_rows (osmids : list (option Z)) (ids : list Z)
    (records : list row) (w : World) (st : state) :
  map_result int_of_osmid osmids = Ok ids ->
  execute_fetchall (geographic_query (map (fun z : Z => pretty z) ids)) (world st)
  = (Ok records, w) ->
  (Forall (fun x => is_Some (snd (fst x)) /\ is_Some (snd x)) records ->
   exists infos,
     get_geographic_info osmids st = (Ok infos, set_world w st)
     /\ length infos = length records
     /\ (forall i id e a,
            records !! i = Some (id, Some e, Some a) ->
            infos !! i = Some (id, strip e, strip a))
     /\ Forall (fun info => strip (snd (fst info)) = snd (fst info)
                            /\ strip (snd info) = snd info) infos)
  /\ (~ Forall (fun x => is_Some (snd (fst x)) /\ is_Some (snd x)) records ->
      get_geographic_info osmids st
      = (Raise (AssertionError "Invalid database structure!"), set_world w st)).
Proof.
  intros Hi He. unfold get_geographic_info, bind, lift, call_world.
  rewrite Hi, He. simpl. split.
  - intros Hf. destruct (strip_rows_Ok _ Hf) as (infos & -> & Hrest).
    exists infos. now split.
  - intros Hn. now destruct (strip_rows_Raise _ Hn) as (msg & ->).
Qed.

(** ** [_cleanup_tempdir] *)

(** X6. On a temporary directory whose tree is well-formed, however deep,
    [_cleanup_tempdir] returns normally, the directory no longer exists,
    and the rest of the state (the other temporary directories, the output
    files, the configuration, the log) is as it was. *)
Theorem cleanup_tempdir_removes_tree (tmpdir : string) (d : dir) (s : state) :
  tmp s !! tmpdir = Some d ->
  well_formed (Dir d) = true ->
  _cleanup_tempdir tmpdir s = (Ok tt, set_tmp (delete tmpdir (tmp s)) s)
  /\ tmp (snd (_cleanup_tempdir tmpdir s)) !! tmpdir = None
  /\ forall t, t <> tmpdir ->
       tmp (snd (_cleanup_tempdir tmpdir s)) !! t = tmp s !! t.
Proof.
  intros Hl Hw.
  assert (E : _cleanup_tempdir tmpdir s = (Ok tt, set_tmp (delete tmpdir (tmp s)) s)).
  { apply cleanup_tempdir_removes. split; [apply lookup_delete_eq|].
    exists d. split; [|assumption]. now rewrite insert_delete_id. }
  rewrite E. simpl. repeat split.
  - apply lookup_delete_eq.
  - intros t Ht. now apply lookup_delete_ne.
Qed.

(** ** What the pipeline leaves alone *)

(** A proof that an invariant is kept follows the structure of the
    computation; [fin] closes the steps that are read off a definition. *)
Ltac frame_leaf fin :=
  solve
    [ unfold stable, hoare, ret, raise, lift, get_config, call_world, call_in,
        set_rtl, set_bounding_box, l_error, file_created, in_tmpdir, os_rmdir_top;
      intros ? ?;
      repeat match goal with
             | |- context [match ?x with _ => _ end] => destruct x
             end;
      simpl in *; fin ].

Ltac frame_steps fin :=
  lazymatch goal with
  | |- stable _ (bind (ret _) _) => apply stable_bind_ret; frame_steps fin
  | |- stable _ (bind (match ?x with _ => _ end) _) => destruct x eqn:?; frame_steps fin
  | |- stable _ (bind _ _) =>
      apply stable_bind; [frame_steps fin | intros ?; frame_steps fin]
  | |- stable _ (try_except _ _) =>
      apply stable_try_except; [frame_steps fin | intros ?; frame_steps fin]
  | |- stable _ (try_finally _ _) => apply stable_try_finally; frame_steps fin
  | |- stable _ (for_each _ _) => apply stable_for_each; intros ?; frame_steps fin
  | |- stable _ (if ?c then _ else _) => destruct c eqn:?; frame_steps fin
  | |- stable _ (match ?x with _ => _ end) => destruct x eqn:?; frame_steps fin
  | |- stable _ (get_geographic_info _) => unfold get_geographic_info; frame_steps fin
  | |- stable _ (_get_shade_wkt _ _) => unfold _get_shade_wkt; frame_steps fin
  | |- stable _ (_render_one _ _ _ _ _ _) => unfold _render_one; frame_steps fin
  | |- stable _ (draw_page _ _ _ _ _ _ _) => unfold draw_page; frame_steps fin
  | |- stable _ (render_outputs _ _ _) => unfold render_outputs; frame_steps fin
  | |- stable _ (render_before_try _ _ _) =>
      unfold render_before_try; cbv zeta; frame_steps fin
  | |- stable _ (render _ _ _ _) => unfold render; frame_steps fin
  | |- stable _ (mkdtemp _) => unfold mkdtemp; frame_steps fin
  | |- stable _ (os_remove _ _ _) => unfold os_remove; frame_steps fin
  | |- stable _ (os_rmdir _ _ _) => unfold os_rmdir; frame_steps fin
  | |- stable _ (_cleanup_tempdir _) => unfold _cleanup_tempdir; frame_steps fin
  | |- _ => frame_leaf fin
  end.

(** X7. Whatever its outcome, [_cleanup_tempdir] changes nothing but the
    directory it is given: the configuration, the world, the output files,
    the log and the other temporary directories are as they were. When the
    directory does not exist it raises an [OSError] and changes nothing at
    all. *)
Theorem cleanup_tempdir_frame (tmpdir : string) (s : state) :
  let s' := snd (_cleanup_tempdir tmpdir s) in
  (config s' = config s /\ world s' = world s /\ outputs s' = outputs s
   /\ log s' = log s
   /\ forall t, t <> tmpdir -> tmp s' !! t = tmp s !! t)
  /\ (tmp s !! tmpdir = None ->
      _cleanup_tempdir tmpdir s = (Raise (OSError "No such file or directory"), s)).
Proof.
  split.
  - refine (stable_use
              (fun s' => config s' = config s /\ world s' = world s
                         /\ outputs s' = outputs s /\ log s' = log s
                         /\ forall t, t <> tmpdir -> tmp s' !! t = tmp s !! t)
              (_cleanup_tempdir tmpdir) s _ _); [|now repeat split].
    frame_steps ltac:(destruct_and?; repeat split; try congruence;
                      intros; rewrite ?lookup_insert_ne, ?lookup_delete_ne by congruence;
                      auto).
  - intros Hn. unfold _cleanup_tempdir, bind. rewrite Hn. simpl.
    unfold os_rmdir_top. now rewrite Hn.
Qed.

(** X8. Whatever its outcome, [render] removes no output file and no
    record of the log: the output files it started with are still there and
    the log it started with is the beginning of the log it ends with. *)
Theorem render_only_adds (self : OCitySMap) (renderer_name : string)
    (output_formats : list string) (file_prefix : string) (st : state) :
  outputs st ⊆ outputs (snd (render self renderer_name output_formats file_prefix st))
  /\ log st `prefix_of`
       log (snd (render self renderer_name output_formats file_prefix st)).
Proof.
  refine (stable_use
            (fun s => outputs st ⊆ outputs s /\ log st `prefix_of` log s)
            (render self renderer_name output_formats file_prefix) st _ _);
    [|now split].
  frame_steps ltac:(destruct_and?; split;
                    [set_solver | first [assumption | now apply prefix_app_r]]).
Qed.

(** ** [render]: preconditions and the area that is not found *)

(** X9. Without a bounding box and with no area id, or with the area id 0
    (which Python takes for false), [render] raises the [AssertionError] 'At
    least an OSM ID or a bounding box must be provided!' and the state is
    untouched: no locale is installed, no query is sent, no directory is
    made. *)
Theorem render_needs_area_or_box (self : OCitySMap) (renderer_name : string)
    (output_formats : list string) (file_prefix : string) (st : state) :
  osmid (config st) = None \/ osmid (config st) = Some 0%Z ->
  bounding_box (config st) = None ->
  render self renderer_name output_formats file_prefix st
  = (Raise (AssertionError "At least an OSM ID or a bounding box must be provided!"),
     st).
Proof.
  intros Ho Hb. apply render_fails_before_try. unfold render_before_try.
  rewrite (bind_run get_config _ st st (config st) eq_refl). cbv beta zeta.
  rewrite Hb. destruct Ho as [-> | ->]; reflexivity.
Qed.

Lemma get_geographic_info_fails (osmids : list (option Z)) (ids : list Z)
    (w : World) (st : state) (e : exn) :
  map_result int_of_osmid osmids = Ok ids ->
  execute_fetchall (geographic_query (map (fun z : Z => pretty z) ids)) (world st)
  = (Raise e, w) ->
  get_geographic_info osmids st = (Raise e, set_world w st).
Proof.
  intros Hi He. unfold get_geographic_info, bind, lift, call_world.
  now rewrite Hi, He.
Qed.

Lemma get_geographic_info_empty (osmids : list (option Z)) (ids : list Z)
    (w : World) (st : state) :
  map_result int_of_osmid osmids = Ok ids ->
  execute_fetchall (geographic_query (map (fun z : Z => pretty z) ids)) (world st)
  = (Ok [], w) ->
  get_geographic_info osmids st = (Ok [], set_world w st).
Proof.
  intros Hi He. unfold get_geographic_info, bind, lift, call_world.
  now rewrite Hi, He.
Qed.

(** X10. When the query for a non-zero area id returns no row, and also
    when the database call itself raises an [IndexError], [render] raises the
    [AssertionError] 'OSM ID not found in the database!'. The state is then
    the one reached after the locale was installed and the query sent: no
    temporary directory has been made and the bounding box is not set. *)
Theorem render_area_not_found (self : OCitySMap) (renderer_name : string)
    (output_formats : list string) (file_prefix : string) (st : state)
    (z : Z) (i : I18n) (w1 w2 : World) :
  osmid (config st) = Some z ->
  z <> 0%Z ->
  install_translation (language (config st)) (_locale_path self) (world st)
  = (Ok i, w1) ->
  (execute_fetchall (geographic_query [pretty z]) w1 = (Ok [], w2)
   \/ exists msg,
       execute_fetchall (geographic_query [pretty z]) w1 = (Raise (IndexError msg), w2)) ->
  render self renderer_name output_formats file_prefix st
  = (Raise (AssertionError "OSM ID not found in the database!"),
     set_world w2 (snd (set_rtl (isrtl i) (set_world w1 st)))).
Proof.
  intros Ho Hz Hi He. apply render_fails_before_try.
  assert (Hg : osmid_given (Some z) = true).
  { simpl. apply negb_true_iff. now apply Z.eqb_neq. }
  unfold render_before_try.
  rewrite (bind_run get_config _ st st (config st) eq_refl). cbv beta zeta.
  rewrite Ho, Hg. cbn [orb].
  rewrite (bind_run (ret tt) _ st st tt eq_refl).
  rewrite (bind_run (call_world (install_translation (language (config st))
                                   (_locale_path self)))
             _ st (set_world w1 st) i)
    by (unfold call_world; now rewrite Hi).
  rewrite (bind_run (set_rtl (isrtl i)) _ (set_world w1 st)
             (snd (set_rtl (isrtl i) (set_world w1 st))) tt eq_refl).
  apply bind_fail. unfold try_except.
  destruct He as [He | [msg He]].
  - rewrite (bind_run _ _ _ _ _
               (get_geographic_info_empty [Some z] [z] w2
                  (snd (set_rtl (isrtl i) (set_world w1 st))) eq_refl He)).
    reflexivity.
  - rewrite (bind_fail _ _ _ _ _
               (get_geographic_info_fails [Some z] [z] w2
                  (snd (set_rtl (isrtl i) (set_world w1 st))) _ eq_refl He)).
    reflexivity.
Qed.

(** ** A [render] that returns *)

Lemma render_before_try_resolved (self : OCitySMap) (renderer_name : string)
    (output_formats : list string) :
  returns (fun _ => True) (render_before_try self renderer_name output_formats)
          (fun _ s => resolved s).
Proof.
  unfold render_before_try. cbv zeta.
  do 3 (apply returns_bind; [apply stable_True | intros ?]).
  apply returns_bind_then with (J := fun _ s => is_Some (rtl (config s))).
  { intros s _ u _. simpl. eauto. }
  intros ?.
  do 2 (apply returns_bind;
        [frame_steps ltac:(eauto) | intros ?]).
  apply returns_bind_then with (J := fun _ s => resolved s).
  { intros s Hs u _. unfold resolved. simpl. split; eauto. }
  intros ?.
  do 10 (apply returns_bind;
         [frame_steps ltac:(unfold resolved in *; simpl in *; destruct_and?; split; eauto)
         | intros ?]).
  apply returns_ret. trivial.
Qed.

(** X11. When [render] returns normally, with collaborators that keep the
    names of a directory distinct: the temporary area is what it was before
    the call, so the temporary directory is gone; every requested format is
    a supported one once lowered, and for each of them other than csv the
    file named by the prefix, a dot and the lowered format is on disk; and
    the configuration has a bounding box and its [rtl] flag. *)
Theorem render_success (self : OCitySMap) (renderer_name : string)
    (output_formats : list string) (file_prefix : string) (st s' : state) :
  tidy ->
  render self renderer_name output_formats file_prefix st = (Ok tt, s') ->
  tmp s' = tmp st
  /\ (forall f, In f output_formats ->
        In (lower f) supported_formats
        /\ (lower f <> "csv" -> file_prefix ++ "." ++ lower f ∈ outputs s'))
  /\ is_Some (bounding_box (config s'))
  /\ is_Some (rtl (config s')).
Proof.
  intros Ht Hr. pose proof Hr as Hr'. unfold render in Hr'.
  apply bind_Ok in Hr' as (v & s0 & E0 & _).
  destruct (render_outputs self v file_prefix s0) as [r s1] eqn:E1.
  destruct (render_after_try _ _ _ _ _ _ _ _ _ Ht E0 E1) as (Hr2 & _ & Hfmt).
  rewrite Hr in Hr2. injection Hr2 as <- ->.
  pose proof (returns_run _ _ _ _ _ _
                (render_before_try_resolved self renderer_name output_formats)
                E0 I) as Hres.
  assert (Hres1 : resolved s1).
  { refine (stable_run resolved _ _ _ _ _ E1 Hres).
    frame_steps ltac:(unfold resolved in *; simpl in *; destruct_and?; split; eauto). }
  unfold render_outputs in E1. rewrite Hfmt in E1.
  split; [reflexivity|]. split; [|exact Hres1].
  intros f Hf. apply (in_map lower) in Hf. split.
  - destruct (in_dec string_dec (lower f) supported_formats) as [Hin|Hn]; [assumption|].
    destruct (for_each_unsupported (map lower output_formats)
                (fun g => _render_one self (tmpdir_ v) (renderer_ v)
                            (street_index_renderer_ v) (file_prefix ++ "." ++ g) g)
                (lower f) Hf) with (s := s0) as [e He].
    + intros s. eexists. now apply render_one_unsupported.
    + rewrite E1 in He. discriminate.
  - intros Hcsv. simpl. exact (render_formats_created _ _ _ _ _ _ _ _ E1 _ Hf Hcsv).
Qed.

(** ** [render] and the other temporary directories *)

Lemma hoare_bind {X Y} (P : state -> Prop) (R : result X -> state -> Prop)
    (Q : result Y -> state -> Prop) (m : M X) (k : X -> M Y) :
  hoare P m R ->
  (forall x, hoare (R (Ok x)) (k x) Q) ->
  (forall e s, R (Raise e) s -> Q (Raise e) s) ->
  hoare P (bind m k) Q.
Proof.
  intros Hm Hk He s HP. unfold bind. specialize (Hm s HP).
  destruct (m s) as [[x|e] s1]; simpl in *; [now apply Hk | now apply He].
Qed.

Lemma hoare_bind_stable {X Y} (I : state -> Prop) (Q : result Y -> state -> Prop)
    (m : M X) (k : X -> M Y) :
  stable I m ->
  (forall x, hoare I (k x) Q) ->
  (forall e s, I s -> Q (Raise e) s) ->
  hoare I (bind m k) Q.
Proof. intros Hm Hk He. exact (hoare_bind I (fun _ => I) Q m k Hm Hk He). Qed.

(** [mkdtemp] takes a name that is free, so it is none of the directories
    that exist. *)
Lemma mkdtemp_others (prefix : string) (T : gmap string dir) :
  hoare (others_kept T) (mkdtemp prefix)
        (fun r s => match r with
                    | Ok tmpdir => others_kept_beside T tmpdir s
                    | Raise _ => others_kept T s
                    end).
Proof.
  intros s HI. unfold mkdtemp, bind, call_world.
  destruct (candidate_names (world s)) as [[names|e] w]; simpl; [|exact HI].
  destruct (List.find _ names) as [n|] eqn:Ef; simpl; [|exact HI].
  apply find_some in Ef as [_ Hd]. apply bool_decide_eq_true in Hd. simpl in Hd.
  assert (HT : T !! (prefix ++ n) = None).
  { destruct (T !! (prefix ++ n)) as [d|] eqn:E; [|reflexivity].
    apply HI in E. congruence. }
  split; [exact HT|]. intros t d Ht. simpl.
  rewrite lookup_insert_ne by congruence. now apply HI.
Qed.

Lemma render_before_try_others (self : OCitySMap) (renderer_name : string)
    (output_formats : list string) (T : gmap string dir) :
  hoare (others_kept T) (render_before_try self renderer_name output_formats)
        (fun r s => match r with
                    | Ok v => others_kept_beside T (tmpdir_ v) s
                    | Raise _ => others_kept T s
                    end).
Proof.
  unfold render_before_try. cbv zeta.
  do 7 (apply hoare_bind_stable;
        [frame_steps ltac:(unfold others_kept in *; simpl in *; auto)
        | intros ? | trivial]).
  eapply hoare_bind; [apply mkdtemp_others | intros tmpdir | trivial].
  do 9 (apply hoare_bind_stable;
        [frame_steps ltac:(unfold others_kept_beside, others_kept in *; simpl in *;
                           destruct_and?; split; [assumption|];
                           intros; rewrite ?lookup_insert_ne by congruence; auto)
        | intros ? | now intros ? ? [_ ?]]).
  intros s Hs. exact Hs.
Qed.

(** X12. Whatever its outcome, and whatever the collaborators write,
    [render] leaves every temporary directory that existed before the call
    in place with its entries: the directory it makes has a fresh name, and
    the collaborators and the cleanup work in that directory only. *)
Theorem render_keeps_other_tempdirs (self : OCitySMap) (renderer_name : string)
    (output_formats : list string) (file_prefix : string) (st : state)
    (t : string) (d : dir) :
  tmp st !! t = Some d ->
  tmp (snd (render self renderer_name output_formats file_prefix st)) !! t = Some d.
Proof.
  assert (Hr : hoare (others_kept (tmp st))
                 (render self renderer_name output_formats file_prefix)
                 (fun _ => others_kept (tmp st))).
  { unfold render. eapply hoare_bind.
    - apply render_before_try_others.
    - intros v s [HT Hs]. refine (proj2 (_ : others_kept_beside _ (tmpdir_ v) _)).
      refine (stable_use (others_kept_beside (tmp st) (tmpdir_ v)) _ s _ (conj HT Hs)).
      frame_steps ltac:(unfold others_kept_beside, others_kept in *; simpl in *;
                        destruct_and?; split; [assumption|];
                        intros;
                        rewrite ?lookup_insert_ne, ?lookup_delete_ne by congruence;
                        auto).
    - trivial. }
  intros Ht. apply (Hr st); [|exact Ht]. now intros t' d'.
Qed.

(** ** The bounding box of an area *)

Lemma hoare_bind_exact {X Y} (m : M X) (k : X -> M Y) (Q : result Y -> state -> Prop)
    (x : X) (s s1 : state) :
  m s = (Ok x, s1) -> hoare (eq s1) (k x) Q -> hoare (eq s) (bind m k) Q.
Proof.
  intros E Hk s' <-. unfold bind. rewrite E. now apply Hk.
Qed.

Lemma get_geographic_info_first (z id : Z) (envelope polygon : string)
    (rest : list row) (w : World) (st : state) :
  execute_fetchall (geographic_query [pretty z]) (world st)
  = (Ok ((id, Some envelope, Some polygon) :: rest), w) ->
  Forall (fun x => is_Some (snd (fst x)) /\ is_Some (snd x)) rest ->
  exists infos,
    get_geographic_info [Some z] st
    = (Ok ((id, strip envelope, strip polygon) :: infos), set_world w st).
Proof.
  intros He Hf. unfold get_geographic_info, bind, lift, call_world. simpl.
  rewrite He. simpl. destruct (strip_rows_Ok _ Hf) as (infos & -> & _).
  now exists infos.
Qed.

(** X13. For a configuration with a non-zero area id and no bounding box,
    once the locale is installed and the query is answered by rows without
    null column, the bounding box [render] works with is the one parsed from
    the stripped envelope of the first row, whatever the other rows are:
    if the envelope parses, the configuration holds that box when [render]
    ends, however it ends; if parsing raises, [render] raises the same
    exception and no temporary directory has been made. *)
Theorem render_bounding_box_from_envelope (self : OCitySMap) (renderer_name : string)
    (output_formats : list string) (file_prefix : string) (st : state)
    (z id : Z) (i : I18n) (w1 w2 : World) (envelope polygon : string)
    (rest : list row) :
  osmid (config st) = Some z ->
  z <> 0%Z ->
  bounding_box (config st) = None ->
  install_translation (language (config st)) (_locale_path self) (world st)
  = (Ok i, w1) ->
  execute_fetchall (geographic_query [pretty z]) w1
  = (Ok ((id, Some envelope, Some polygon) :: rest), w2) ->
  Forall (fun x => is_Some (snd (fst x)) /\ is_Some (snd x)) rest ->
  (forall b, parse_wkt (strip envelope) = Ok b ->
             bounding_box
               (config (snd (render self renderer_name output_formats file_prefix st)))
             = Some b)
  /\ (forall e, parse_wkt (strip envelope) = Raise e ->
                fst (render self renderer_name output_formats file_prefix st) = Raise e
                /\ tmp (snd (render self renderer_name output_formats file_prefix st))
                   = tmp st).
Proof.
  intros Ho Hz Hb Hi He Hf.
  assert (Hg : osmid_given (Some z) = true).
  { simpl. apply negb_true_iff. now apply Z.eqb_neq. }
  set (s2 := snd (set_rtl (isrtl i) (set_world w1 st))).
  destruct (get_geographic_info_first z id envelope polygon rest w2 s2 He Hf)
    as [infos Hinfo].
  assert (Htry : forall handler,
             try_except
               (bind (get_geographic_info [Some z]) (fun infos => lift (item0 infos)))
               handler s2
             = (Ok (id, strip envelope, strip polygon), set_world w2 s2)).
  { intros handler. unfold try_except.
    now rewrite (bind_run _ _ _ _ _ Hinfo). }
  split.
  - intros b Hp.
    assert (Hq : hoare (eq st) (render_before_try self renderer_name output_formats)
                   (fun _ s => bounding_box (config s) = Some b)).
    { unfold render_before_try. cbv zeta.
      apply (hoare_bind_exact get_config _ _ (config st) st st eq_refl). cbv beta.
      rewrite Ho, Hb, Hg. cbn [orb].
      apply (hoare_bind_exact (ret tt) _ _ tt st st eq_refl).
      apply (hoare_bind_exact _ _ _ i st (set_world w1 st));
        [unfold call_world; now rewrite Hi|].
      apply (hoare_bind_exact (set_rtl (isrtl i)) _ _ tt (set_world w1 st) s2 eq_refl).
      apply (hoare_bind_exact _ _ _ _ s2 _ (Htry _)).
      apply (hoare_bind_exact _ _ _ b (set_world w2 s2) (set_world w2 s2));
        [unfold lift; simpl; now rewrite Hp|].
      apply (hoare_bind_exact (set_bounding_box b) _ _ tt (set_world w2 s2)
               (snd (set_bounding_box b (set_world w2 s2))) eq_refl).
      intros s <-.
      refine (stable_use (fun s => bounding_box (config s) = Some b) _
                (snd (set_bounding_box b (set_world w2 s2))) _ eq_refl).
      frame_steps ltac:(auto). }
    assert (Hr : hoare (eq st) (render self renderer_name output_formats file_prefix)
                   (fun _ s => bounding_box (config s) = Some b)).
    { unfold render. eapply hoare_bind; [exact Hq | | trivial].
      intros v s Hs.
      refine (stable_use (fun s => bounding_box (config s) = Some b) _ s _ Hs).
      frame_steps ltac:(auto). }
    exact (Hr st eq_refl).
  - intros e Hp.
    assert (E : render_before_try self renderer_name output_formats st
                = (Raise e, set_world w2 s2)).
    { unfold render_before_try.
      rewrite (bind_run get_config _ st st (config st) eq_refl). cbv beta zeta.
      rewrite Ho, Hb, Hg. cbn [orb].
      rewrite (bind_run (ret tt) _ st st tt eq_refl).
      rewrite (bind_run (call_world (install_translation (language (config st))
                                       (_locale_path self)))
                 _ st (set_world w1 st) i)
        by (unfold call_world; now rewrite Hi).
      rewrite (bind_run (set_rtl (isrtl i)) _ (set_world w1 st) s2 tt eq_refl).
      rewrite (bind_run _ _ _ _ _ (Htry _)).
      apply bind_fail. unfold lift. simpl. now rewrite Hp. }
    rewrite (render_fails_before_try _ _ _ _ _ _ _ E). now split.
Qed.

(** ** The resolution of raster images *)

(** X14. For an instance whose parser has a section [rendering], as every
    instance whose registry was loaded has, the resolution of the [png]
    format is 300 when the option [png_dpi] is missing, the integer of the
    option when [int] accepts it, and a [ValueError] otherwise: a malformed
    value is not replaced by the default. *)
Theorem png_dpi_cases (self : OCitySMap) (reg : list Stylesheet) :
  create_all_from_config (_parser self) = Ok reg ->
  match get (_parser self) "rendering" "png_dpi" with
  | Ok v =>
      match int_of_str v with
      | Some dpi => png_dpi self = Ok dpi
      | None => exists msg, png_dpi self = Raise (ValueError msg)
      end
  | Raise _ =>
      has_option (_parser self) "rendering" "png_dpi" = false
      /\ png_dpi self = Ok 300%Z
  end.
Proof.
  intros Hc. destruct (create_all_from_config_Ok _ _ Hc) as (styles & Hs & _).
  unfold png_dpi, int_cast.
  destruct (get (_parser self) "rendering" "png_dpi") as [v|e] eqn:Eg.
  - destruct (int_of_str v); eauto.
  - unfold get in Eg, Hs. unfold has_option. simpl in *.
    destruct (_sections (_parser self) !! "rendering") as [opts|]; [|discriminate].
    destruct (opts !! optionxform "png_dpi"); [discriminate|].
    destruct (_defaults (_parser self) !! optionxform "png_dpi"); [discriminate|].
    injection Eg as <-. split; [|reflexivity].
    rewrite !bool_decide_eq_false_2 by (intros [? ?]; discriminate). reflexivity.
Qed.
(** ** What [render] writes into the configuration *)

Lemma get_geographic_info_config (osmids : list (option Z)) (s : state) :
  config (snd (get_geographic_info osmids s)) = config s.
Proof.
  unfold get_geographic_info, bind, lift, call_world.
  destruct (map_result int_of_osmid osmids); [|reflexivity].
  destruct (execute_fetchall _ _) as [[records|e] w]; reflexivity.
Qed.

Lemma get_geographic_info_world (osmids : list (option Z)) (s s' : state) :
  world s = world s' ->
  fst (get_geographic_info osmids s) = fst (get_geographic_info osmids s').
Proof.
  intros Hw. unfold get_geographic_info, bind, lift, call_world. rewrite Hw.
  destruct (map_result int_of_osmid osmids); [|reflexivity].
  destruct (execute_fetchall _ _) as [[records|e] w]; reflexivity.
Qed.


Lemma render_from_before_try (I : state -> Prop) (self : OCitySMap)
    (renderer_name : string) (output_formats : list string) (file_prefix : string)
    (st : state) :
  (forall v, stable I (try_finally (render_outputs self v file_prefix)
                         (_cleanup_tempdir (tmpdir_ v)))) ->
  I (snd (render_before_try self renderer_name output_formats st)) ->
  I (snd (render self renderer_name output_formats file_prefix st)).
Proof.
  intros Hs. unfold render, bind.
  destruct (render_before_try self renderer_name output_formats st) as [[v|e] s0];
    simpl; [|trivial].
  intros HI. exact (stable_use I _ s0 (Hs v) HI).
Qed.

Lemma render_before_try_refused (self : OCitySMap) (renderer_name : string)
    (output_formats : list string) (st : state) :
  osmid_given (osmid (config st)) || bool_decide (is_Some (bounding_box (config st)))
  = false ->
  snd (render_before_try self renderer_name output_formats st) = st.
Proof.
  intros Hp. unfold render_before_try.
  rewrite (bind_run get_config _ st st (config st) eq_refl). cbv beta zeta.
  now rewrite Hp.
Qed.

Lemma render_before_try_no_locale (self : OCitySMap) (renderer_name : string)
    (output_formats : list string) (st : state) (e : exn) (w1 : World) :
  osmid_given (osmid (config st)) || bool_decide (is_Some (bounding_box (config st)))
  = true ->
  install_translation (language (config st)) (_locale_path self) (world st)
  = (Raise e, w1) ->
  render_before_try self renderer_name output_formats st = (Raise e, set_world w1 st).
Proof.
  intros Hp Hi. unfold render_before_try.
  rewrite (bind_run get_config _ st st (config st) eq_refl). cbv beta zeta.
  rewrite Hp. rewrite (bind_run (ret tt) _ st st tt eq_refl).
  apply bind_fail. unfold call_world. now rewrite Hi.
Qed.

(** Once the locale is installed, the flag is set and nothing resets it. *)
Lemma render_before_try_rtl (self : OCitySMap) (renderer_name : string)
    (output_formats : list string) (st : state) (i : I18n) (w1 : World) :
  osmid_given (osmid (config st)) || bool_decide (is_Some (bounding_box (config st)))
  = true ->
  install_translation (language (config st)) (_locale_path self) (world st)
  = (Ok i, w1) ->
  rtl (config (snd (render_before_try self renderer_name output_formats st)))
  = Some (isrtl i).
Proof.
  intros Hp Hi. unfold render_before_try.
  rewrite (bind_run get_config _ st st (config st) eq_refl). cbv beta zeta.
  rewrite Hp. rewrite (bind_run (ret tt) _ st st tt eq_refl).
  rewrite (bind_run (call_world (install_translation (language (config st))
                                   (_locale_path self)))
             _ st (set_world w1 st) i)
    by (unfold call_world; now rewrite Hi).
  rewrite (bind_run (set_rtl (isrtl i)) _ (set_world w1 st)
             (snd (set_rtl (isrtl i) (set_world w1 st))) tt eq_refl).
  refine (stable_use (fun s => rtl (config s) = Some (isrtl i)) _
            (snd (set_rtl (isrtl i) (set_world w1 st))) _ eq_refl).
  frame_steps ltac:(auto).
Qed.

(** The lookup of the area, in the state the installation of the locale
    leaves: what [render] does with its outcome when the configuration has
    no bounding box. *)
Lemma render_before_try_box (self : OCitySMap) (renderer_name : string)
    (output_formats : list string) (st : state) (i : I18n) (w1 : World) :
  osmid_given (osmid (config st)) = true ->
  bounding_box (config st) = None ->
  install_translation (language (config st)) (_locale_path self) (world st)
  = (Ok i, w1) ->
  bounding_box (config (snd (render_before_try self renderer_name output_formats st)))
  = match fst (get_geographic_info [osmid (config st)] (set_world w1 st)) with
    | Ok (info :: _) =>
        match parse_wkt (snd (fst info)) with
        | Ok b => Some b
        | Raise _ => None
        end
    | _ => None
    end.
Proof.
  intros Hg Hb Hi.
  set (s2 := snd (set_rtl (isrtl i) (set_world w1 st))).
  rewrite (get_geographic_info_world _ (set_world w1 st) s2 eq_refl).
  assert (Hc : bounding_box (config (snd (get_geographic_info [osmid (config st)] s2)))
               = None)
    by (rewrite get_geographic_info_config; exact Hb).
  unfold render_before_try.
  rewrite (bind_run get_config _ st st (config st) eq_refl). cbv beta zeta.
  rewrite Hg, Hb. cbn [orb].
  rewrite (bind_run (ret tt) _ st st tt eq_refl).
  rewrite (bind_run (call_world (install_translation (language (config st))
                                   (_locale_path self)))
             _ st (set_world w1 st) i)
    by (unfold call_world; now rewrite Hi).
  rewrite (bind_run (set_rtl (isrtl i)) _ (set_world w1 st) s2 tt eq_refl).
  destruct (get_geographic_info [osmid (config st)] s2) as [[[|info infos]|e] s3] eqn:E;
    simpl in Hc |- *.
  - rewrite (bind_fail _ _ s2 s3
               (AssertionError "OSM ID not found in the database!"));
      [exact Hc|].
    unfold try_except. now rewrite (bind_run _ _ _ _ _ E).
  - rewrite (bind_run _ _ s2 s3 info)
      by (unfold try_except; now rewrite (bind_run _ _ _ _ _ E)).
    destruct (parse_wkt (snd (fst info))) as [b|e] eqn:Ep.
    + rewrite (bind_run (lift (Ok b)) _ s3 s3 b eq_refl).
      rewrite (bind_run (set_bounding_box b) _ s3 (snd (set_bounding_box b s3)) tt
                 eq_refl).
      refine (stable_use (fun s => bounding_box (config s) = Some b) _
                (snd (set_bounding_box b s3)) _ eq_refl).
      frame_steps ltac:(auto).
    + now rewrite (bind_fail (lift (Raise e)) _ s3 s3 e eq_refl).
  - assert (Ht : exists e', try_except
                   (bind (get_geographic_info [osmid (config st)])
                         (fun infos => lift (item0 infos)))
                   (fun e => match e with
                             | IndexError _ =>
                                 raise (AssertionError
                                          "OSM ID not found in the database!")
                             | _ => raise e
                             end) s2
                 = (Raise e', s3)).
    { unfold try_except. rewrite (bind_fail _ _ _ _ _ E).
      destruct e; eexists; reflexivity. }
    destruct Ht as [e' Ht]. now rewrite (bind_fail _ _ s2 s3 e' Ht).
Qed.

(** C4, as amended. Whatever the outcome of [render], the title, the area
    id, the language, the stylesheet and the paper width and height of the
    configuration are what they were when the call started, and so is the
    bounding box when the configuration had one. When it had none, the
    bounding box after the call is the one parsed from the envelope of the
    first entry that [get_geographic_info] gives for the area id, provided
    [render] gets that far: the area id is given, the locale is installed,
    the lookup returns an entry and its envelope parses; otherwise it is
    still [None]. The flag [rtl] after the call is the one of the installed
    locale when an area id or a bounding box is given and the locale is
    installed, and what it was otherwise. *)
Theorem render_keeps_configuration (self : OCitySMap) (renderer_name : string)
    (output_formats : list string) (file_prefix : string) (st : state) :
  let c := config st in
  let c' := config (snd (render self renderer_name output_formats file_prefix st)) in
  let installed :=
    install_translation (language c) (_locale_path self) (world st) in
  (title c' = title c /\ osmid c' = osmid c /\ language c' = language c
   /\ stylesheet c' = stylesheet c
   /\ paper_width_mm c' = paper_width_mm c /\ paper_height_mm c' = paper_height_mm c
   /\ (forall b, bounding_box c = Some b -> bounding_box c' = Some b))
  /\ (bounding_box c = None ->
      bounding_box c'
      = if osmid_given (osmid c) then
          match fst installed with
          | Ok _ =>
              match fst (get_geographic_info [osmid c]
                           (set_world (snd installed) st)) with
              | Ok (info :: _) =>
                  match parse_wkt (snd (fst info)) with
                  | Ok b => Some b
                  | Raise _ => None
                  end
              | _ => None
              end
          | Raise _ => None
          end
        else None)
  /\ rtl c'
     = if osmid_given (osmid c) || bool_decide (is_Some (bounding_box c)) then
         match fst installed with
         | Ok i => Some (isrtl i)
         | Raise _ => rtl c
         end
       else rtl c.
Proof.
  intros c c' installed. subst c c' installed. split; [|split].
  - exact (render_kept self renderer_name output_formats file_prefix st).
  - intros Hb.
    apply (render_from_before_try (fun s => bounding_box (config s) = _));
      [intros v; frame_steps ltac:(auto)|].
    destruct (osmid_given (osmid (config st))) eqn:Hg.
    + destruct (install_translation _ _ _) as [[i|e] w1] eqn:Hi; simpl.
      * now apply render_before_try_box with i.
      * rewrite (render_before_try_no_locale _ _ _ _ e w1); trivial.
        now rewrite Hg.
    + rewrite render_before_try_refused; [exact Hb|].
      rewrite Hg, Hb. reflexivity.
  - apply (render_from_before_try (fun s => rtl (config s) = _));
      [intros v; frame_steps ltac:(auto)|].
    destruct (osmid_given _ || bool_decide _) eqn:Hp.
    + destruct (install_translation _ _ _) as [[i|e] w1] eqn:Hi; simpl.
      * now apply render_before_try_rtl with w1.
      * now rewrite (render_before_try_no_locale _ _ _ _ e w1).
    + now rewrite render_before_try_refused.
Qed.

End MorePipelineProperties.

(** ** The database connection *)

Section DatabaseProperties.

Context {B : Builtins} {P : Psycopg2}.

(** X15. When the parser has a section [datasource], the request timeout is
    always defined: it is the integer of the option [request_timeout] when
    [int] accepts it and 15 minutes otherwise, whether the option is missing
    or malformed. Without the section, looking the timeout up raises
    [NoSectionError]. *)
Theorem request_timeout_cases (self : OCitySMap) :
  (is_Some (_sections (_parser self) !! "datasource") ->
   match get (_parser self) "datasource" "request_timeout" with
   | Ok v =>
       match int_of_str v with
       | Some minutes => request_timeout self = Ok minutes
       | None => request_timeout self = Ok 15%Z
       end
   | Raise _ => request_timeout self = Ok 15%Z
   end)
  /\ (_sections (_parser self) !! "datasource" = None ->
      request_timeout self = Raise (NoSectionError "datasource")).
Proof.
  unfold request_timeout, get, int_cast. split.
  - intros [opts ->].
    destruct (opts !! optionxform "request_timeout") as [v|]; simpl.
    + now destruct (int_of_str v).
    + destruct (_defaults (_parser self) !! optionxform "request_timeout") as [v|];
        simpl; [now destruct (int_of_str v) | reflexivity].
  - now intros ->.
Qed.

Lemma db_bind_Ok {X Y} (m : DB X) (k : X -> DB Y) (s s' : db_state) (y : Y) :
  db_bind m k s = (Ok y, s') ->
  exists x s1, m s = (Ok x, s1) /\ k x s1 = (Ok y, s').
Proof.
  unfold db_bind. destruct (m s) as [[x|e] s1]; [|discriminate].
  intros Hk. now exists x, s1.
Qed.

(** X16. When [_get_db] returns a connection, that connection is now the
    attribute [__db], and calling [_get_db] again returns the same
    connection without touching the session: the database is connected to
    and configured once. *)
Theorem get_db_cached (self : OCitySMap) (s s' : db_state) (db : Connection) :
  _get_db self s = (Ok db, s') ->
  __db s' = Some db /\ _get_db self s' = (Ok db, s').
Proof.
  intros Hg.
  assert (Hs : __db s' = Some db).
  { unfold _get_db in Hg. destruct (__db s) as [db0|] eqn:E.
    - now injection Hg as <- <-.
    - repeat (apply db_bind_Ok in Hg as (? & ? & _ & Hg)).
      now injection Hg as <- <-. }
  split; [exact Hs|]. unfold _get_db. now rewrite Hs.
Qed.

(** The steps of [_get_db] and [_set_request_timeout] that do not assign
    [__db]. *)
Lemma on_session_db {X} (f : Session -> result X * Session) (s : db_state) :
  __db (snd (on_session f s)) = __db s.
Proof. unfold on_session. now destruct (f (session s)). Qed.

Lemma db_bind_db {X Y} (m : DB X) (k : X -> DB Y) :
  (forall s, __db (snd (m s)) = __db s) ->
  (forall x s, __db (snd (k x s)) = __db s) ->
  forall s, __db (snd (db_bind m k s)) = __db s.
Proof.
  intros Hm Hk s. unfold db_bind. specialize (Hm s).
  destruct (m s) as [[x|e] s1]; simpl in *; [now rewrite Hk | assumption].
Qed.

Lemma set_request_timeout_db (db : Connection) (timeout_minutes : Z) (s : db_state) :
  __db (snd (_set_request_timeout db timeout_minutes s)) = __db s.
Proof.
  unfold _set_request_timeout.
  repeat (apply db_bind_db; [intros; first [apply on_session_db | reflexivity]
                            | intros ?]).
  reflexivity.
Qed.

Lemma db_bind_Raise {X Y} (m : DB X) (k : X -> DB Y) (s s' : db_state) (e : exn) :
  (forall s, __db (snd (m s)) = __db s) ->
  (forall x s1 s2 e, k x s1 = (Raise e, s2) -> __db s2 = __db s1) ->
  db_bind m k s = (Raise e, s') -> __db s' = __db s.
Proof.
  intros Hm Hk. unfold db_bind. specialize (Hm s).
  destruct (m s) as [[x|e1] s1]; simpl in *.
  - intros Hx. rewrite <- Hm. now apply (Hk x s1 s' e).
  - now intros [= <- <-].
Qed.

(** X17. When [_get_db] raises, the attribute [__db] is left as it was, so
    a failed attempt is not remembered and the next call tries again. When
    one of the options [dbname], [host], [user] and [password] is missing
    from the section [datasource], [_get_db] raises a [KeyError] for a
    missing option before the driver is called: the session is untouched. *)
Theorem get_db_failure (self : OCitySMap) (s : db_state) :
  __db s = None ->
  (forall e s', _get_db self s = (Raise e, s') -> __db s' = None)
  /\ (forall d,
         items (_parser self) "datasource" = Ok d ->
         d !! "dbname" = None \/ d !! "host" = None \/ d !! "user" = None
         \/ d !! "password" = None ->
         exists k, d !! k = None /\ _get_db self s = (Raise (KeyError k), s)).
Proof.
  intros Hn. split.
  - intros e s' Hg. rewrite <- Hn. unfold _get_db in Hg. rewrite Hn in Hg.
    revert Hg.
    repeat (apply db_bind_Raise;
            [intros; first [apply on_session_db | apply set_request_timeout_db
                           | reflexivity]
            | intros ? ? ? ?]).
    discriminate.
  - intros d Hi Hm. unfold _get_db. rewrite Hn.
    unfold db_bind at 1. unfold db_lift at 1. rewrite Hi.
    unfold db_bind, db_lift, getitem.
    destruct (d !! "dbname") eqn:E1; [|now exists "dbname"].
    destruct (d !! "host") eqn:E2; [|now exists "host"].
    destruct (d !! "user") eqn:E3; [|now exists "user"].
    destruct (d !! "password") eqn:E4; [|now exists "password"].
    exfalso. intuition discriminate.
Qed.

(** X18. Once the cursor is made and the two statements are executed,
    [_set_request_timeout] reads the first column of the first row of the
    answer for its debug record: with an empty answer, or a first row
    without column, it raises an [IndexError] although the timeout has been
    set; otherwise it returns. The session is the one the driver left. *)
Theorem set_request_timeout_answer (db : Connection) (timeout_minutes : Z)
    (s : db_state) (c : Cursor) (w1 w2 w3 w4 : Session) (rows_ : list (list string)) :
  cursor db (session s) = (Ok c, w1) ->
  execute c (statement_timeout_query timeout_minutes) w1 = (Ok tt, w2) ->
  execute c "show statement_timeout;" w2 = (Ok tt, w3) ->
  fetchall c w3 = (Ok rows_, w4) ->
  _set_request_timeout db timeout_minutes s
  = (match rows_ with
     | (_ :: _) :: _ => Ok tt
     | _ => Raise (IndexError "list index out of range")
     end,
     {| __db := __db s; session := w4 |}).
Proof.
  intros Hc H1 H2 Hf. unfold _set_request_timeout, db_bind, on_session, db_lift.
  rewrite Hc. simpl. rewrite H1. simpl. rewrite H2. simpl. rewrite Hf. simpl.
  destruct rows_ as [|[|x row0] rows_]; reflexivity.
Qed.

End DatabaseProperties.

(** ** The instance *)

Section InstanceProperties.

Context {B : Builtins} {S : System}.

(** X19. An instance that [__init__] returns was read from at least one
    of the given files, or of the two default files for [None], after
    [expanduser]; its registry is the one loaded from its parser and is not
    empty, every stylesheet of [get_all_style_configurations] can be looked
    up by its name, its parser has a section [rendering], and its grid table
    is the given prefix, or nothing for [None], followed by 'grid_squares'. *)
Theorem init_instance (config_files : config_files_arg)
    (grid_table_prefix : option string) (self : OCitySMap) (table : string) :
  OCitySMap__init__ config_files grid_table_prefix = Ok (self, table) ->
  (exists f files_read,
      read (map expanduser
              match config_files with
              | no_config_files => ["/etc/ocitysmap.conf"; "~/.ocitysmap.conf"]
              | one_config_file p => [p]
              | config_file_list l => l
              end)
      = Ok (_parser self, f :: files_read))
  /\ create_all_from_config (_parser self) = Ok (get_all_style_configurations self)
  /\ get_all_style_configurations self <> []
  /\ (forall s, In s (get_all_style_configurations self) ->
        exists n s', name s = Some n
                     /\ get_stylesheet_by_name (get_all_style_configurations self) n
                        = Ok s'
                     /\ name s' = Some n)
  /\ is_Some (_sections (_parser self) !! "rendering")
  /\ table = default "" grid_table_prefix ++ "grid_squares"
  /\ _locale_path self = locale_path.
Proof.
  unfold OCitySMap__init__.
  destruct (read _) as [[parser files_read]|] eqn:Er; simpl; [|discriminate].
  destruct files_read as [|f files_read]; [discriminate|].
  destruct (create_all_from_config parser) as [registry|] eqn:Ec; simpl; [|discriminate].
  intros [= <- <-]. unfold get_all_style_configurations. simpl.
  destruct (loaded_registry_named _ _ Ec) as [Hne Hs].
  split; [now exists f, files_read|].
  repeat split; trivial.
  - intros s Hin. destruct (Hs s Hin) as (n & pth & Hn & _).
    destruct (get_stylesheet_by_name_finds _ _ _ Hin Hn) as (s' & Hg & Hn').
    now exists n, s'.
  - destruct (create_all_from_config_Ok _ _ Ec) as (styles & Hg & _).
    unfold get in Hg. destruct (_sections parser !! "rendering"); [eauto | discriminate].
Qed.

End InstanceProperties.

(** * The further properties, on concrete inputs *)

(** C4, witness. A bounding box that the configuration has is kept; without
    one, the bounding box after the call is the envelope of the area when
    the area is found and is still [None] when it is not; the title is
    kept and the flag is the one of the installed locale. *)
Lemma render_keeps_configuration_witness :
  bounding_box
    (config (snd (Scripted.run Scripted.nominal
                    (Scripted.configuration (Some (-943886)%Z) (Some "bbox")) ["pdf"])))
  = Some "bbox"
  /\ bounding_box
       (config (snd (Scripted.run Scripted.nominal
                       (Scripted.configuration (Some (-943886)%Z) None) ["pdf"])))
     = Some "POLYGON((1.9 48.6,2.1 48.6,2.1 48.8,1.9 48.8,1.9 48.6))"
  /\ bounding_box
       (config (snd (Scripted.run Scripted.unknown_area
                       (Scripted.configuration (Some (-943886)%Z) None) ["pdf"])))
     = None
  /\ title
       (config (snd (Scripted.run Scripted.nominal
                       (Scripted.configuration (Some (-943886)%Z) None) ["pdf"])))
     = Some "Chevreuse"
  /\ rtl
       (config (snd (Scripted.run Scripted.nominal
                       (Scripted.configuration (Some (-943886)%Z) None) ["pdf"])))
     = Some false.
Proof.
  destruct (@render_keeps_configuration Scripted.builtins Scripted.handles
              (Scripted.collaborators Scripted.nominal) Scripted.self "plain" ["pdf"]
              "/tmp/mymap"
              (Scripted.start (Scripted.configuration (Some (-943886)%Z) (Some "bbox"))))
    as ((_ & _ & _ & _ & _ & _ & Hk) & _ & _).
  destruct (@render_keeps_configuration Scripted.builtins Scripted.handles
              (Scripted.collaborators Scripted.nominal) Scripted.self "plain" ["pdf"]
              "/tmp/mymap"
              (Scripted.start (Scripted.configuration (Some (-943886)%Z) None)))
    as ((Ht & _) & Hb & Hr).
  destruct (@render_keeps_configuration Scripted.builtins Scripted.handles
              (Scripted.collaborators Scripted.unknown_area) Scripted.self "plain"
              ["pdf"] "/tmp/mymap"
              (Scripted.start (Scripted.configuration (Some (-943886)%Z) None)))
    as (_ & Hn & _).
  split; [exact (Hk "bbox" eq_refl)|].
  split; [exact (Hb eq_refl)|].
  split; [exact (Hn eq_refl)|].
  split; [exact Ht | exact Hr].
Defined.

(** X1, witness. The registry of the scripted parser, where [Night] is
    looked up. *)
Lemma loaded_registry_lookup_witness :
  @create_all_from_config Scripted.builtins Scripted.parser
  = Ok [Scripted.default_style; Scripted.night_style]
  /\ get_stylesheet_by_name [Scripted.default_style; Scripted.night_style] "Night"
     = Ok Scripted.night_style.
Proof.
  assert (E : @create_all_from_config Scripted.builtins Scripted.parser
              = Ok [Scripted.default_style; Scripted.night_style])
    by (vm_compute; reflexivity).
  split; [exact E|].
  destruct (proj2 (@loaded_registry_lookup Scripted.builtins _ _ E) Scripted.night_style)
    as (n & pth & Hn & _ & _ & Hu).
  - right. now left.
  - injection Hn as <-. apply Hu. simpl.
    repeat constructor; set_solver.
Defined.

(** X2, witness. The two stylesheets of the scripted parser come in the
    order of the option. *)
Lemma loaded_registry_order_witness :
  get Scripted.parser "rendering" "available_stylesheets" = Ok "default,night"
  /\ Forall2 (fun section s =>
                @create_from_config_section Scripted.builtins Scripted.parser section
                = Ok s
                /\ get Scripted.parser section "name" = Ok (default "" (name s)))
             (split_on "," "default,night")
             [Scripted.default_style; Scripted.night_style]
  /\ join "," (split_on "," "default,night") = "default,night".
Proof.
  split; [reflexivity|].
  destruct (@loaded_registry_order Scripted.builtins Scripted.parser
              [Scripted.default_style; Scripted.night_style] "default,night")
    as (H1 & _ & H3 & _).
  - vm_compute. reflexivity.
  - reflexivity.
  - now split.
Defined.

(** X3, witness. With a space after the comma, the second piece is not the
    name of a section and loading raises [NoSectionError] for it. *)
Lemma create_all_from_config_errors_witness :
  @create_from_config_section Scripted.builtins Scripted.spaced " night"
  = Raise (NoSectionError " night")
  /\ @create_all_from_config Scripted.builtins Scripted.spaced
     = Raise (NoSectionError " night").
Proof.
  destruct (@create_all_from_config_errors Scripted.builtins Scripted.spaced)
    as (_ & _ & H3 & H4).
  assert (E : @create_from_config_section Scripted.builtins Scripted.spaced " night"
              = Raise (NoSectionError " night"))
    by (apply H4; [reflexivity | discriminate]).
  split; [exact E|].
  apply (H3 "default, night" ["default"] " night" []).
  - reflexivity.
  - reflexivity.
  - repeat constructor. exists Scripted.default_style. vm_compute. reflexivity.
  - exact E.
  - discriminate.
Defined.

(** X4, witness. An integer id and [None]. *)
Lemma get_geographic_info_None_witness :
  @get_geographic_info Scripted.handles (Scripted.collaborators Scripted.nominal)
    [Some (-943886)%Z; None]
    (Scripted.start (Scripted.configuration (Some (-943886)%Z) None))
  = (Raise (TypeError "int() argument must be a string or a number, not 'NoneType'"),
     Scripted.start (Scripted.configuration (Some (-943886)%Z) None)).
Proof.
  apply (@get_geographic_info_None Scripted.handles
           (Scripted.collaborators Scripted.nominal)).
  right. now left.
Defined.

(** X5, witness. The row of the area, and a row with a null polygon. *)
Lemma get_geographic_info_rows_witness :
  (exists infos,
      @get_geographic_info Scripted.handles (Scripted.collaborators Scripted.nominal)
        [Some (-943886)%Z]
        (Scripted.start (Scripted.configuration (Some (-943886)%Z) None))
      = (Ok infos,
         @set_world Scripted.handles ["execute"]
           (Scripted.start (Scripted.configuration (Some (-943886)%Z) None)))
      /\ infos !! 0%nat
         = Some ((-943886)%Z,
                 "POLYGON((1.9 48.6,2.1 48.6,2.1 48.8,1.9 48.8,1.9 48.6))",
                 "POLYGON((2 48.7,2.05 48.7,2.05 48.75,2 48.7))"))
  /\ @get_geographic_info Scripted.handles
       (Scripted.collaborators Scripted.null_polygon)
       [Some (-943886)%Z]
       (Scripted.start (Scripted.configuration (Some (-943886)%Z) None))
     = (Raise (AssertionError "Invalid database structure!"),
        @set_world Scripted.handles ["execute"]
          (Scripted.start (Scripted.configuration (Some (-943886)%Z) None))).
Proof.
  split.
  - destruct (proj1 (@get_geographic_info_rows Scripted.handles
                       (Scripted.collaborators Scripted.nominal)
                       [Some (-943886)%Z] [(-943886)%Z] [Scripted.chevreuse]
                       ["execute"]
                       (Scripted.start (Scripted.configuration (Some (-943886)%Z) None))
                       eq_refl eq_refl))
      as (infos & Hg & _ & Hi & _).
    + repeat constructor; simpl; eauto.
    + exists infos. split; [exact Hg|].
      exact (Hi 0%nat _ _ _ eq_refl).
  - apply (proj2 (@get_geographic_info_rows Scripted.handles
                    (Scripted.collaborators Scripted.null_polygon)
                    [Some (-943886)%Z] [(-943886)%Z] (Scripted.rows Scripted.null_polygon)
                    ["execute"]
                    (Scripted.start (Scripted.configuration (Some (-943886)%Z) None))
                    eq_refl eq_refl)).
    intros Hf. apply Forall_cons in Hf as [[_ [a Ha]] _]. discriminate.
Defined.

(** X6, witness. The directory of the shape files, two levels deep, is
    removed and the other directory stays. *)
Lemma cleanup_tempdir_removes_tree_witness :
  fst (@_cleanup_tempdir Scripted.handles "ocitysmapa1"
         (Scripted.busy (Scripted.configuration None None)))
  = Ok tt
  /\ tmp (snd (@_cleanup_tempdir Scripted.handles "ocitysmapa1"
                 (Scripted.busy (Scripted.configuration None None))))
       !! "ocitysmapa1" = None
  /\ tmp (snd (@_cleanup_tempdir Scripted.handles "ocitysmapa1"
                 (Scripted.busy (Scripted.configuration None None))))
       !! "ocitysmapzz" = Some [("index.csv", File)].
Proof.
  destruct (@cleanup_tempdir_removes_tree Scripted.handles "ocitysmapa1"
              Scripted.shape_files (Scripted.busy (Scripted.configuration None None)))
    as (H1 & H2 & H3).
  - reflexivity.
  - reflexivity.
  - split; [now rewrite H1|]. split; [exact H2|].
    rewrite H3; [reflexivity | discriminate].
Defined.

(** X7, witness. A directory that does not exist. *)
Lemma cleanup_tempdir_frame_witness :
  @_cleanup_tempdir Scripted.handles "ocitysmapb2"
    (Scripted.busy (Scripted.configuration None None))
  = (Raise (OSError "No such file or directory"),
     Scripted.busy (Scripted.configuration None None)).
Proof.
  apply (proj2 (@cleanup_tempdir_frame Scripted.handles "ocitysmapb2"
                  (Scripted.busy (Scripted.configuration None None)))).
  reflexivity.
Defined.

(** X9, witness. The area id 0 and no bounding box. *)
Lemma render_needs_area_or_box_witness :
  Scripted.run Scripted.nominal (Scripted.configuration (Some 0%Z) None) ["pdf"]
  = (Raise (AssertionError "At least an OSM ID or a bounding box must be provided!"),
     Scripted.start (Scripted.configuration (Some 0%Z) None)).
Proof.
  apply (@render_needs_area_or_box Scripted.builtins Scripted.handles
           (Scripted.collaborators Scripted.nominal)).
  - now right.
  - reflexivity.
Defined.

(** X10, witness. The area is not in the database. *)
Lemma render_area_not_found_witness :
  fst (Scripted.run Scripted.unknown_area
         (Scripted.configuration (Some (-943886)%Z) None) ["pdf"])
  = Raise (AssertionError "OSM ID not found in the database!")
  /\ tmp (snd (Scripted.run Scripted.unknown_area
                 (Scripted.configuration (Some (-943886)%Z) None) ["pdf"]))
     = ∅.
Proof.
  unfold Scripted.run.
  rewrite (@render_area_not_found Scripted.builtins Scripted.handles
             (Scripted.collaborators Scripted.unknown_area) Scripted.self "plain"
             ["pdf"] "/tmp/mymap"
             (Scripted.start (Scripted.configuration (Some (-943886)%Z) None))
             (-943886)%Z false ["install_translation"]
             ["install_translation"; "execute"]).
  - now split.
  - reflexivity.
  - discriminate.
  - reflexivity.
  - left. reflexivity.
Defined.

(** X11, witness. [PDF] and [csv] are asked for and nothing fails. *)
Lemma render_success_witness :
  fst (Scripted.run Scripted.nominal
         (Scripted.configuration (Some (-943886)%Z) None) ["PDF"; "csv"])
  = Ok tt
  /\ "/tmp/mymap.pdf"
       ∈ outputs (snd (Scripted.run Scripted.nominal
                         (Scripted.configuration (Some (-943886)%Z) None)
                         ["PDF"; "csv"]))
  /\ tmp (snd (Scripted.run Scripted.nominal
                 (Scripted.configuration (Some (-943886)%Z) None) ["PDF"; "csv"]))
     = ∅.
Proof.
  assert (E : Scripted.run Scripted.nominal
                (Scripted.configuration (Some (-943886)%Z) None) ["PDF"; "csv"]
              = (Ok tt,
                 snd (Scripted.run Scripted.nominal
                        (Scripted.configuration (Some (-943886)%Z) None)
                        ["PDF"; "csv"])))
    by (vm_compute; reflexivity).
  destruct (@render_success Scripted.builtins Scripted.handles
              (Scripted.collaborators Scripted.nominal) Scripted.self "plain"
              ["PDF"; "csv"] "/tmp/mymap"
              (Scripted.start (Scripted.configuration (Some (-943886)%Z) None))
              _ (scripted_tidy _) E)
    as (H1 & H2 & _).
  split; [now rewrite E|]. split; [|exact H1].
  apply (H2 "PDF"); [now left | discriminate].
Defined.

(** X12, witness. The first candidate name is taken by an older directory:
    it is still there, with its entries, after a call that fails. *)
Lemma render_keeps_other_tempdirs_witness :
  tmp (snd (@render Scripted.builtins Scripted.handles
              (Scripted.collaborators Scripted.canvas_fails) Scripted.self "plain"
              ["pdf"] "/tmp/mymap"
              (Scripted.busy (Scripted.configuration (Some (-943886)%Z) None))))
    !! "ocitysmapa1"
  = Some Scripted.shape_files.
Proof.
  apply (@render_keeps_other_tempdirs Scripted.builtins Scripted.handles
           (Scripted.collaborators Scripted.canvas_fails)).
  reflexivity.
Defined.

(** X13, witness. The bounding box of the area. *)
Lemma render_bounding_box_from_envelope_witness :
  bounding_box
    (config (snd (Scripted.run Scripted.nominal
                    (Scripted.configuration (Some (-943886)%Z) None) ["pdf"])))
  = Some "POLYGON((1.9 48.6,2.1 48.6,2.1 48.8,1.9 48.8,1.9 48.6))".
Proof.
  unfold Scripted.run.
  apply (proj1 (@render_bounding_box_from_envelope Scripted.builtins Scripted.handles
                  (Scripted.collaborators Scripted.nominal) Scripted.self "plain"
                  ["pdf"] "/tmp/mymap"
                  (Scripted.start (Scripted.configuration (Some (-943886)%Z) None))
                  (-943886)%Z (-943886)%Z false ["install_translation"]
                  ["install_translation"; "execute"]
                  "POLYGON((1.9 48.6,2.1 48.6,2.1 48.8,1.9 48.8,1.9 48.6))"
                  "POLYGON((2 48.7,2.05 48.7,2.05 48.75,2 48.7))" []
                  eq_refl ltac:(discriminate) eq_refl eq_refl eq_refl
                  (Forall_nil_2 _))).
  reflexivity.
Defined.

(** X14, witness. A resolution that [int] refuses. *)
Lemma png_dpi_cases_witness :
  exists msg,
    @png_dpi Scripted.builtins
      {| _parser := Scripted.with_png_dpi "72dpi"; _locale_path := "../locale";
         STYLESHEET_REGISTRY := [] |}
    = Raise (ValueError msg).
Proof.
  assert (E : @create_all_from_config Scripted.builtins (Scripted.with_png_dpi "72dpi")
              = Ok [Scripted.default_style; Scripted.night_style])
    by (vm_compute; reflexivity).
  exact (@png_dpi_cases Scripted.builtins
           {| _parser := Scripted.with_png_dpi "72dpi"; _locale_path := "../locale";
              STYLESHEET_REGISTRY := [] |} _ E).
Defined.

(** X15, witness. A timeout that [int] refuses. *)
Lemma request_timeout_cases_witness :
  @request_timeout Scripted.builtins (ScriptedServices.instance "localhost" "soon")
  = Ok 15%Z.
Proof.
  assert (E : is_Some (_sections (_parser (ScriptedServices.instance "localhost" "soon"))
                         !! "datasource"))
    by (vm_compute; eauto).
  exact (proj1 (@request_timeout_cases Scripted.builtins
                  (ScriptedServices.instance "localhost" "soon")) E).
Defined.

(** X16, witness. The first call connects and sets the timeout of 30
    minutes; the second call returns the same connection and the journal of
    the session is as the first call left it. *)
Lemma get_db_cached_witness :
  @_get_db Scripted.builtins (ScriptedServices.psycopg2 [["30min"]])
    (ScriptedServices.instance "localhost" "30")
    (@Build_db_state (ScriptedServices.psycopg2 [["30min"]]) None [])
  = (Ok "maposmatic@localhost/gis",
     @Build_db_state (ScriptedServices.psycopg2 [["30min"]])
       (Some "maposmatic@localhost/gis")
       ["connect"; "encoding utf8"; "set session statement_timeout=1800000;";
        "show statement_timeout;"])
  /\ @_get_db Scripted.builtins (ScriptedServices.psycopg2 [["30min"]])
       (ScriptedServices.instance "localhost" "30")
       (@Build_db_state (ScriptedServices.psycopg2 [["30min"]])
          (Some "maposmatic@localhost/gis")
          ["connect"; "encoding utf8"; "set session statement_timeout=1800000;";
           "show statement_timeout;"])
     = (Ok "maposmatic@localhost/gis",
        @Build_db_state (ScriptedServices.psycopg2 [["30min"]])
          (Some "maposmatic@localhost/gis")
          ["connect"; "encoding utf8"; "set session statement_timeout=1800000;";
           "show statement_timeout;"]).
Proof.
  assert (E : @_get_db Scripted.builtins (ScriptedServices.psycopg2 [["30min"]])
                (ScriptedServices.instance "localhost" "30")
                (@Build_db_state (ScriptedServices.psycopg2 [["30min"]]) None [])
              = (Ok "maposmatic@localhost/gis",
                 @Build_db_state (ScriptedServices.psycopg2 [["30min"]])
                   (Some "maposmatic@localhost/gis")
                   ["connect"; "encoding utf8";
                    "set session statement_timeout=1800000;";
                    "show statement_timeout;"]))
    by (vm_compute; reflexivity).
  split; [exact E|].
  exact (proj2 (@get_db_cached Scripted.builtins (ScriptedServices.psycopg2 [["30min"]])
                  _ _ _ _ E)).
Defined.

(** X17, witness. The host cannot be reached: nothing is remembered. The
    section has no password: the driver is not called. *)
Lemma get_db_failure_witness :
  (exists s',
      @_get_db Scripted.builtins (ScriptedServices.psycopg2 [["30min"]])
        (ScriptedServices.instance "unreachable" "30")
        (@Build_db_state (ScriptedServices.psycopg2 [["30min"]]) None [])
      = (Raise (Foreign "OperationalError"), s')
      /\ __db s' = None)
  /\ exists k,
      @_get_db Scripted.builtins (ScriptedServices.psycopg2 [["30min"]])
        ScriptedServices.without_password
        (@Build_db_state (ScriptedServices.psycopg2 [["30min"]]) None [])
      = (Raise (KeyError k),
         @Build_db_state (ScriptedServices.psycopg2 [["30min"]]) None []).
Proof.
  split.
  - eexists. split; [vm_compute; reflexivity|].
    apply (proj1 (@get_db_failure Scripted.builtins
                    (ScriptedServices.psycopg2 [["30min"]])
                    (ScriptedServices.instance "unreachable" "30")
                    (@Build_db_state (ScriptedServices.psycopg2 [["30min"]]) None [])
                    eq_refl)
             (Foreign "OperationalError")).
    vm_compute. reflexivity.
  - destruct (proj2 (@get_db_failure Scripted.builtins
                       (ScriptedServices.psycopg2 [["30min"]])
                       ScriptedServices.without_password
                       (@Build_db_state (ScriptedServices.psycopg2 [["30min"]]) None [])
                       eq_refl)
                _ eq_refl)
      as (k & _ & Hk).
    + right. right. right. reflexivity.
    + now exists k.
Defined.

(** X18, witness. The server answers with no row: the timeout of 15
    minutes, in milliseconds, was sent and the call raises. *)
Lemma set_request_timeout_answer_witness :
  @_set_request_timeout (ScriptedServices.psycopg2 []) "db" 15%Z
    (@Build_db_state (ScriptedServices.psycopg2 []) None [])
  = (Raise (IndexError "list index out of range"),
     @Build_db_state (ScriptedServices.psycopg2 []) None
       ["set session statement_timeout=900000;"; "show statement_timeout;"]).
Proof.
  apply (@set_request_timeout_answer (ScriptedServices.psycopg2 []) "db" 15%Z
           (@Build_db_state (ScriptedServices.psycopg2 []) None [])
           "db" [] ["set session statement_timeout=900000;"]
           ["set session statement_timeout=900000;"; "show statement_timeout;"]
           ["set session statement_timeout=900000;"; "show statement_timeout;"] []).
  - reflexivity.
  - reflexivity.
  - reflexivity.
  - reflexivity.
Defined.

(** X19, witness. Only the file of the home directory exists, and a prefix
    is given for the grid table. *)
Lemma init_instance_witness :
  @OCitySMap__init__ Scripted.builtins
    (ScriptedServices.system [("/home/maposmatic/.ocitysmap.conf", Scripted.parser)])
    no_config_files (Some "job42_")
  = Ok ({| _parser := Scripted.parser; _locale_path := "ocitysmap2/../locale";
           STYLESHEET_REGISTRY := [Scripted.default_style; Scripted.night_style] |},
        "job42_grid_squares")
  /\ [Scripted.default_style; Scripted.night_style] <> []
  /\ is_Some (_sections Scripted.parser !! "rendering").
Proof.
  assert (E : @OCitySMap__init__ Scripted.builtins
                (ScriptedServices.system
                   [("/home/maposmatic/.ocitysmap.conf", Scripted.parser)])
                no_config_files (Some "job42_")
              = Ok ({| _parser := Scripted.parser;
                       _locale_path := "ocitysmap2/../locale";
                       STYLESHEET_REGISTRY :=
                         [Scripted.default_style; Scripted.night_style] |},
                    "job42_grid_squares"))
    by (vm_compute; reflexivity).
  split; [exact E|].
  destruct (@init_instance Scripted.builtins _ _ _ _ _ E) as (_ & _ & H2 & _ & H4 & _).
  split; [exact H2 | exact H4].
Defined.
